(** * ax-camp: the stock-price scraper of [data_loader.py] and its page

    A shallow embedding of [StockScraper] ([__init__], [get_stock_data],
    [close_driver]) and of the Streamlit script [app.py], with the part of
    Python, Selenium and pandas they rely on, and the properties of the
    fetch-and-normalise pipeline and of a run of the page.

    Text is a byte string (UTF-8): the column labels and the unit suffix are
    the byte sequences of their Japanese spelling, and a "digit" is an ASCII
    digit. *)

From Stdlib Require Import List String Ascii ZArith Lia Bool Arith.
From Stdlib Require Import DecimalString Sorted Permutation SpecFloat.
From Stdlib Require DecimalPos.
Import ListNotations.
Open Scope string_scope.

(** ** Python: exceptions, results, a state-and-exception monad *)

Module Py.

(** The exception classes the scraper can meet.  [Exception] is the root of
    the model: an exception of any class not listed is an instance of it.
    (Classes deriving from BaseException only, such as KeyboardInterrupt, are
    process signals and not part of the model.) *)
Inductive exn : Set :=
| Exception
| TimeoutException
| NoSuchElementException
| WebDriverException
| ValueError
| IndexError
| KeyError
| TypeError
| AttributeError.

Definition exn_eqb (a b : exn) : bool :=
  match a, b with
  | Exception, Exception
  | TimeoutException, TimeoutException
  | NoSuchElementException, NoSuchElementException
  | WebDriverException, WebDriverException
  | ValueError, ValueError
  | IndexError, IndexError
  | KeyError, KeyError
  | TypeError, TypeError
  | AttributeError, AttributeError => true
  | _, _ => false
  end.

(** [isinstance e cls]: selenium's TimeoutException and
    NoSuchElementException derive from WebDriverException; everything derives
    from Exception. *)
Definition isinstance (e cls : exn) : bool :=
  match cls with
  | Exception => true
  | WebDriverException =>
      match e with
      | WebDriverException | TimeoutException | NoSuchElementException => true
      | _ => false
      end
  | _ => exn_eqb e cls
  end.

Inductive result (A : Type) : Type :=
| Ok (a : A)
| Raise (e : exn).
Arguments Ok {A} a.
Arguments Raise {A} e.

(** A computation over a state [S] that returns or raises; the state it has
    built survives a raise, as the effects of a Python [try] body do. *)
Definition M (S A : Type) : Type := S -> result A * S.

Definition ret {S A} (a : A) : M S A := fun s => (Ok a, s).

Definition raise {S A} (e : exn) : M S A := fun s => (Raise e, s).

Definition bind {S A B} (c : M S A) (k : A -> M S B) : M S B :=
  fun s =>
    match c s with
    | (Ok a, s') => k a s'
    | (Raise e, s') => (Raise e, s')
    end.

Definition lift {S A} (r : result A) : M S A := fun s => (r, s).

Definition gets {S A} (f : S -> A) : M S A := fun s => (Ok (f s), s).

Definition modify {S} (f : S -> S) : M S unit := fun s => (Ok tt, f s).

(** [try: body / except Exception as e: handler e]. *)
Definition try_except {S A} (body : M S A) (handler : exn -> M S A) : M S A :=
  fun s =>
    match body s with
    | (Ok a, s') => (Ok a, s')
    | (Raise e, s') => handler e s'
    end.

(** A chain of [except cls:] clauses: the first clause whose class the
    exception is an instance of handles it; with none, it propagates. *)
Fixpoint dispatch {S A} (clauses : list (exn * (exn -> M S A))) (e : exn)
  : M S A :=
  match clauses with
  | [] => raise e
  | (cls, h) :: rest => if isinstance e cls then h e else dispatch rest e
  end.

Definition try_clauses {S A} (body : M S A)
  (clauses : list (exn * (exn -> M S A))) : M S A :=
  try_except body (dispatch clauses).

(** [for x in xs: body x]. *)
Fixpoint for_each {S A} (xs : list A) (body : A -> M S unit) : M S unit :=
  match xs with
  | [] => ret tt
  | x :: rest => bind (body x) (fun _ => for_each rest body)
  end.

(** [xs[i]] on a list: IndexError out of range. *)
Definition list_item {A} (xs : list A) (i : nat) : result A :=
  match nth_error xs i with
  | Some x => Ok x
  | None => Raise IndexError
  end.

End Py.

Export Py.

Declare Scope py_scope.
Delimit Scope py_scope with py.
Notation "x <- c ;; k" := (bind c (fun x => k))
  (at level 61, c at next level, right associativity) : py_scope.
Notation "c ;; k" := (bind c (fun _ => k))
  (at level 61, right associativity) : py_scope.
Open Scope py_scope.

(** ** Text: the string operations pandas applies cell by cell *)

Module Text.

Definition is_digit (c : ascii) : bool :=
  let n := nat_of_ascii c in (48 <=? n)%nat && (n <=? 57)%nat.

Definition digit_val (c : ascii) : Z := Z.of_nat (nat_of_ascii c) - 48.

(** C [isspace] on ASCII: space, \t, \n, \v, \f, \r. *)
Definition is_space (c : ascii) : bool :=
  let n := nat_of_ascii c in
  (n =? 32)%nat || ((9 <=? n)%nat && (n <=? 13)%nat).

Fixpoint drop (n : nat) (s : string) : string :=
  match n, s with
  | O, _ => s
  | S n', String _ r => drop n' r
  | S _, EmptyString => EmptyString
  end.

(** [s.replace(pat, repl)] for a non-empty [pat]: every non-overlapping
    occurrence, scanning left to right.  [skip] counts the bytes of an
    occurrence already replaced that are still to be passed over.  (Every
    call site passes a non-empty literal; the empty pattern is left alone.) *)
Fixpoint replace_from (skip : nat) (pat repl s : string) : string :=
  match s with
  | EmptyString => EmptyString
  | String c r =>
      match skip with
      | S k => replace_from k pat repl r
      | O =>
          if prefix pat s
          then repl ++ replace_from (String.length pat - 1) pat repl r
          else String c (replace_from 0 pat repl r)
      end
  end.

Definition replace (pat repl s : string) : string :=
  match pat with
  | EmptyString => s
  | _ => replace_from 0 pat repl s
  end.

Fixpoint skip_spaces (s : string) : string :=
  match s with
  | String c r => if is_space c then skip_spaces r else s
  | EmptyString => s
  end.

(** The longest run of digits at the head of [s], read in base 10 onto
    [acc]; also the number of digits read. *)
Fixpoint scan_digits (acc : Z) (n : nat) (s : string) : Z * nat * string :=
  match s with
  | String c r =>
      if is_digit c then scan_digits (10 * acc + digit_val c) (S n) r
      else (acc, n, s)
  | EmptyString => (acc, n, s)
  end.

(** An optional sign: [true] for '-'. *)
Definition scan_sign (s : string) : bool * string :=
  match s with
  | String "-" r => (true, r)
  | String "+" r => (false, r)
  | _ => (false, s)
  end.

Definition lower (c : ascii) : ascii :=
  let n := nat_of_ascii c in
  if (65 <=? n)%nat && (n <=? 90)%nat then ascii_of_nat (n + 32) else c.

Fixpoint lowercase (s : string) : string :=
  match s with
  | String c r => String (lower c) (lowercase r)
  | EmptyString => EmptyString
  end.

Definition string_of_Z (z : Z) : string := NilZero.string_of_int (Z.to_int z).

Fixpoint zeros (n : nat) : string :=
  match n with
  | O => EmptyString
  | S k => String "0" (zeros k)
  end.

End Text.

(** ** pandas: numbers, timestamps, series, frames *)

Module Pandas.

Import Text.

(** *** Numbers *)

(** IEEE 754 binary64: the Standard Library's specification of it, at 53
    bits and exponents up to 1024; every operation rounds to nearest, ties
    to even. *)
Module Binary64.

Definition double : Set := spec_float.

Definition mul : double -> double -> double := SFmul 53 1024.
Definition add : double -> double -> double := SFadd 53 1024.
Definition div : double -> double -> double := SFdiv 53 1024.
Definition opp : double -> double := SFopp.

(** The double nearest to a whole number. *)
Definition of_Z (z : Z) : double := binary_normalize 53 1024 z 0 false.

(** The double nearest to [n / d], for [0 < d]. *)
Definition quotient (n d : Z) : double :=
  match n, d with
  | Z0, _ => S754_zero false
  | Zpos a, Zpos b => div (S754_finite false a 0) (S754_finite false b 0)
  | Zneg a, Zpos b => div (S754_finite true a 0) (S754_finite false b 0)
  | _, _ => S754_nan
  end.

Definition zero : double := S754_zero false.
Definition ten : double := of_Z 10.

Definition is_infinite (x : double) : bool :=
  match x with
  | S754_infinity _ => true
  | _ => false
  end.

Definition eqb (x y : double) : bool :=
  match x, y with
  | S754_zero a, S754_zero b => Bool.eqb a b
  | S754_infinity a, S754_infinity b => Bool.eqb a b
  | S754_finite a m e, S754_finite b n f =>
      Bool.eqb a b && (m =? n)%positive && (e =? f)%Z
  | _, _ => false
  end.

End Binary64.

(** A numeric cell: NaN, an infinity, or a finite number held as a decimal,
    [Fin m k] standing for [m / 10^k] with [k] least.  In an int64 or uint64
    column [k] is 0; in a float64 column the cell is a binary64, and the
    decimal is its exact value.  [NegZero] is the float -0.0. *)
Inductive num : Set :=
| NaN
| Inf (negative : bool)
| NegZero
| Fin (m : Z) (k : nat).

Inductive dtype : Set := Int64 | UInt64 | Float64.

(** Drop trailing zeros of the fraction. *)
Fixpoint strip_zeros (m : Z) (k : nat) : num :=
  match k with
  | O => Fin m O
  | S k' => if (m mod 10 =? 0)%Z then strip_zeros (m / 10) k' else Fin m k
  end.

(** The exact value of a double: [m * 2^e] is [m * 5^(-e) / 10^(-e)] when
    [e] is negative. *)
Definition decimal_of (x : Binary64.double) : num :=
  match x with
  | S754_nan => NaN
  | S754_infinity s => Inf s
  | S754_zero false => Fin 0 O
  | S754_zero true => NegZero
  | S754_finite s m e =>
      let m := if s then Z.neg m else Z.pos m in
      if (0 <=? e)%Z then Fin (m * 2 ^ e) O
      else strip_zeros (m * 5 ^ (- e)) (Z.to_nat (- e))
  end.

(** The double nearest to a cell (the cell itself, when it is a double). *)
Definition double_of (x : num) : Binary64.double :=
  match x with
  | NaN => S754_nan
  | Inf s => S754_infinity s
  | NegZero => S754_zero true
  | Fin m k => Binary64.quotient m (10 ^ Z.of_nat k)
  end.

Definition is_exp_char (c : ascii) : bool :=
  match c with
  | "e"%char | "E"%char => true
  | _ => false
  end.

(** **** pandas' [precise_xstrtod] (tokenizer.c)

    The digits are accumulated in a double, 17 of them at most
    ([max_digits]), leading zeros included; a digit of the integer part
    beyond the 17th only raises the exponent, a digit of the fraction beyond
    it is dropped. *)
Definition max_digits : nat := 17.

(** [number * 10. + (c - '0')], the product and the sum each rounded on
    its own. *)
Definition push (number : Binary64.double) (c : ascii) : Binary64.double :=
  Binary64.add (Binary64.mul number Binary64.ten)
               (Binary64.of_Z (digit_val c)).

Fixpoint scan_whole (number : Binary64.double) (nd : nat) (ex : Z)
  (s : string) : Binary64.double * nat * Z * string :=
  match s with
  | String c r =>
      if is_digit c then
        if (nd <? max_digits)%nat
        then scan_whole (push number c) (S nd) ex r
        else scan_whole number nd (ex + 1) r
      else (number, nd, ex, s)
  | EmptyString => (number, nd, ex, s)
  end.

Fixpoint scan_fraction (number : Binary64.double) (nd : nat) (decimals : Z)
  (s : string) : Binary64.double * nat * Z * string :=
  match s with
  | String c r =>
      if is_digit c then
        if (nd <? max_digits)%nat
        then scan_fraction (push number c) (S nd) (decimals + 1) r
        else scan_fraction number nd decimals r
      else (number, nd, decimals, s)
  | EmptyString => (number, nd, decimals, s)
  end.

(** A C [int] that has run over (undefined in C; the machine wraps). *)
Definition wrap_int (z : Z) : Z := (z + 2 ^ 31) mod 2 ^ 32 - 2 ^ 31.

(** The digits after the exponent mark, 17 of them at most, in an [int]. *)
Fixpoint scan_exponent (n : Z) (nd : nat) (s : string) : Z * nat * string :=
  match s with
  | String c r =>
      if is_digit c && (nd <? max_digits)%nat
      then scan_exponent (wrap_int (n * 10 + digit_val c)) (S nd) r
      else (n, nd, s)
  | EmptyString => (n, nd, s)
  end.

(** The table [e] of the literals 1., 1e1, ..., 1e308. *)
Definition power_of_ten (i : Z) : Binary64.double := Binary64.of_Z (10 ^ i).

(** The accumulated digits scaled by the power of ten; the exponent is 308
    at most here. *)
Definition scale (number : Binary64.double) (ex : Z) : Binary64.double :=
  if (0 <? ex)%Z then Binary64.mul number (power_of_ten ex)
  else if (ex <? -308)%Z then
    if (ex <? -616)%Z then Binary64.zero
    else Binary64.div (Binary64.div number (power_of_ten (-308 - ex)))
                      (power_of_ten 308)
  else Binary64.div number (power_of_ten (- ex)).

(** pandas' [to_double]: [precise_xstrtod], then "nothing is left".
    Optional blanks, an optional sign, digits with an optional point, at
    least one digit, an optional exponent, optional blanks, the end of the
    text.  The flag is [maybe_int]: no point and no exponent mark was seen.
    A power of ten above 308 and a result that overflows fail (ERANGE). *)
Definition to_double (s : string) : option (Binary64.double * bool) :=
  let '(negative, s1) := scan_sign (skip_spaces s) in
  let '(number, nd, ex, s2) := scan_whole Binary64.zero 0 0 s1 in
  let '(number, nd, ex, s3, dot) :=
    match s2 with
    | String "." r =>
        let '(number, nd, decimals, r') := scan_fraction number nd 0 r in
        (number, nd, (ex - decimals)%Z, r', true)
    | _ => (number, nd, ex, s2, false)
    end in
  if (nd =? 0)%nat then None else
  let number := if negative then Binary64.opp number else number in
  let '(ex, s4, has_exp) :=
    match s3 with
    | String c r =>
        if is_exp_char c then
          let '(eneg, r1) := scan_sign r in
          let '(n, ed, r2) := scan_exponent 0 0 r1 in
          ((if eneg then ex - n else ex + n)%Z,
           (* without a digit the mark is put back: something is left *)
           (if (ed =? 0)%nat then s3 else r2),
           true)
        else (ex, s3, false)
    | EmptyString => (ex, s3, false)
    end in
  if (308 <? ex)%Z then None else
  let number := scale number ex in
  if Binary64.is_infinite number then None else
  match skip_spaces s4 with
  | EmptyString => Some (number, negb dot && negb has_exp)
  | String _ _ => None
  end.

(** The spellings of infinity that [floatify] accepts when [to_double]
    fails, compared without case. *)
Definition infinity_token (s : string) : option num :=
  let t := lowercase s in
  if (t =? "inf") || (t =? "+inf") || (t =? "infinity") || (t =? "+infinity")
  then Some (Inf false)
  else if (t =? "-inf") || (t =? "-infinity") then Some (Inf true)
  else None.

(** The text as C reads it: up to the first NUL byte. *)
Fixpoint c_string (s : string) : string :=
  match s with
  | String c r => if (c =? "000")%char then EmptyString
                  else String c (c_string r)
  | EmptyString => EmptyString
  end.

(** Python's [int(s)], on the whole text: blanks, a sign, digits, blanks,
    and ValueError (here None) on anything else.  (Python also takes
    underscores between the digits and other blanks than C's; no text
    [to_double] reads as a whole number has them.) *)
Definition py_int (s : string) : option Z :=
  let '(negative, r) := scan_sign (skip_spaces s) in
  let '(n, nd, rest) := scan_digits 0 0 r in
  if (nd =? 0)%nat then None else
  match skip_spaces rest with
  | EmptyString => Some (if negative then (- n)%Z else n)
  | String _ _ => None
  end.

Definition int64_min : Z := - 2 ^ 63.
Definition int64_max : Z := 2 ^ 63 - 1.
Definition uint64_max : Z := 2 ^ 64 - 1.

(** One text cell under [pd.to_numeric(..., errors='coerce')]
    ([maybe_convert_numeric] of lib.pyx): the float [floatify] reads in the
    text as C sees it, and the integer [int(s)] when that was a whole
    number.  Whatever does not parse (the empty text and "NaN" among it) is
    NaN, and so is a whole number after which the text goes on behind a NUL,
    for [int(s)] raises on it. *)
Definition numeric_cell (s : string) : num * option Z :=
  match to_double (c_string s) with
  | Some (x, true) =>
      match py_int s with
      | Some z => (decimal_of x, Some z)
      | None => (NaN, None)
      end
  | Some (x, false) => (decimal_of x, None)
  | None =>
      match infinity_token (c_string s) with
      | Some v => (v, None)
      | None => (NaN, None)
      end
  end.

(** What [maybe_convert_numeric] has seen in a column. *)
Definition whole_in (lo hi : Z) (c : num * option Z) : bool :=
  match snd c with
  | Some z => (lo <=? z)%Z && (z <=? hi)%Z
  | None => false
  end.

(** The dtype of the column: float64 as soon as a cell is no whole number
    (a missing one among them), is a whole number outside both 64-bit
    ranges, or as soon as a negative cell and a cell above the int64 range
    meet; uint64 when a cell is above the int64 range; int64 otherwise. *)
Definition column_dtype (cells : list (num * option Z)) : dtype :=
  if forallb (whole_in int64_min uint64_max) cells then
    let unsigned := existsb (whole_in (int64_max + 1) uint64_max) cells in
    let negative := existsb (whole_in int64_min (-1)) cells in
    if unsigned && negative then Float64
    else if unsigned then UInt64 else Int64
  else Float64.

(** The cells as the column stores them: the floats, or the integers. *)
Definition stored (d : dtype) (c : num * option Z) : num :=
  match d, snd c with
  | Float64, _ => fst c
  | _, Some z => Fin z O
  | _, None => NaN
  end.

(** **** [str(x)] of a float *)

(** [c * 10^e] read as a double. *)
Definition nearest (c e : Z) : Binary64.double :=
  if (0 <=? e)%Z then Binary64.of_Z (c * 10 ^ e)
  else Binary64.quotient c (10 ^ (- e)).

(** The decimal of [p] digits nearest to [m / 10^k] that reads back as it,
    if there is one: [c * 10^e]. *)
Definition rounded_to (p : nat) (m : Z) (k : nat) : option (Z * Z) :=
  let len := String.length (string_of_Z m) in
  if (len <=? p)%nat then Some (m, (- Z.of_nat k)%Z) else
  let unit := (10 ^ Z.of_nat (len - p))%Z in
  let lo := (m / unit)%Z in
  let r := (m mod unit)%Z in
  let e := (Z.of_nat (len - p) - Z.of_nat k)%Z in
  let x := double_of (Fin m k) in
  let lo_ok := Binary64.eqb (nearest lo e) x in
  let hi_ok := Binary64.eqb (nearest (lo + 1) e) x in
  let up := (unit <? 2 * r)%Z || ((unit =? 2 * r)%Z && Z.odd lo) in
  match lo_ok, hi_ok with
  | true, true => Some ((if up then lo + 1 else lo)%Z, e)
  | true, false => Some (lo, e)
  | false, true => Some ((lo + 1)%Z, e)
  | false, false => None
  end.

Fixpoint shortest_from (fuel p : nat) (m : Z) (k : nat) : Z * Z :=
  match fuel with
  | O => (m, (- Z.of_nat k)%Z)
  | S fuel' =>
      match rounded_to p m k with
      | Some r => r
      | None => shortest_from fuel' (S p) m k
      end
  end.

Fixpoint trim (fuel : nat) (c e : Z) : Z * Z :=
  match fuel with
  | O => (c, e)
  | S fuel' =>
      if (c mod 10 =? 0)%Z then trim fuel' (c / 10)%Z (e + 1)%Z else (c, e)
  end.

(** [repr] of a positive float: the shortest digits that read back as it,
    [d1 d2 ... dn] with the point after the first [point] of them, in
    positional notation when [-4 < point <= 16] and with an exponent
    otherwise. *)
Definition positive_repr (m : Z) (k : nat) : string :=
  let '(c, e) := shortest_from 17 1 m k in
  let '(c, e) := trim 17 c e in
  let ds := string_of_Z c in
  let n := Z.of_nat (String.length ds) in
  let point := (n + e)%Z in
  if (point <=? -4)%Z || (16 <? point)%Z then
    let x := (point - 1)%Z in
    let xs := string_of_Z (Z.abs x) in
    substring 0 1 ds
    ++ (if (1 <? n)%Z then "." ++ substring 1 (String.length ds - 1) ds
        else "")
    ++ "e" ++ (if (x <? 0)%Z then "-" else "+")
    ++ zeros (2 - String.length xs) ++ xs
  else if (point <=? 0)%Z then "0." ++ zeros (Z.to_nat (- point)) ++ ds
  else if (n <=? point)%Z then ds ++ zeros (Z.to_nat (point - n)) ++ ".0"
  else substring 0 (Z.to_nat point) ds ++ "."
       ++ substring (Z.to_nat point) (Z.to_nat (n - point)) ds.

(** [str(x)] of a finite float. *)
Definition float_repr (m : Z) (k : nat) : string :=
  if (m =? 0)%Z then "0.0"
  else (if (m <? 0)%Z then "-" else "") ++ positive_repr (Z.abs m) k.

Definition num_repr (d : dtype) (x : num) : string :=
  match x with
  | NaN => "nan"
  | Inf false => "inf"
  | Inf true => "-inf"
  | NegZero => "-0.0"
  | Fin m k =>
      match d with
      | Float64 => float_repr m k
      | _ => string_of_Z m
      end
  end.

(** *** Timestamps (at midnight: a calendar date) *)

Record date : Set := mkdate { year : Z; month : Z; day : Z }.

Definition date_ltb (a b : date) : bool :=
  (year a <? year b)%Z
  || ((year a =? year b)%Z
      && ((month a <? month b)%Z
          || ((month a =? month b)%Z && (day a <? day b)%Z))).

Definition date_leb (a b : date) : bool := negb (date_ltb b a).

Definition is_leap (y : Z) : bool :=
  ((y mod 4 =? 0) && (negb (y mod 100 =? 0) || (y mod 400 =? 0)))%Z.

Definition days_in_month (y m : Z) : Z :=
  if (m =? 2)%Z then (if is_leap y then 29 else 28)
  else if ((m =? 4) || (m =? 6) || (m =? 9) || (m =? 11))%Z then 30
  else 31.

(** The range of datetime64[ns] for a timestamp at midnight. *)
Definition timestamp_min : date := mkdate 1677 9 22.
Definition timestamp_max : date := mkdate 2262 4 11.

(** [date(y, m, d)] then the conversion to datetime64[ns], under
    [errors='coerce']: a day the month does not have, or a date out of range,
    is NaT. *)
Definition make_timestamp (y m d : Z) : option date :=
  let t := mkdate y m d in
  if ((1 <=? m) && (m <=? 12) && (1 <=? d) && (d <=? days_in_month y m))%Z
     && date_leb timestamp_min t && date_leb t timestamp_max
  then Some t else None.

(** *** strptime *)

Inductive directive : Set :=
| Dy            (* %y *)
| DY            (* %Y *)
| Dm            (* %m *)
| Dd            (* %d *)
| Lit (c : ascii).

Definition fmt_yy_mm_dd : list directive := [Dy; Lit "/"; Dm; Lit "/"; Dd].
Definition fmt_yyyy_mm_dd : list directive := [DY; Lit "/"; Dm; Lit "/"; Dd].

Definition between (lo hi : ascii) (c : ascii) : bool :=
  (nat_of_ascii lo <=? nat_of_ascii c)%nat
  && (nat_of_ascii c <=? nat_of_ascii hi)%nat.

(** A regular expression for one group, as the list of its matches at the
    head of the text, in the order a backtracking matcher tries them: the
    value [int()] gives the group, and the text left. *)
Definition matcher : Type := string -> list (Z * string).

Definition one (p : ascii -> bool) : matcher :=
  fun s =>
    match s with
    | String a r => if p a then [(digit_val a, r)] else []
    | EmptyString => []
    end.

(** Two characters; a leading blank counts for nothing, as in [int(" 7")]. *)
Definition two (p q : ascii -> bool) : matcher :=
  fun s =>
    match s with
    | String a (String b r) =>
        if p a && q b
        then [((if is_digit a then 10 * digit_val a else 0) + digit_val b, r)%Z]
        else []
    | _ => []
    end.

Definition alt (ms : list matcher) : matcher :=
  fun s => flat_map (fun m => m s) ms.

(** [(?P<d>3[0-1]|[1-2]\d|0[1-9]|[1-9]| [1-9])] *)
Definition re_d : matcher :=
  alt [ two (between "3" "3") (between "0" "1");
        two (between "1" "2") is_digit;
        two (between "0" "0") (between "1" "9");
        one (between "1" "9");
        two (between " " " ") (between "1" "9") ].

(** [(?P<m>1[0-2]|0[1-9]|[1-9])] *)
Definition re_m : matcher :=
  alt [ two (between "1" "1") (between "0" "2");
        two (between "0" "0") (between "1" "9");
        one (between "1" "9") ].

(** [(?P<y>\d\d)] *)
Definition re_y : matcher := two is_digit is_digit.

(** [(?P<Y>\d\d\d\d)] *)
Definition re_Y : matcher :=
  fun s =>
    flat_map (fun '(hi, r) => map (fun '(lo, r') => (100 * hi + lo, r')%Z)
                                  (two is_digit is_digit r))
             (two is_digit is_digit s).

(** The fields strptime collects; the defaults are 1900-01-01. *)
Record fields : Set := mkfields { f_year : Z; f_month : Z; f_day : Z }.

Definition no_fields : fields := mkfields 1900 1 1.

Definition set_field (d : directive) (v : Z) (f : fields) : fields :=
  match d with
  | Dy => mkfields (if (v <=? 68)%Z then v + 2000 else v + 1900)%Z
                   (f_month f) (f_day f)
  | DY => mkfields v (f_month f) (f_day f)
  | Dm => mkfields (f_year f) v (f_day f)
  | Dd => mkfields (f_year f) (f_month f) v
  | Lit _ => f
  end.

Definition re_of (d : directive) : matcher :=
  match d with
  | Dy => re_y
  | DY => re_Y
  | Dm => re_m
  | Dd => re_d
  | Lit c => fun s =>
      match s with
      | String a r => if Ascii.eqb a c then [(0%Z, r)] else []
      | EmptyString => []
      end
  end.

(** All the matches of the format at the head of the text, first the one
    [format_regex.match] returns. *)
Fixpoint match_format (fmt : list directive) (f : fields) (s : string)
  : list (fields * string) :=
  match fmt with
  | [] => [(f, s)]
  | d :: rest =>
      flat_map (fun '(v, r) => match_format rest (set_field d v f) r)
               (re_of d s)
  end.

(** One cell under [pd.to_datetime(..., format=fmt, errors='coerce')]: the
    text must match the format, the match must reach the end of the text,
    and the fields must make a date; otherwise NaT. *)
Definition strptime (fmt : list directive) (s : string) : option date :=
  match match_format fmt no_fields s with
  | (f, EmptyString) :: _ => make_timestamp (f_year f) (f_month f) (f_day f)
  | _ => None
  end.

Definition pad (width : nat) (z : Z) : string :=
  let t := string_of_Z z in zeros (width - String.length t) ++ t.

(** [Timestamp.strftime('%y/%m/%d')]. *)
Definition strftime_yy_mm_dd (t : date) : string :=
  pad 2 (year t mod 100) ++ "/" ++ pad 2 (month t) ++ "/" ++ pad 2 (day t).

(** [str(Timestamp)] for a timestamp at midnight. *)
Definition isoformat (t : date) : string :=
  pad 4 (year t) ++ "-" ++ pad 2 (month t) ++ "-" ++ pad 2 (day t).

(** Days from 1970-01-01 in the proleptic Gregorian calendar. *)
Definition days_from_epoch (t : date) : Z :=
  let y := (if month t <=? 2 then year t - 1 else year t)%Z in
  let era := (y / 400)%Z in
  let yoe := (y - era * 400)%Z in
  let mp := (if month t <=? 2 then month t + 9 else month t - 3)%Z in
  let doy := ((153 * mp + 2) / 5 + day t - 1)%Z in
  let doe := (yoe * 365 + yoe / 4 - yoe / 100 + doy)%Z in
  (era * 146097 + doe - 719468)%Z.

(** The int64 a datetime64[ns] cell is stored as; NaT is the least int64. *)
Definition timestamp_value (t : option date) : Z :=
  match t with
  | Some d => (days_from_epoch d * 86400 * 10 ^ 9)%Z
  | None => int64_min
  end.

(** *** Series *)

(** A column: object dtype (text cells, [None] for a missing one), a numeric
    dtype, or datetime64[ns] ([None] for NaT). *)
Inductive series : Set :=
| SObj (l : list (option string))
| SNum (d : dtype) (l : list num)
| SDatetime (l : list (option date)).

Inductive scalar : Set :=
| VObj (c : option string)
| VNum (d : dtype) (x : num)
| VTime (t : option date).

Definition series_len (s : series) : nat :=
  match s with
  | SObj l => List.length l
  | SNum _ l => List.length l
  | SDatetime l => List.length l
  end.

(** [s.iloc[i]]: IndexError ("single positional indexer is out-of-bounds")
    past the end. *)
Definition iloc (s : series) (i : nat) : result scalar :=
  match s with
  | SObj l => match nth_error l i with
              | Some c => Ok (VObj c)
              | None => Raise IndexError
              end
  | SNum d l => match nth_error l i with
                | Some x => Ok (VNum d x)
                | None => Raise IndexError
                end
  | SDatetime l => match nth_error l i with
                   | Some t => Ok (VTime t)
                   | None => Raise IndexError
                   end
  end.

(** [str(x)] of every cell. *)
Definition texts (s : series) : list string :=
  match s with
  | SObj l => map (fun c => match c with Some t => t | None => "nan" end) l
  | SNum d l => map (num_repr d) l
  | SDatetime l =>
      map (fun t => match t with Some d => isoformat d | None => "NaT" end) l
  end.

(** [s.astype(str)]. *)
Definition astype_str (s : series) : series := SObj (map Some (texts s)).

(** [s.str.replace(pat, repl)], the pattern taken literally; the accessor
    exists on object columns only. *)
Definition str_replace (pat repl : string) (s : series) : result series :=
  match s with
  | SObj l => Ok (SObj (map (option_map (Text.replace pat repl)) l))
  | _ => Raise AttributeError
  end.

(** [pd.to_numeric(s, errors='coerce')]: never raises.  A text column comes
    out with the dtype its cells call for; a datetime column is viewed as its
    int64 nanoseconds. *)
Definition to_numeric_coerce (s : series) : series :=
  match s with
  | SObj l =>
      let cells := map (fun c => match c with
                                 | Some t => numeric_cell t
                                 | None => (NaN, None)
                                 end) l in
      SNum (column_dtype cells) (map (stored (column_dtype cells)) cells)
  | SNum d l => SNum d l
  | SDatetime l => SNum Int64 (map (fun t => Fin (timestamp_value t) O) l)
  end.

(** [pd.api.types.is_datetime64_any_dtype(s)]. *)
Definition is_datetime64_any_dtype (s : series) : bool :=
  match s with
  | SDatetime _ => true
  | _ => false
  end.

(** [s.dt.strftime('%y/%m/%d')]; the accessor exists on datetime columns
    only, and NaT gives a missing cell. *)
Definition dt_strftime_yy_mm_dd (s : series) : result series :=
  match s with
  | SDatetime l => Ok (SObj (map (option_map strftime_yy_mm_dd) l))
  | _ => Raise AttributeError
  end.

(** [pd.to_datetime(s, format=fmt, errors='coerce')]: never raises.  A text
    cell goes through strptime; a cell that is not text is missing (NaT) or
    goes through [str] first; a datetime column is returned as it is. *)
Definition to_datetime_coerce (fmt : list directive) (s : series) : series :=
  match s with
  | SObj l =>
      SDatetime (map (fun c => match c with
                               | Some t => strptime fmt t
                               | None => None
                               end) l)
  | SNum d l => SDatetime (map (fun x => strptime fmt (num_repr d x)) l)
  | SDatetime l => SDatetime l
  end.

(** *** Sorting *)

Section Nargsort.

Context {K : Type} (leb : K -> K -> bool).

Fixpoint insert (x : nat * K) (l : list (nat * K)) : list (nat * K) :=
  match l with
  | [] => [x]
  | y :: r => if leb (snd x) (snd y) then x :: l else y :: insert x r
  end.

(** An ascending sort of (position, key) pairs on the key; equal keys keep
    their order. *)
Fixpoint sort_pairs (l : list (nat * K)) : list (nat * K) :=
  match l with
  | [] => []
  | x :: r => insert x (sort_pairs r)
  end.

(** The positions and keys of the cells that are not missing, from position
    [i] on, and the positions of those that are. *)
Fixpoint non_nans (i : nat) (l : list (option K)) : list (nat * K) :=
  match l with
  | [] => []
  | Some k :: r => (i, k) :: non_nans (S i) r
  | None :: r => non_nans (S i) r
  end.

Fixpoint nan_idx (i : nat) (l : list (option K)) : list nat :=
  match l with
  | [] => []
  | Some _ :: r => nan_idx (S i) r
  | None :: r => i :: nan_idx (S i) r
  end.

(** pandas' [nargsort(items, ascending, na_position='last')]: for a
    descending sort the present cells are reversed, sorted ascending and
    reversed again; the missing ones follow.  (pandas sorts with numpy's
    quicksort, which leaves the order of equal keys open; here they come out
    as a stable sort puts them.) *)
Definition nargsort (ascending : bool) (l : list (option K)) : list nat :=
  let present := non_nans 0 l in
  let sorted := sort_pairs (if ascending then present else rev present) in
  map fst (if ascending then sorted else rev sorted) ++ nan_idx 0 l.

(** The present cells in the order a descending sort leaves them. *)
Definition sorted_desc (l : list (option K)) : list (nat * K) :=
  rev (sort_pairs (rev (non_nans 0 l))).

End Nargsort.

(** [x <= y] on numbers that are not NaN. *)
Definition num_leb (x y : num) : bool :=
  match x, y with
  | Inf true, _ => true
  | _, Inf false => true
  | Fin m1 k1, Fin m2 k2 =>
      (m1 * 10 ^ Z.of_nat k2 <=? m2 * 10 ^ Z.of_nat k1)%Z
  | NegZero, Fin m2 _ => (0 <=? m2)%Z
  | Fin m1 _, NegZero => (m1 <=? 0)%Z
  | NegZero, NegZero => true
  | _, _ => false
  end.

Definition present_num (x : num) : option num :=
  match x with
  | NaN => None
  | _ => Some x
  end.

(** The positions of the rows in the order [sort_values] puts them. *)
Definition series_argsort (ascending : bool) (s : series) : list nat :=
  match s with
  | SObj l => nargsort String.leb ascending l
  | SNum _ l => nargsort num_leb ascending (map present_num l)
  | SDatetime l => nargsort date_leb ascending l
  end.

(** [l.take(indexer)]. *)
Definition take {A} (indexer : list nat) (l : list A) : list A :=
  flat_map (fun i => match nth_error l i with
                     | Some x => [x]
                     | None => []
                     end) indexer.

Definition series_take (indexer : list nat) (s : series) : series :=
  match s with
  | SObj l => SObj (take indexer l)
  | SNum d l => SNum d (take indexer l)
  | SDatetime l => SDatetime (take indexer l)
  end.

(** *** Frames *)

(** A frame: its number of rows (the index, a RangeIndex wherever the scraper
    looks at the frame) and its labelled columns, left to right. *)
Record DataFrame : Set := mkframe {
  nrows : nat;
  columns : list (string * series)
}.

(** Every column spans the rows of the frame. *)
Definition frame_ok (df : DataFrame) : Prop :=
  Forall (fun c => series_len (snd c) = nrows df) (columns df).

Definition labels (df : DataFrame) : list string := map fst (columns df).

(** [df.columns = names]: ValueError ("Length mismatch") unless there is one
    name per column. *)
Definition set_columns (names : list string) (df : DataFrame)
  : result DataFrame :=
  if (List.length names =? List.length (columns df))%nat
  then Ok (mkframe (nrows df) (combine names (map snd (columns df))))
  else Raise ValueError.

Fixpoint lookup (label : string) (cols : list (string * series))
  : option series :=
  match cols with
  | [] => None
  | (l, s) :: r => if (l =? label)%string then Some s else lookup label r
  end.

(** [df[label]] for a label that heads at most one column. *)
Definition getitem (label : string) (df : DataFrame) : result series :=
  match lookup label (columns df) with
  | Some s => Ok s
  | None => Raise KeyError
  end.

Fixpoint assign (label : string) (s : series) (cols : list (string * series))
  : list (string * series) :=
  match cols with
  | [] => [(label, s)]
  | (l, s') :: r =>
      if (l =? label)%string then (l, s) :: r else (l, s') :: assign label s r
  end.

(** [df[label] = s]: the column is replaced where it stands, or added at the
    right. *)
Definition setitem (label : string) (s : series) (df : DataFrame)
  : DataFrame :=
  mkframe (nrows df) (assign label s (columns df)).

(** [df.drop(label, axis=1, errors='ignore')]. *)
Definition drop_column (label : string) (df : DataFrame) : DataFrame :=
  mkframe (nrows df)
          (filter (fun c => negb (fst c =? label)%string) (columns df)).

(** [df.sort_values(by, ascending=False).reset_index(drop=True)]: KeyError
    without the column; the rows are taken in the order of the sort and
    numbered afresh. *)
Definition sort_values_desc (by_ : string) (df : DataFrame)
  : result DataFrame :=
  match lookup by_ (columns df) with
  | Some key =>
      let indexer := series_argsort false key in
      Ok (mkframe (List.length indexer)
                  (map (fun c => (fst c, series_take indexer (snd c)))
                       (columns df)))
  | None => Raise KeyError
  end.

End Pandas.

Export Pandas.

(** ** The world outside: the browser Selenium drives, and the HTML parser *)

Module Selenium.

(** What the calls the scraper makes answer.  [session] is the state of the
    browser behind a WebDriver object and [element] a WebElement; every call
    returns or raises and leaves the browser in a new state.  [read_html] is
    [pd.read_html] on the markup of the table: the frames it finds, ValueError
    when it finds none. *)
Record World : Type := {
  session : Type;
  element : Type;
  (* webdriver.Chrome(service=..., options=...) *)
  launch : option string -> bool -> result session;
  (* driver.implicitly_wait(seconds) *)
  implicitly_wait : Z -> session -> result unit * session;
  (* driver.set_page_load_timeout(seconds) *)
  set_page_load_timeout : Z -> session -> result unit * session;
  (* driver.get(url) *)
  get : string -> session -> result unit * session;
  (* WebDriverWait(driver, seconds).until(
       EC.presence_of_element_located((By.ID, id))) *)
  wait_presence_by_id : Z -> string -> session -> result element * session;
  (* container.find_element(By.CSS_SELECTOR, selector) *)
  find_element_css : element -> string -> session -> result element * session;
  (* element.get_attribute(name) *)
  get_attribute :
    element -> string -> session -> result (option string) * session;
  (* driver.quit() *)
  quit : session -> result unit * session;
  read_html : string -> result (list DataFrame)
}.

End Selenium.

Export Selenium.

(** ** data_loader.py *)

Module StockScraper.

(** The records the module logs, one constructor per call of [logger]; the
    text of a message is not modelled beyond what tells the calls apart. *)
Inductive message : Type :=
| DriverInitialised                      (* l.60 *)
| DriverInitFailed (e : exn)             (* l.62 *)
| AccessingUrl (url : string)            (* l.77 *)
| TableHtml                              (* l.94 *)
| FrameStructure                         (* l.103 *)
| FrameColumns (names : list string)     (* l.104 *)
| DateBefore (v : scalar)                (* l.112 *)
| TriedYYMMDD (v : scalar)               (* l.138 *)
| DateError1 (e : exn)                   (* l.140 *)
| TriedYYYYMMDD (v : scalar)             (* l.145 *)
| DateError2 (e : exn)                   (* l.147 *)
| DateAfter (v : scalar)                 (* l.153 *)
| FetchSucceeded (code : string) (rows : nat)   (* l.158 *)
| TooFewColumns (n : nat)                (* l.161 *)
| PageLoadTimedOut                       (* l.165 *)
| TableNotFound                          (* l.168 *)
| WebDriverError (e : exn)               (* l.171 *)
| DataConversionError (e : exn)          (* l.174 *)
| UnexpectedError (e : exn)              (* l.177 *)
| DriverQuit                             (* l.185 *)
| DriverQuitFailed (e : exn).            (* l.187 *)

Inductive level : Set := INFO | ERROR.

(** The canonical column labels, and the scratch column of the dates as
    parsed. *)
Definition c_date : string := "日付".
Definition c_open : string := "始値".
Definition c_high : string := "高値".
Definition c_low : string := "安値".
Definition c_close : string := "終値".
Definition c_change : string := "前日比".
Definition c_change_pct : string := "前日比％".
Definition c_volume : string := "売買高(株)".
Definition c_original_date : string := "元の日付".

Definition canonical_columns : list string :=
  [c_date; c_open; c_high; c_low; c_close; c_change; c_change_pct; c_volume].

Section Scraper.

Variable W : World.

(** The state a method runs in: the [driver] attribute of [self] (absent
    until [__init__] has created the browser), what has been logged so far
    (oldest first), and the frame the local variable [df] is bound to. *)
Record State : Type := mkstate {
  self_driver : option (session W);
  logged : list (level * message);
  local_df : option DataFrame
}.

Definition Method (A : Type) : Type := M State A.

Definition log (l : level) (m : message) : Method unit :=
  modify (fun st =>
    mkstate (self_driver st) (logged st ++ [(l, m)]) (local_df st)).

(** [self.driver.<call>(...)]: AttributeError without the attribute. *)
Definition on_driver {A} (call : session W -> result A * session W)
  : Method A :=
  fun st =>
    match self_driver st with
    | Some d =>
        let '(r, d') := call d in
        (r, mkstate (Some d') (logged st) (local_df st))
    | None => (Raise AttributeError, st)
    end.

Definition set_driver (d : session W) : Method unit :=
  modify (fun st => mkstate (Some d) (logged st) (local_df st)).

(** [df = v]. *)
Definition bind_df (v : DataFrame) : Method unit :=
  modify (fun st => mkstate (self_driver st) (logged st) (Some v)).

(** Reading [df]. *)
Definition the_df : Method DataFrame :=
  fun st =>
    match local_df st with
    | Some v => (Ok v, st)
    | None => (Raise Exception, st)
    end.

(** [df[label]]. *)
Definition column (label : string) : Method series :=
  df <- the_df ;; lift (getitem label df).

(** [df[label] = s]. *)
Definition assign_column (label : string) (s : series) : Method unit :=
  df <- the_df ;; bind_df (setitem label s df).

(** [table_html[:200]] needs a string: TypeError on None. *)
Definition as_text (v : option string) : result string :=
  match v with
  | Some s => Ok s
  | None => Raise TypeError
  end.

(** [StockScraper.__init__] (l.28-63). *)
Definition init (webdriver_path : option string) (headless : bool)
  : Method unit :=
  try_except
    (d <- lift (launch W webdriver_path headless) ;;
     set_driver d ;;
     on_driver (implicitly_wait W 10) ;;
     on_driver (set_page_load_timeout W 30) ;;
     log INFO DriverInitialised)
    (fun e => log ERROR (DriverInitFailed e) ;; raise e).

(** The cleansing of one price column (l.116-117). *)
Definition clean_price (col : string) : Method unit :=
  s <- column col ;;
  s <- lift (str_replace "," "" (astype_str s)) ;;
  s <- lift (str_replace "---" "NaN" s) ;;
  assign_column col s ;;
  s <- column col ;;
  assign_column col (to_numeric_coerce s).

(** The first half of the [try] block of [get_stock_data] (l.75-104): the
    page is fetched, the table located, its markup parsed, and the first
    frame bound to [df]. *)
Definition fetch_table (stock_code : string) : Method DataFrame :=
  let url := "https://kabutan.jp/stock/kabuka?code=" ++ stock_code in
  log INFO (AccessingUrl url) ;;
  on_driver (get W url) ;;
  stock_table_container <-
    on_driver (wait_presence_by_id W 10 "stock_kabuka_table") ;;
  stock_table <-
    on_driver (find_element_css W stock_table_container
                                "table.stock_kabuka_dwm") ;;
  table_html <- on_driver (get_attribute W stock_table "outerHTML") ;;
  table_html <- lift (as_text table_html) ;;
  log INFO TableHtml ;;
  dfs <- lift (read_html W table_html) ;;
  df <- lift (list_item dfs 0) ;;
  bind_df df ;;
  log INFO FrameStructure ;;
  log INFO (FrameColumns (labels df)) ;;
  ret df.

(** The second half (l.106-162): the column-count gate and the
    normalisation of the frame. *)
Definition normalise (stock_code : string) (df : DataFrame)
  : Method (option DataFrame) :=
  if (8 <=? List.length (columns df))%nat then
    df <- lift (set_columns canonical_columns df) ;;
    bind_df df ;;
    s <- column c_date ;;
    v <- lift (iloc s 0) ;;
    log INFO (DateBefore v) ;;
    for_each [c_open; c_high; c_low; c_close; c_change] clean_price ;;
    s <- column c_change_pct ;;
    s <- lift (str_replace "%" "" (astype_str s)) ;;
    s <- lift (str_replace "---" "NaN" s) ;;
    assign_column c_change_pct s ;;
    s <- column c_change_pct ;;
    assign_column c_change_pct (to_numeric_coerce s) ;;
    s <- column c_volume ;;
    s <- lift (str_replace "," "" (astype_str s)) ;;
    s <- lift (str_replace "株" "" s) ;;
    s <- lift (str_replace "---" "NaN" s) ;;
    assign_column c_volume s ;;
    s <- column c_volume ;;
    assign_column c_volume (to_numeric_coerce s) ;;
    s <- column c_date ;;
    assign_column c_original_date s ;;
    s <- column c_date ;;
    (if is_datetime64_any_dtype s then
       s <- column c_date ;;
       s <- lift (dt_strftime_yy_mm_dd s) ;;
       assign_column c_date s
     else ret tt) ;;
    try_except
      (s <- column c_date ;;
       assign_column c_date (to_datetime_coerce fmt_yy_mm_dd s) ;;
       s <- column c_date ;;
       v <- lift (iloc s 0) ;;
       log INFO (TriedYYMMDD v))
      (fun e =>
         log ERROR (DateError1 e) ;;
         try_except
           (s <- column c_original_date ;;
            assign_column c_date (to_datetime_coerce fmt_yyyy_mm_dd s) ;;
            s <- column c_date ;;
            v <- lift (iloc s 0) ;;
            log INFO (TriedYYYYMMDD v))
           (fun e2 => log ERROR (DateError2 e2))) ;;
    df <- the_df ;;
    bind_df (drop_column c_original_date df) ;;
    s <- column c_date ;;
    v <- lift (iloc s 0) ;;
    log INFO (DateAfter v) ;;
    df <- the_df ;;
    df <- lift (sort_values_desc c_date df) ;;
    bind_df df ;;
    log INFO (FetchSucceeded stock_code (nrows df)) ;;
    ret (Some df)
  else
    log ERROR (TooFewColumns (List.length (columns df))) ;;
    ret None.

(** The [except] clauses of [get_stock_data] (l.164-178), in their order. *)
Definition handlers : list (exn * (exn -> Method (option DataFrame))) :=
  [ (TimeoutException, fun _ => log ERROR PageLoadTimedOut ;; ret None);
    (NoSuchElementException, fun _ => log ERROR TableNotFound ;; ret None);
    (WebDriverException, fun e => log ERROR (WebDriverError e) ;; ret None);
    (ValueError, fun e => log ERROR (DataConversionError e) ;; ret None);
    (Exception, fun e => log ERROR (UnexpectedError e) ;; ret None) ].

(** [StockScraper.get_stock_data] (l.65-178). *)
Definition get_stock_data (stock_code : string)
  : Method (option DataFrame) :=
  try_clauses (df <- fetch_table stock_code ;; normalise stock_code df)
              handlers.

(** [StockScraper.close_driver] (l.180-187). *)
Definition close_driver : Method unit :=
  fun st =>
    match self_driver st with
    | Some _ =>
        try_except
          (on_driver (quit W) ;; log INFO DriverQuit)
          (fun e => log ERROR (DriverQuitFailed e)) st
    | None => ret tt st
    end.

End Scraper.

Arguments mkstate {W} _ _ _.
Arguments self_driver {W} _.
Arguments logged {W} _.
Arguments local_df {W} _.

(** The state with more records logged. *)
Definition logging {W} (st : State W) (rs : list (level * message))
  : State W :=
  mkstate (self_driver st) (logged st ++ rs) (local_df st).

(** *** What the normalisation computes, column by column *)

(** The text of a price cell, of a percentage cell and of a volume cell as
    it reaches [pd.to_numeric] (l.116, l.120, l.124). *)
Definition price_text (t : string) : string :=
  Text.replace "---" "NaN" (Text.replace "," "" t).

Definition percent_text (t : string) : string :=
  Text.replace "---" "NaN" (Text.replace "%" "" t).

Definition volume_text (t : string) : string :=
  Text.replace "---" "NaN" (Text.replace "株" "" (Text.replace "," "" t)).

(** A column after [astype(str)], the replacements and [to_numeric]. *)
Definition numeric_column (prepare : string -> string) (s : series)
  : series :=
  let cells := map (fun t => numeric_cell (prepare t)) (texts s) in
  SNum (column_dtype cells) (map (stored (column_dtype cells)) cells).

(** The date column as it reaches [pd.to_datetime] (l.132-133). *)
Definition date_texts (s : series) : series :=
  match s with
  | SDatetime l => SObj (map (option_map strftime_yy_mm_dd) l)
  | _ => s
  end.

(** The date column after l.137. *)
Definition date_column (s : series) : series :=
  to_datetime_coerce fmt_yy_mm_dd (date_texts s).

(** The frame of l.150, before the sort, from the eight columns parsed. *)
Definition cleansed (rows : nat) (d o h l c ch pc v : series) : DataFrame :=
  mkframe rows
    [ (c_date, date_column d);
      (c_open, numeric_column price_text o);
      (c_high, numeric_column price_text h);
      (c_low, numeric_column price_text l);
      (c_close, numeric_column price_text c);
      (c_change, numeric_column price_text ch);
      (c_change_pct, numeric_column percent_text pc);
      (c_volume, numeric_column volume_text v) ].

(** The dates of a frame, when its date column is a datetime column. *)
Definition dates_of (df : DataFrame) : option (list (option date)) :=
  match lookup c_date (columns df) with
  | Some (SDatetime l) => Some l
  | _ => None
  end.

(** Dates from the most recent to the oldest. *)
Definition descending (ds : list date) : Prop :=
  StronglySorted (fun a b => date_leb b a = true) ds.


(** The frame a call has returned (the empty frame for None or a raise). *)
Definition returned_frame (r : result (option DataFrame)) : DataFrame :=
  match r with
  | Ok (Some df) => df
  | _ => mkframe 0 []
  end.

(** Records of level INFO only: nothing went wrong. *)
Definition info_only (rs : list (level * message)) : Prop :=
  Forall (fun r => fst r = INFO) rs.

(** The record each [except] clause of [get_stock_data] logs. *)
Definition failure_record (e : exn) : level * message :=
  (ERROR,
   match e with
   | TimeoutException => PageLoadTimedOut
   | NoSuchElementException => TableNotFound
   | WebDriverException => WebDriverError e
   | ValueError => DataConversionError e
   | _ => UnexpectedError e
   end).

(** *** Worlds to run the scraper in *)

(** A browser that answers by a script: the outcome of each step of a fetch,
    and of the n-th call of [quit] (its state counts them). *)
Record Script : Type := mkscript {
  on_launch : result unit;
  on_get : result unit;
  on_wait : result unit;
  on_find : result unit;
  on_outer_html : result (option string);
  on_read_html : result (list DataFrame);
  on_quit : nat -> result unit
}.

Definition scripted (sc : Script) : World := {|
  session := nat;
  element := unit;
  launch := fun _ _ => match on_launch sc with
                       | Ok _ => Ok O
                       | Raise e => Raise e
                       end;
  implicitly_wait := fun _ n => (Ok tt, n);
  set_page_load_timeout := fun _ n => (Ok tt, n);
  get := fun _ n => (on_get sc, n);
  wait_presence_by_id := fun _ _ n => (on_wait sc, n);
  find_element_css := fun _ _ n => (on_find sc, n);
  get_attribute := fun _ _ n => (on_outer_html sc, n);
  quit := fun n => (on_quit sc n, S n);
  read_html := fun _ => on_read_html sc
|}.

(** The page shows one table, and every call succeeds. *)
Definition serving (tables : list DataFrame) : World :=
  scripted (mkscript (Ok tt) (Ok tt) (Ok tt) (Ok tt)
                     (Ok (Some "<table>")) (Ok tables) (fun _ => Ok tt)).

(** A scraper whose browser is up, with nothing logged yet. *)
Definition ready (tables : list DataFrame) : State (serving tables) :=
  @mkstate (serving tables) (Some O) [] None.

(** A table of text cells: one list of cells per column, under the headers
    of the page. *)
Definition text_table (rows : nat) (cols : list (list string)) : DataFrame :=
  mkframe rows
    (combine ["日付"; "始値"; "高値"; "安値"; "終値"; "前日比"; "前日比％";
              "売買高"; "extra"]
             (map (fun c => SObj (map Some c)) cols)).

(** One row of text cells. *)
Definition one_row (d o h l c ch pc v : string) : DataFrame :=
  text_table 1 [[d]; [o]; [h]; [l]; [c]; [ch]; [pc]; [v]].

(** Three days out of order; the prices number the rows as parsed. *)
Definition three_days : DataFrame :=
  text_table 3
    [ ["23/01/01"; "23/01/03"; "23/01/02"];
      ["1"; "2"; "3"]; ["1"; "2"; "3"]; ["1"; "2"; "3"]; ["1"; "2"; "3"];
      ["0"; "0"; "0"]; ["0.5%"; "0.5%"; "0.5%"]; ["100株"; "200株"; "300株"] ].

(** A date with a four-digit year. *)
Definition iso_dated : DataFrame :=
  one_row "2023/01/15" "1" "1" "1" "1" "0" "0%" "1".

(** A ninth column after the eight expected; the date of the second row is
    no date at all. *)
Definition nine_columns : DataFrame :=
  text_table 2
    [ ["23/01/15"; "n/a"]; ["1"; "2"]; ["1"; "2"]; ["1"; "2"]; ["1"; "2"];
      ["0"; "0"]; ["0%"; "0%"]; ["1"; "2"]; ["x"; "y"] ].

(** The eight columns and no row. *)
Definition no_rows : DataFrame :=
  text_table 0 [[]; []; []; []; []; []; []; []].

Definition seven_columns : DataFrame :=
  text_table 1 [["23/01/15"]; ["1"]; ["1"]; ["1"]; ["1"]; ["0"]; ["0%"]].


(** Dates that parse and dates that do not. *)
Definition mixed_dates : DataFrame :=
  text_table 3
    [ ["n/a"; "23/01/15"; "2023/01/16"];
      ["1"; "2"; "3"]; ["1"; "2"; "3"]; ["1"; "2"; "3"]; ["1"; "2"; "3"];
      ["0"; "0"; "0"]; ["0%"; "0%"; "0%"]; ["1"; "2"; "3"] ].

(** The page never shows the container. *)
Definition timing_out : World :=
  scripted (mkscript (Ok tt) (Ok tt) (Raise TimeoutException) (Ok tt)
                     (Ok (Some "<table>")) (Ok []) (fun _ => Ok tt)).

(** The container is there, the table is not. *)
Definition without_table : World :=
  scripted (mkscript (Ok tt) (Ok tt) (Ok tt) (Raise NoSuchElementException)
                     (Ok (Some "<table>")) (Ok []) (fun _ => Ok tt)).

(** The browser cannot be started. *)
Definition not_starting : World :=
  scripted (mkscript (Raise WebDriverException) (Ok tt) (Ok tt) (Ok tt)
                     (Ok (Some "<table>")) (Ok []) (fun _ => Ok tt)).

(** The browser refuses to quit, every time. *)
Definition not_quitting : World :=
  scripted (mkscript (Ok tt) (Ok tt) (Ok tt) (Ok tt)
                     (Ok (Some "<table>")) (Ok [])
                     (fun _ => Raise WebDriverException)).

End StockScraper.

(** ** What a method leaves of the scraper *)

Module Frame.

Import StockScraper.

(** [st'] comes after [st]: the log has only grown, and a scraper that had
    its [driver] attribute still has it. *)
Definition extends {W} (st st' : State W) : Prop :=
  (exists rs, logged st' = logged st ++ rs)%list
  /\ (self_driver st <> None -> self_driver st' <> None).

(** A computation whose runs all end in a state that comes after the one
    they started in. *)
Definition monotone {W A} (c : Method W A) : Prop :=
  forall st, extends st (snd (c st)).

End Frame.

(** ** app.py *)

Module App.

Import StockScraper.

(** A key of [st.session_state]: missing, bound to None, or bound to a
    value. *)
Inductive slot (A : Type) : Type :=
| Absent
| Null
| Value (a : A).
Arguments Absent {A}.
Arguments Null {A}.
Arguments Value {A} a.

Inductive spinner : Set :=
| StartingDriver      (* l.43 *)
| FetchingData.       (* l.51 *)

Inductive alert : Set :=
| DriverStartFailed (e : exn)    (* l.46 *)
| FetchFailed                    (* l.57 *)
| NoData                         (* l.86 *)
| Crashed (e : exn)              (* l.88 *)
| Traceback.                     (* l.90 *)

Inductive heading : Set :=
| TableHeading        (* l.62, l.95 *)
| ChartHeading.       (* l.66, l.99 *)

(** What a run of the script puts on the page, one constructor per call of
    Streamlit; the candlestick chart is kept as the five columns it is built
    from. *)
Inductive widget : Set :=
| Title                                  (* l.16 *)
| Intro                                  (* l.17 *)
| Spinner (s : spinner)
| Error (a : alert)
| Subheader (h : heading)
| Dataframe (df : DataFrame)             (* l.63, l.96 *)
| PlotlyChart (x o h l c : series)       (* l.69-84, l.102-117 *)
| Rule                                   (* l.120 *)
| Disclaimer.                            (* l.121 *)

(** The records of the logger of app.py. *)
Inductive app_message : Set :=
| CleanedUp                      (* l.31 *)
| CleanupFailed (e : exn).       (* l.33 *)

(** How a run of the script ends: at its last line, or at [st.stop()]. *)
Inductive flow : Set := Finished | Stopped.

(** [df.sort_values(by)], ascending or not, missing keys last: KeyError
    without the column. *)
Definition sort_values (by_ : string) (ascending : bool) (df : DataFrame)
  : result DataFrame :=
  match lookup by_ (columns df) with
  | Some key =>
      let indexer := series_argsort ascending key in
      Ok (mkframe (List.length indexer)
                  (map (fun c => (fst c, series_take indexer (snd c)))
                       (columns df)))
  | None => Raise KeyError
  end.

(** [df.empty]: no row or no column. *)
Definition empty (df : DataFrame) : bool :=
  (nrows df =? 0)%nat || (List.length (columns df) =? 0)%nat.

Section Script.

Variable W : World.

(** The state of the Streamlit session: the two keys of
    [st.session_state] (the scraper object is held by its [driver]
    attribute), what the two loggers have recorded, the page rendered so
    far, and how many times [cleanup] has been registered with [atexit]. *)
Record AppState : Type := mkapp {
  scraper : slot (option (session W));
  data : slot DataFrame;
  loader_log : list (level * message);
  app_log : list (level * app_message);
  page : list widget;
  at_exit : nat
}.

Definition Run (A : Type) : Type := M AppState A.

Definition set_scraper (v : slot (option (session W))) : Run unit :=
  modify (fun s => mkapp v (data s) (loader_log s) (app_log s) (page s)
                         (at_exit s)).

Definition set_data (v : slot DataFrame) : Run unit :=
  modify (fun s => mkapp (scraper s) v (loader_log s) (app_log s) (page s)
                         (at_exit s)).

(** A call of Streamlit that renders one widget. *)
Definition show (w : widget) : Run unit :=
  modify (fun s => mkapp (scraper s) (data s) (loader_log s) (app_log s)
                         (page s ++ [w]) (at_exit s)).

Definition app_logger (l : level) (m : app_message) : Run unit :=
  modify (fun s => mkapp (scraper s) (data s) (loader_log s)
                         (app_log s ++ [(l, m)]) (page s) (at_exit s)).

(** [st.session_state.scraper.<method>(...)]: AttributeError when the key
    is missing or bound to None; the method runs on the object, with fresh
    locals, and logs to the logger of data_loader. *)
Definition on_scraper {A} (method : Method W A) : Run A :=
  fun s =>
    match scraper s with
    | Value obj =>
        let '(r, st) := method (mkstate obj (loader_log s) None) in
        (r, mkapp (Value (self_driver st)) (data s) (logged st) (app_log s)
                  (page s) (at_exit s))
    | _ => (Raise AttributeError, s)
    end.

(** [StockScraper(headless=...)]: a new object, then [__init__] on it; the
    object is the value of the call only when [__init__] returns. *)
Definition new_scraper (headless : bool) : Run (option (session W)) :=
  fun s =>
    let '(r, st) := init W None headless (mkstate None (loader_log s) None) in
    let s' := mkapp (scraper s) (data s) (logged st) (app_log s) (page s)
                    (at_exit s) in
    match r with
    | Ok _ => (Ok (self_driver st), s')
    | Raise e => (Raise e, s')
    end.

(** [cleanup] (l.26-33). *)
Definition cleanup : Run unit :=
  fun s =>
    match scraper s with
    | Value _ =>
        try_except
          (on_scraper (close_driver W) ;;
           set_scraper Null ;;
           app_logger INFO CleanedUp)
          (fun e => app_logger ERROR (CleanupFailed e)) s
    | _ => ret tt s
    end.

(** The table and the candlestick chart of a frame (l.61-84, and again
    l.94-117): the chart is drawn from the frame sorted by date, oldest
    first. *)
Definition show_data (df : DataFrame) : Run unit :=
  show (Subheader TableHeading) ;;
  show (Dataframe df) ;;
  show (Subheader ChartHeading) ;;
  chart_df <- lift (sort_values c_date true df) ;;
  x <- lift (getitem c_date chart_df) ;;
  o <- lift (getitem c_open chart_df) ;;
  h <- lift (getitem c_high chart_df) ;;
  l <- lift (getitem c_low chart_df) ;;
  c <- lift (getitem c_close chart_df) ;;
  show (PlotlyChart x o h l c).

(** The first step of the branch of the button (l.41-47): a scraper is
    created unless the session has one; when that fails the run stops. *)
Definition ensure_scraper : Run flow :=
  current <- gets scraper ;;
  match current with
  | Null =>
      try_except
        (show (Spinner StartingDriver) ;;
         obj <- new_scraper true ;;
         set_scraper (Value obj) ;;
         ret Finished)
        (fun e => show (Error (DriverStartFailed e)) ;; ret Stopped)
  | Value _ => ret Finished
  | Absent => raise AttributeError
  end.

(** The second step (l.50-90): the fetch, the cache, the table and the
    chart.  The test of l.54 and l.60 is [df is not None and not df.empty].
    [st.stop()] ends the run from inside the [try]: it is no Exception, and
    the clause of l.87 lets it through. *)
Definition fetch_and_show : Run flow :=
  try_except
    (show (Spinner FetchingData) ;;
     df <- on_scraper (get_stock_data W "0000") ;;
     fetched <-
       match df with
       | Some f =>
           if negb (empty f) then set_data (Value f) ;; ret Finished
           else show (Error FetchFailed) ;; ret Stopped
       | None => show (Error FetchFailed) ;; ret Stopped
       end ;;
     match fetched with
     | Stopped => ret Stopped
     | Finished =>
         match df with
         | Some f =>
             if negb (empty f) then show_data f ;; ret Finished
             else show (Error NoData) ;; ret Finished
         | None => show (Error NoData) ;; ret Finished
         end
     end)
    (fun e =>
       show (Error (Crashed e)) ;; show (Error Traceback) ;; ret Finished).

(** The branch of the button (l.40-90). *)
Definition on_click : Run flow :=
  started <- ensure_scraper ;;
  match started with
  | Stopped => ret Stopped
  | Finished => fetch_and_show
  end.

(** The other branch (l.91-117): the data of an earlier run, if any. *)
Definition on_idle : Run flow :=
  cached <- gets data ;;
  match cached with
  | Value df => show_data df ;; ret Finished
  | Null => ret Finished
  | Absent => raise AttributeError
  end.

(** The two keys get their default where they are missing (l.20-23). *)
Definition default {A} (v : slot A) : slot A :=
  match v with
  | Absent => Null
  | _ => v
  end.

(** One run of the script, the button pressed or not (l.16-121). *)
Definition script (clicked : bool) : Run flow :=
  show Title ;;
  show Intro ;;
  modify (fun s => mkapp (default (scraper s)) (data s) (loader_log s)
                         (app_log s) (page s) (at_exit s)) ;;
  modify (fun s => mkapp (scraper s) (default (data s)) (loader_log s)
                         (app_log s) (page s) (at_exit s)) ;;
  modify (fun s => mkapp (scraper s) (data s) (loader_log s) (app_log s)
                         (page s) (S (at_exit s))) ;;
  ended <- (if clicked then on_click else on_idle) ;;
  match ended with
  | Stopped => ret Stopped
  | Finished => show Rule ;; show Disclaimer ;; ret Finished
  end.

(** The state after the first lines of a run (l.16-36). *)
Definition opened (s : AppState) : AppState :=
  mkapp (default (scraper s)) (default (data s)) (loader_log s) (app_log s)
        (page s ++ [Title; Intro]) (S (at_exit s)).

(** Dates from the oldest to the most recent. *)
Definition ascending (ds : list date) : Prop :=
  StronglySorted (fun a b => date_leb a b = true) ds.

(** The cached frame can be charted: it has the five columns of the
    candlestick. *)
Definition chartable (df : DataFrame) : Prop :=
  Forall (fun label => lookup label (columns df) <> None)
         [c_date; c_open; c_high; c_low; c_close].

(** The session as the script leaves it: both keys are there, and a cached
    frame can be charted. *)
Definition session_ok (s : AppState) : Prop :=
  scraper s <> Absent /\ data s <> Absent
  /\ forall df, data s = Value df -> chartable df.

End Script.

Arguments mkapp {W} _ _ _ _ _ _.
Arguments scraper {W} _.
Arguments data {W} _.
Arguments loader_log {W} _.
Arguments app_log {W} _.
Arguments page {W} _.
Arguments at_exit {W} _.

(** A session nobody has used yet. *)
Definition fresh (W : World) : AppState W := mkapp Absent Absent [] [] [] 0.

End App.

(** ** Dates written with two digits of the year *)

Module Calendar.

(** The year [%y] reads in the last two digits of [y]: 00-68 are 2000-2068,
    69-99 are 1969-1999. *)
Definition two_digit_year (y : Z) : Z :=
  let yy := (y mod 100)%Z in
  if (yy <=? 68)%Z then (yy + 2000)%Z else (yy + 1900)%Z.

(** A date of the calendar. *)
Definition real_date (t : date) : Prop :=
  (1 <= month t <= 12)%Z
  /\ (1 <= day t <= days_in_month (year t) (month t))%Z.

Definition date_eqb (a b : date) : bool :=
  ((year a =? year b) && (month a =? month b) && (day a =? day b))%Z.

Definition same_timestamp (a b : option date) : bool :=
  match a, b with
  | Some x, Some y => date_eqb x y
  | None, None => true
  | _, _ => false
  end.

(** [lo], [lo + 1], ..., [n] numbers in all. *)
Definition zrange (lo : Z) (n : nat) : list Z :=
  map (fun i => (lo + Z.of_nat i)%Z) (seq 0 n).

(** Writing the day [d] of the month [m] of a year that ends in [yy] as
    YY/MM/DD and reading it back gives the timestamp of that day in the year
    [two_digit_year yy], NaT when the year has no such day. *)
Definition reads_back (yy m d : Z) : bool :=
  same_timestamp
    (strptime fmt_yy_mm_dd (strftime_yy_mm_dd (mkdate yy m d)))
    (make_timestamp (two_digit_year yy) m d).

End Calendar.

(** ** Numerals *)

Module Numeral.

(** The number a run of decimal digits denotes, read from the left onto
    [acc]. *)
Fixpoint digits_value (acc : Z) (d : Decimal.uint) : Z :=
  match d with
  | Decimal.Nil => acc
  | Decimal.D0 r => digits_value (10 * acc + 0) r
  | Decimal.D1 r => digits_value (10 * acc + 1) r
  | Decimal.D2 r => digits_value (10 * acc + 2) r
  | Decimal.D3 r => digits_value (10 * acc + 3) r
  | Decimal.D4 r => digits_value (10 * acc + 4) r
  | Decimal.D5 r => digits_value (10 * acc + 5) r
  | Decimal.D6 r => digits_value (10 * acc + 6) r
  | Decimal.D7 r => digits_value (10 * acc + 7) r
  | Decimal.D8 r => digits_value (10 * acc + 8) r
  | Decimal.D9 r => digits_value (10 * acc + 9) r
  end.

(** The pattern occurs nowhere in the text. *)
Fixpoint free_of (pat s : string) : Prop :=
  match s with
  | EmptyString => True
  | String _ r => prefix pat s = false /\ free_of pat r
  end.

(** A text of digits only. *)
Fixpoint all_digits (s : string) : Prop :=
  match s with
  | EmptyString => True
  | String c r => Text.is_digit c = true /\ all_digits r
  end.

(** A whole number of the int64 range, as a cell of an int64 column. *)
Definition int64_cell (x : num) : Prop :=
  exists m, x = Fin m 0 /\ (int64_min <= m <= int64_max)%Z.

(** A double that is zero, or finite and below [2^k] in absolute value. *)
Definition tame (k : Z) (x : Binary64.double) : Prop :=
  match x with
  | S754_zero _ => True
  | S754_finite _ m e => (Z.pos (digits2_pos m) + e <= k)%Z
  | _ => False
  end.

(** The text holds no NUL byte. *)
Definition nul_free (s : string) : Prop :=
  ~ In "000"%char (list_ascii_of_string s).

(** A character no number is written with: no digit, blank, sign, point or
    exponent mark, and no letter of "inf" and "infinity". *)
Definition foreign (c : ascii) : bool :=
  negb (Text.is_digit c || Text.is_space c || is_exp_char c
        || existsb (Ascii.eqb (Text.lower c))
                   ["+"; "-"; "."; "i"; "n"; "f"; "t"; "y"]%char).

End Numeral.

Open Scope list_scope.

(** * Properties *)

(** ** The descending sort of a column *)

Section NargsortFacts.

Context {K : Type} (leb : K -> K -> bool).
Hypothesis leb_total : forall a b, leb a b = false -> leb b a = true.
Hypothesis leb_trans :
  forall a b c, leb a b = true -> leb b c = true -> leb a c = true.

Lemma insert_perm (x : nat * K) l : Permutation (insert leb x l) (x :: l).
Proof.
  induction l as [|y r IH]; simpl; [reflexivity|].
  destruct (leb (snd x) (snd y)); [reflexivity|].
  rewrite IH. apply perm_swap.
Qed.

Lemma sort_pairs_perm l : Permutation (sort_pairs leb l) l.
Proof.
  induction l as [|x r IH]; simpl; [constructor|].
  rewrite insert_perm. now constructor.
Qed.

Lemma insert_sorted x l :
  StronglySorted (fun p q => leb (snd p) (snd q) = true) l ->
  StronglySorted (fun p q => leb (snd p) (snd q) = true) (insert leb x l).
Proof.
  induction 1 as [|y r Hr IH Hy]; simpl.
  - repeat constructor.
  - destruct (leb (snd x) (snd y)) eqn:E.
    + constructor; [now constructor|].
      constructor; [exact E|].
      eapply Forall_impl; [|exact Hy].
      intros q Hq. simpl in *. eauto.
    + constructor; [exact IH|].
      eapply Permutation_Forall; [symmetry; apply insert_perm|].
      constructor; [|exact Hy]. auto.
Qed.

Lemma sort_pairs_sorted l :
  StronglySorted (fun p q => leb (snd p) (snd q) = true) (sort_pairs leb l).
Proof.
  induction l; simpl; [constructor|]. now apply insert_sorted.
Qed.

Lemma sorted_snoc {A} (R : A -> A -> Prop) l x :
  StronglySorted R l -> Forall (fun y => R y x) l ->
  StronglySorted R (l ++ [x]).
Proof.
  induction 1 as [|y r Hr IH Hy]; simpl; intros Hx.
  - repeat constructor.
  - inversion Hx; subst. constructor; [auto|].
    apply Forall_app. split; [exact Hy|]. now repeat constructor.
Qed.

Lemma sorted_rev {A} (R : A -> A -> Prop) l :
  StronglySorted R l -> StronglySorted (fun a b => R b a) (rev l).
Proof.
  induction 1 as [|y r Hr IH Hy]; simpl; [constructor|].
  apply sorted_snoc; [exact IH|].
  apply Forall_rev. exact Hy.
Qed.

Lemma sorted_map {A B} (f : A -> B) (R : B -> B -> Prop) l :
  StronglySorted (fun a b => R (f a) (f b)) l -> StronglySorted R (map f l).
Proof.
  induction 1 as [|y r Hr IH Hy]; simpl; constructor; auto.
  rewrite Forall_map. exact Hy.
Qed.

(** Where the present cells and the missing cells of a column stand. *)
Lemma non_nans_at i (l : list (option K)) :
  Forall (fun p => i <= fst p /\ nth_error l (fst p - i) = Some (Some (snd p)))
         (non_nans i l).
Proof.
  revert i. induction l as [|[k|] r IH]; intros i; simpl; [constructor| |].
  - constructor.
    + simpl. split; [lia|]. now rewrite Nat.sub_diag.
    + eapply Forall_impl; [|apply IH]. intros [j k'] [Hj Hn]; simpl in *.
      split; [lia|]. replace (j - i) with (S (j - S i)) by lia. exact Hn.
  - eapply Forall_impl; [|apply IH]. intros [j k'] [Hj Hn]; simpl in *.
    split; [lia|]. replace (j - i) with (S (j - S i)) by lia. exact Hn.
Qed.

Lemma nan_idx_at i (l : list (option K)) :
  Forall (fun j => i <= j /\ nth_error l (j - i) = Some None) (nan_idx i l).
Proof.
  revert i. induction l as [|[k|] r IH]; intros i; simpl; [constructor| |].
  - eapply Forall_impl; [|apply IH]. intros j [Hj Hn].
    split; [lia|]. replace (j - i) with (S (j - S i)) by lia. exact Hn.
  - constructor.
    + split; [lia|]. now rewrite Nat.sub_diag.
    + eapply Forall_impl; [|apply IH]. intros j [Hj Hn].
      split; [lia|]. replace (j - i) with (S (j - S i)) by lia. exact Hn.
Qed.

Lemma positions_perm i (l : list (option K)) :
  Permutation (map fst (non_nans i l) ++ nan_idx i l) (seq i (List.length l)).
Proof.
  revert i. induction l as [|[k|] r IH]; intros i; simpl; [constructor| |].
  - constructor. apply IH.
  - rewrite <- Permutation_middle. constructor. apply IH.
Qed.

Lemma take_present (l : list (option K)) ps :
  Forall (fun p => nth_error l (fst p) = Some (Some (snd p))) ps ->
  take (map fst ps) l = map (fun p => Some (snd p)) ps.
Proof.
  induction 1 as [|p r Hp Hr IH]; simpl; [reflexivity|].
  rewrite Hp. simpl. now rewrite <- IH.
Qed.

Lemma take_missing (l : list (option K)) js :
  Forall (fun j => nth_error l j = Some None) js ->
  take js l = repeat None (List.length js).
Proof.
  induction 1 as [|j r Hj Hr IH]; simpl; [reflexivity|].
  rewrite Hj. simpl. now rewrite <- IH.
Qed.

Lemma take_app {A} ix jx (l : list A) :
  take (ix ++ jx) l = take ix l ++ take jx l.
Proof. unfold take. apply flat_map_app. Qed.

Lemma nargsort_desc l :
  nargsort leb false l = map fst (sorted_desc leb l) ++ nan_idx 0 l.
Proof. reflexivity. Qed.

Lemma sorted_desc_perm l : Permutation (sorted_desc leb l) (non_nans 0 l).
Proof.
  unfold sorted_desc. rewrite <- Permutation_rev, sort_pairs_perm.
  symmetry. apply Permutation_rev.
Qed.

(** The indexer of a descending sort names every row once. *)
Lemma nargsort_perm l :
  Permutation (nargsort leb false l) (seq 0 (List.length l)).
Proof.
  rewrite nargsort_desc, <- positions_perm.
  apply Permutation_app_tail, Permutation_map, sorted_desc_perm.
Qed.

Lemma nargsort_length l :
  List.length (nargsort leb false l) = List.length l.
Proof.
  rewrite (Permutation_length (nargsort_perm l)). apply length_seq.
Qed.

(** The column in the order of its own descending sort: the present cells,
    then as many missing cells as it had. *)
Lemma take_nargsort l :
  take (nargsort leb false l) l =
  map Some (map snd (sorted_desc leb l)) ++
  repeat None (List.length (nan_idx 0 l)).
Proof.
  rewrite nargsort_desc, take_app. f_equal.
  - rewrite map_map. apply take_present.
    eapply Permutation_Forall; [symmetry; apply sorted_desc_perm|].
    eapply Forall_impl; [|apply non_nans_at].
    intros p [_ Hp]. now rewrite Nat.sub_0_r in Hp.
  - apply take_missing.
    eapply Forall_impl; [|apply nan_idx_at].
    intros j [_ Hj]. now rewrite Nat.sub_0_r in Hj.
Qed.

Lemma sorted_desc_sorted l :
  StronglySorted (fun a b => leb b a = true) (map snd (sorted_desc leb l)).
Proof.
  apply sorted_map. unfold sorted_desc.
  apply (sorted_rev (fun p q => leb (snd p) (snd q) = true)).
  apply sort_pairs_sorted.
Qed.

(** Taking rows by an indexer that names valid rows keeps one cell per
    position of the indexer. *)
Lemma take_length {A} ix (l : list A) :
  Forall (fun i => i < List.length l) ix ->
  List.length (take ix l) = List.length ix.
Proof.
  induction 1 as [|i r Hi Hr IH]; simpl; [reflexivity|].
  destruct (nth_error l i) eqn:E.
  - simpl. now rewrite IH.
  - apply nth_error_None in E. lia.
Qed.

End NargsortFacts.

Lemma date_leb_total a b : date_leb a b = false -> date_leb b a = true.
Proof.
  destruct a as [y1 m1 d1], b as [y2 m2 d2].
  unfold date_leb, date_ltb; simpl.
  rewrite !negb_false_iff, !negb_true_iff.
  rewrite !orb_true_iff, !andb_true_iff, !orb_false_iff, !andb_false_iff.
  rewrite !orb_false_iff, !orb_true_iff, !andb_false_iff, !andb_true_iff.
  rewrite !Z.ltb_lt, !Z.eqb_eq, !Z.ltb_ge, !Z.eqb_neq. lia.
Qed.

Lemma date_leb_trans a b c :
  date_leb a b = true -> date_leb b c = true -> date_leb a c = true.
Proof.
  destruct a as [y1 m1 d1], b as [y2 m2 d2], c as [y3 m3 d3].
  unfold date_leb, date_ltb; simpl.
  rewrite !negb_true_iff.
  rewrite !orb_false_iff, !andb_false_iff.
  rewrite !orb_false_iff, !andb_false_iff.
  rewrite !Z.ltb_ge, !Z.eqb_neq. lia.
Qed.

(** ** The column operations *)

Import StockScraper Numeral.

Lemma numeric_column_two p1 r1 p2 r2 s :
  to_numeric_coerce
    (SObj (map (option_map (Text.replace p2 r2))
               (map (option_map (Text.replace p1 r1)) (map Some (texts s))))) =
  numeric_column (fun t => Text.replace p2 r2 (Text.replace p1 r1 t)) s.
Proof.
  unfold numeric_column, to_numeric_coerce. rewrite !map_map. reflexivity.
Qed.

Lemma numeric_column_three p1 r1 p2 r2 p3 r3 s :
  to_numeric_coerce
    (SObj (map (option_map (Text.replace p3 r3))
            (map (option_map (Text.replace p2 r2))
               (map (option_map (Text.replace p1 r1)) (map Some (texts s)))))) =
  numeric_column
    (fun t => Text.replace p3 r3 (Text.replace p2 r2 (Text.replace p1 r1 t))) s.
Proof.
  unfold numeric_column, to_numeric_coerce. rewrite !map_map. reflexivity.
Qed.

Lemma texts_length s : List.length (texts s) = series_len s.
Proof. destruct s; simpl; apply length_map. Qed.

(** The date column is a datetime column that spans the rows parsed. *)
Lemma date_column_datetime s :
  exists l, date_column s = SDatetime l /\ List.length l = series_len s.
Proof.
  destruct s as [l|d l|l]; simpl; eexists; (split; [reflexivity|]);
    now rewrite ?length_map.
Qed.

(** A numeric column spans the rows parsed; its dtype is the one its cells
    call for, and it holds at each row what [numeric_cell] reads in the text
    prepared for it, stored in that dtype. *)
Lemma numeric_column_cells prepare s :
  exists l,
    numeric_column prepare s =
      SNum (column_dtype (map (fun t => numeric_cell (prepare t)) (texts s)))
           l
    /\ List.length l = series_len s
    /\ forall i t,
         nth_error (texts s) i = Some t ->
         nth_error l i
         = Some (stored (column_dtype
                           (map (fun t => numeric_cell (prepare t))
                                (texts s)))
                        (numeric_cell (prepare t))).
Proof.
  unfold numeric_column. eexists. split; [reflexivity|]. split.
  - now rewrite !length_map, texts_length.
  - intros i t Ht. now rewrite !nth_error_map, Ht.
Qed.

(** ** What [to_double] does not read *)

Lemma chars_app s1 s2 :
  list_ascii_of_string (s1 ++ s2)%string
  = list_ascii_of_string s1 ++ list_ascii_of_string s2.
Proof. induction s1; simpl; [reflexivity|]. now rewrite IHs1. Qed.

Lemma prefix_drop c p s :
  prefix p s = true ->
  In c (list_ascii_of_string s) -> ~ In c (list_ascii_of_string p) ->
  In c (list_ascii_of_string (Text.drop (String.length p) s)).
Proof.
  revert s. induction p as [|a p IH]; intros s Hp Hin Hno; [exact Hin|].
  destruct s as [|b s]; [discriminate Hp|]. simpl in *.
  destruct (ascii_dec a b) as [->|]; [|discriminate Hp].
  apply IH; [exact Hp| |tauto].
  destruct Hin as [->|Hin]; [|exact Hin]. tauto.
Qed.

Lemma replace_from_keeps c pat repl :
  pat <> EmptyString -> ~ In c (list_ascii_of_string pat) ->
  forall s skip,
    In c (list_ascii_of_string (Text.drop skip s)) ->
    In c (list_ascii_of_string (Text.replace_from skip pat repl s)).
Proof.
  intros Hne Hno. induction s as [|a r IH]; intros skip Hin.
  - destruct skip; exact Hin.
  - destruct skip as [|k]; cbn [Text.replace_from].
    + destruct (prefix pat (String a r)) eqn:Hp.
      * rewrite chars_app. apply in_or_app. right. apply IH.
        pose proof (prefix_drop c pat (String a r) Hp Hin Hno) as H.
        destruct pat as [|x pat]; [now elim Hne|].
        simpl in H. simpl. now rewrite Nat.sub_0_r.
      * simpl in Hin. destruct Hin as [->|Hin]; [now left|].
        right. apply IH. exact Hin.
    + apply IH. exact Hin.
Qed.

(** A character that is not in the pattern survives the replacement. *)
Lemma replace_keeps c pat repl s :
  ~ In c (list_ascii_of_string pat) ->
  In c (list_ascii_of_string s) ->
  In c (list_ascii_of_string (Text.replace pat repl s)).
Proof.
  intros Hno Hin. unfold Text.replace.
  destruct pat as [|x pat]; [exact Hin|].
  apply replace_from_keeps; [discriminate|exact Hno|exact Hin].
Qed.

Lemma skip_spaces_keeps c s :
  Text.is_space c = false ->
  In c (list_ascii_of_string s) ->
  In c (list_ascii_of_string (Text.skip_spaces s)).
Proof.
  intros Hc. induction s as [|a r IH]; intros Hin; [exact Hin|].
  simpl. destruct (Text.is_space a) eqn:Ha; [|exact Hin].
  apply IH. destruct Hin as [->|Hin]; [congruence|exact Hin].
Qed.

Lemma scan_sign_keeps c s :
  c <> "-"%char -> c <> "+"%char ->
  In c (list_ascii_of_string s) ->
  In c (list_ascii_of_string (snd (Text.scan_sign s))).
Proof.
  intros H1 H2 Hin. unfold Text.scan_sign.
  destruct s as [|a r]; [exact Hin|].
  destruct (Ascii.eqb_spec a "-") as [->|];
    [destruct Hin as [E|Hin]; [now elim H1|exact Hin]|].
  destruct (Ascii.eqb_spec a "+") as [->|];
    [destruct Hin as [E|Hin]; [now elim H2|exact Hin]|].
  destruct a as [[] [] [] [] [] [] [] []]; try exact Hin;
    congruence.
Qed.

Lemma scan_whole_keeps c s :
  Text.is_digit c = false ->
  forall number nd ex,
    In c (list_ascii_of_string s) ->
    In c (list_ascii_of_string (snd (scan_whole number nd ex s))).
Proof.
  intros Hc. induction s as [|a r IH]; intros number nd ex Hin; [exact Hin|].
  cbn [scan_whole]. destruct (Text.is_digit a) eqn:Ha; [|exact Hin].
  assert (Hr : In c (list_ascii_of_string r)).
  { destruct Hin as [->|Hin]; [congruence|exact Hin]. }
  destruct (nd <? max_digits)%nat; now apply IH.
Qed.

Lemma scan_fraction_keeps c s :
  Text.is_digit c = false ->
  forall number nd decimals,
    In c (list_ascii_of_string s) ->
    In c (list_ascii_of_string (snd (scan_fraction number nd decimals s))).
Proof.
  intros Hc. induction s as [|a r IH]; intros number nd ex Hin; [exact Hin|].
  cbn [scan_fraction]. destruct (Text.is_digit a) eqn:Ha; [|exact Hin].
  assert (Hr : In c (list_ascii_of_string r)).
  { destruct Hin as [->|Hin]; [congruence|exact Hin]. }
  destruct (nd <? max_digits)%nat; now apply IH.
Qed.

Lemma scan_exponent_keeps c s :
  Text.is_digit c = false ->
  forall n nd,
    In c (list_ascii_of_string s) ->
    In c (list_ascii_of_string (snd (scan_exponent n nd s))).
Proof.
  intros Hc. induction s as [|a r IH]; intros n nd Hin; [exact Hin|].
  cbn [scan_exponent].
  destruct (Text.is_digit a && (nd <? max_digits)%nat) eqn:Ha; [|exact Hin].
  apply IH. apply andb_true_iff in Ha. destruct Ha as [Ha _].
  destruct Hin as [->|Hin]; [congruence|exact Hin].
Qed.

Lemma foreign_spec c :
  foreign c = true ->
  Text.is_digit c = false /\ Text.is_space c = false
  /\ is_exp_char c = false
  /\ ~ In (Text.lower c) ["+"; "-"; "."; "i"; "n"; "f"; "t"; "y"]%char.
Proof.
  unfold foreign. rewrite negb_true_iff, !orb_false_iff.
  intros [[[Hd Hs] He] Hx]. repeat split; try assumption.
  intros Hin.
  assert (existsb (Ascii.eqb (Text.lower c))
            ["+"; "-"; "."; "i"; "n"; "f"; "t"; "y"]%char = true);
    [|congruence].
  apply existsb_exists. exists (Text.lower c). split; [exact Hin|].
  apply Ascii.eqb_refl.
Qed.

Lemma foreign_not c x :
  foreign c = true -> In x ["+"; "-"; "."]%char -> c <> x.
Proof.
  intros Hf Hx ->. destruct (foreign_spec _ Hf) as (_ & _ & _ & Hno).
  apply Hno. simpl in Hx. destruct Hx as [<-|[<-|[<-|[]]]]; simpl; tauto.
Qed.

(** A text that holds a character no number is written with is no number
    for [to_double]. *)
Lemma to_double_rejects c s :
  foreign c = true ->
  In c (list_ascii_of_string s) -> to_double s = None.
Proof.
  intros Hf Hin.
  destruct (foreign_spec c Hf) as (Hd & Hs & He & _).
  assert (Hminus : c <> "-"%char) by (apply foreign_not; simpl; tauto).
  assert (Hplus : c <> "+"%char) by (apply foreign_not; simpl; tauto).
  assert (Hdot : c <> "."%char) by (apply foreign_not; simpl; tauto).
  unfold to_double.
  apply (skip_spaces_keeps c _ Hs) in Hin.
  apply (scan_sign_keeps c _ Hminus Hplus) in Hin.
  destruct (Text.scan_sign (Text.skip_spaces s)) as [negative s1].
  cbn [snd] in Hin.
  apply (scan_whole_keeps c _ Hd Binary64.zero 0 0%Z) in Hin.
  destruct (scan_whole Binary64.zero 0 0 s1) as [[[number nd] ex] s2].
  cbn [snd] in Hin.
  assert (Hfrac : exists number' nd' ex' s3 dot,
            match s2 with
            | String "." r =>
                let '(number0, nd0, decimals, r') :=
                  scan_fraction number nd 0 r in
                (number0, nd0, (ex - decimals)%Z, r', true)
            | _ => (number, nd, ex, s2, false)
            end = (number', nd', ex', s3, dot)
            /\ In c (list_ascii_of_string s3)).
  { destruct s2 as [|a r]; [now elim Hin|].
    destruct (Ascii.eqb_spec a ".") as [->|Hne].
    - destruct Hin as [E|Hin]; [now elim Hdot|].
      apply (scan_fraction_keeps c _ Hd number nd 0%Z) in Hin.
      destruct (scan_fraction number nd 0 r) as [[[n1 d1] dec] r'].
      cbn [snd] in Hin. now eexists _, _, _, r', true.
    - exists number, nd, ex, (String a r), false. split; [|exact Hin].
      destruct a as [[] [] [] [] [] [] [] []]; try reflexivity.
      now elim Hne. }
  destruct Hfrac as (number' & nd' & ex' & s3 & dot & -> & Hin3).
  destruct (nd' =? 0)%nat; [reflexivity|].
  assert (Hexp : exists ex'' s4 has_exp,
            match s3 with
            | String a r =>
                if is_exp_char a then
                  let '(eneg, r1) := Text.scan_sign r in
                  let '(n, ed, r2) := scan_exponent 0 0 r1 in
                  ((if eneg then ex' - n else ex' + n)%Z,
                   (if (ed =? 0)%nat then s3 else r2), true)
                else (ex', s3, false)
            | EmptyString => (ex', s3, false)
            end = (ex'', s4, has_exp)
            /\ In c (list_ascii_of_string s4)).
  { destruct s3 as [|a r]; [now elim Hin3|].
    destruct (is_exp_char a) eqn:Ha; [|now exists ex', (String a r), false].
    assert (Hr : In c (list_ascii_of_string r)).
    { destruct Hin3 as [->|H]; [congruence|exact H]. }
    apply (scan_sign_keeps c _ Hminus Hplus) in Hr.
    destruct (Text.scan_sign r) as [eneg r1]. cbn [snd] in Hr.
    apply (scan_exponent_keeps c _ Hd 0%Z 0) in Hr.
    destruct (scan_exponent 0 0 r1) as [[n ed] r2]. cbn [snd] in Hr.
    destruct (ed =? 0)%nat; now eexists _, _, true. }
  destruct Hexp as (ex'' & s4 & has_exp & -> & Hin4).
  destruct (308 <? ex'')%Z; [reflexivity|].
  match goal with
  | |- (if ?b then _ else _) = _ => destruct b; [reflexivity|]
  end.
  apply (skip_spaces_keeps c _ Hs) in Hin4.
  destruct (Text.skip_spaces s4); [now elim Hin4|reflexivity].
Qed.

Lemma lowercase_keeps c s :
  In c (list_ascii_of_string s) ->
  In (Text.lower c) (list_ascii_of_string (Text.lowercase s)).
Proof.
  induction s as [|a r IH]; intros Hin; [exact Hin|].
  simpl. destruct Hin as [->|Hin]; [now left|right; now apply IH].
Qed.

Lemma infinity_token_rejects c s :
  foreign c = true ->
  In c (list_ascii_of_string s) -> infinity_token s = None.
Proof.
  intros Hf Hin. destruct (foreign_spec c Hf) as (_ & _ & _ & Hno).
  apply lowercase_keeps in Hin. unfold infinity_token.
  repeat match goal with
         | |- context [(Text.lowercase s =? ?k)%string] =>
             destruct (String.eqb_spec (Text.lowercase s) k) as [E|_];
             [rewrite E in Hin; elim Hno; simpl in Hin |- *; tauto|]
         end.
  reflexivity.
Qed.

Lemma c_string_nul_free s : nul_free s -> c_string s = s.
Proof.
  unfold nul_free. induction s as [|a r IH]; intros H; [reflexivity|].
  cbn [c_string]. destruct (Ascii.eqb_spec a "000") as [->|_].
  - elim H. now left.
  - rewrite IH; [reflexivity|]. intros Hin. apply H. now right.
Qed.

(** What a replacement leaves comes from the text or from what is put
    in. *)
Lemma replace_from_subset x pat repl s :
  forall skip,
    In x (list_ascii_of_string (Text.replace_from skip pat repl s)) ->
    In x (list_ascii_of_string s) \/ In x (list_ascii_of_string repl).
Proof.
  induction s as [|a r IH]; intros skip Hin; [now left|].
  destruct skip as [|k]; cbn [Text.replace_from] in Hin.
  - destruct (prefix pat (String a r)).
    + rewrite chars_app in Hin. apply in_app_or in Hin.
      destruct Hin as [Hin|Hin]; [now right|].
      destruct (IH _ Hin) as [H|H]; [left; now right|now right].
    + destruct Hin as [->|Hin]; [left; now left|].
      destruct (IH _ Hin) as [H|H]; [left; now right|now right].
  - destruct (IH _ Hin) as [H|H]; [left; now right|now right].
Qed.

Lemma replace_nul_free pat repl s :
  nul_free repl -> nul_free s -> nul_free (Text.replace pat repl s).
Proof.
  unfold nul_free, Text.replace. intros Hr Hs.
  destruct pat as [|a pat]; [exact Hs|].
  intros Hin. apply replace_from_subset in Hin. tauto.
Qed.

(** Such a cell is NaN, and no whole number. *)
Lemma numeric_cell_rejects c s :
  foreign c = true -> nul_free s ->
  In c (list_ascii_of_string s) -> numeric_cell s = (NaN, None).
Proof.
  intros Hf Hs Hin. unfold numeric_cell. rewrite (c_string_nul_free s Hs).
  now rewrite (to_double_rejects c s Hf Hin),
              (infinity_token_rejects c s Hf Hin).
Qed.

Lemma forallb_one_false {A} (p : A -> bool) l i x :
  nth_error l i = Some x -> p x = false -> forallb p l = false.
Proof.
  revert i. induction l as [|a r IH]; intros [|i] H Hx; try discriminate H.
  - simpl in *. injection H as ->. now rewrite Hx.
  - simpl. rewrite (IH i H Hx). apply andb_false_r.
Qed.

(** A cell that is no whole number makes the column a float64 one. *)
Lemma column_dtype_float cells i x :
  nth_error cells i = Some x -> snd x = None -> column_dtype cells = Float64.
Proof.
  intros Hi Hx. unfold column_dtype.
  rewrite (forallb_one_false _ _ i x Hi); [reflexivity|].
  unfold whole_in. now rewrite Hx.
Qed.

(** ** The scraper *)

Section ScraperFacts.

Variable W : World.

Lemma dispatch_handlers e (st : State W) :
  dispatch (handlers W) e st = (Ok None, logging st [failure_record e]).
Proof. destruct e; reflexivity. Qed.

(** [get_stock_data] returns what its [try] block returns, and None where
    the block raises. *)
Lemma get_stock_data_cases code (st : State W) :
  get_stock_data W code st =
  match (df <- fetch_table W code ;; normalise W code df) st with
  | (Ok v, st') => (Ok v, st')
  | (Raise e, st') => (Ok None, logging st' [failure_record e])
  end.
Proof.
  unfold get_stock_data, try_clauses, try_except.
  destruct ((df <- fetch_table W code ;; normalise W code df) st)
    as [[v|e] st']; [reflexivity|apply dispatch_handlers].
Qed.

Lemma after_fetch code (st st1 : State W) tbl :
  fetch_table W code st = (Ok tbl, st1) ->
  get_stock_data W code st =
  match normalise W code tbl st1 with
  | (Ok v, st') => (Ok v, st')
  | (Raise e, st') => (Ok None, logging st' [failure_record e])
  end.
Proof.
  intros H. rewrite get_stock_data_cases. unfold bind at 1. now rewrite H.
Qed.

Lemma fetch_raised code (st st1 : State W) e :
  fetch_table W code st = (Raise e, st1) ->
  get_stock_data W code st = (Ok None, logging st1 [failure_record e]).
Proof.
  intros H. rewrite get_stock_data_cases. unfold bind at 1. now rewrite H.
Qed.

(** The gate: under eight columns, nothing is normalised. *)
Lemma normalise_few code tbl (st : State W) :
  List.length (columns tbl) < 8 ->
  normalise W code tbl st =
  (Ok None, logging st [(ERROR, TooFewColumns (List.length (columns tbl)))]).
Proof.
  intros H. unfold normalise.
  destruct (Nat.leb_spec 8 (List.length (columns tbl))); [lia|reflexivity].
Qed.

(** Over eight columns, the eight labels do not fit. *)
Lemma normalise_many code tbl (st : State W) :
  8 < List.length (columns tbl) ->
  normalise W code tbl st = (Raise ValueError, st).
Proof.
  intros H. unfold normalise, set_columns.
  destruct (Nat.leb_spec 8 (List.length (columns tbl))); [|lia].
  change (List.length canonical_columns) with 8.
  destruct (Nat.eqb_spec 8 (List.length (columns tbl))); [lia|reflexivity].
Qed.

Ltac run_normalise :=
  unfold normalise;
  cbn -[series_argsort series_take to_numeric_coerce Text.replace strptime
        fmt_yy_mm_dd numeric_column];
  unfold ret, log, modify;
  cbn -[series_argsort series_take to_numeric_coerce Text.replace strptime
        fmt_yy_mm_dd numeric_column];
  rewrite <- ?app_assoc; cbn [app];
  rewrite ?numeric_column_two, ?numeric_column_three.

(** Eight columns and no date to look at: the log line of l.112 raises. *)
Lemma normalise_no_date code n l0 l1 l2 l3 l4 l5 l6 l7 d o h l c ch pc v
  (st : State W) :
  series_len d = 0 ->
  normalise W code
    (mkframe n [(l0, d); (l1, o); (l2, h); (l3, l); (l4, c); (l5, ch);
                (l6, pc); (l7, v)]) st =
  (Raise IndexError,
   mkstate (self_driver st) (logged st)
     (Some (mkframe n (combine canonical_columns [d; o; h; l; c; ch; pc; v])))).
Proof.
  intros Hd.
  destruct d as [[|x ld]|dt [|x ld]|[|x ld]]; try discriminate Hd;
    reflexivity.
Qed.

(** Eight columns and a first row: the frame is cleansed, sorted and
    returned, and nothing but INFO records is logged. *)
Lemma normalise_eight code n l0 l1 l2 l3 l4 l5 l6 l7 d o h l c ch pc v
  (st : State W) :
  series_len d <> 0 ->
  exists out logs,
    normalise W code
      (mkframe n [(l0, d); (l1, o); (l2, h); (l3, l); (l4, c); (l5, ch);
                  (l6, pc); (l7, v)]) st
    = (Ok (Some out), mkstate (self_driver st) (logged st ++ logs) (Some out))
    /\ sort_values_desc c_date (cleansed n d o h l c ch pc v) = Ok out
    /\ info_only logs.
Proof.
  intros Hd.
  destruct d as [[|x ld]|dt [|x ld]|[|x ld]]; try (now elim Hd);
    eexists; eexists; (split; [|split]).
  all: try (run_normalise; reflexivity).
  all: try (repeat constructor; fail).
  all: reflexivity.
Qed.

(** What a returned series tells about the table it came from. *)
Lemma normalise_returned code tbl (st st' : State W) out :
  normalise W code tbl st = (Ok (Some out), st') ->
  exists l0 l1 l2 l3 l4 l5 l6 l7 d o h l c ch pc v,
    columns tbl = [(l0, d); (l1, o); (l2, h); (l3, l); (l4, c); (l5, ch);
                   (l6, pc); (l7, v)]
    /\ series_len d <> 0
    /\ sort_values_desc c_date (cleansed (nrows tbl) d o h l c ch pc v)
       = Ok out.
Proof.
  intros H. destruct tbl as [n cols].
  destruct (Nat.lt_trichotomy (List.length cols) 8) as [Hlt|[Heq|Hgt]].
  - rewrite normalise_few in H by exact Hlt. discriminate H.
  - destruct cols as [|[l0 d] cols]; [discriminate Heq|].
    destruct cols as [|[l1 o] cols]; [discriminate Heq|].
    destruct cols as [|[l2 h] cols]; [discriminate Heq|].
    destruct cols as [|[l3 l] cols]; [discriminate Heq|].
    destruct cols as [|[l4 c] cols]; [discriminate Heq|].
    destruct cols as [|[l5 ch] cols]; [discriminate Heq|].
    destruct cols as [|[l6 pc] cols]; [discriminate Heq|].
    destruct cols as [|[l7 v] cols]; [discriminate Heq|].
    destruct cols; [|discriminate Heq].
    destruct (Nat.eq_dec (series_len d) 0) as [Hz|Hnz].
    + rewrite normalise_no_date in H by exact Hz. discriminate H.
    + destruct (normalise_eight code n l0 l1 l2 l3 l4 l5 l6 l7
                  d o h l c ch pc v st Hnz)
        as (out' & logs & Hrun & Hsort & _).
      rewrite Hrun in H. injection H as -> _.
      repeat eexists; [exact Hnz|exact Hsort].
  - rewrite normalise_many in H by exact Hgt. discriminate H.
Qed.

Lemma get_stock_data_returned code (st st' : State W) out :
  get_stock_data W code st = (Ok (Some out), st') ->
  exists tbl st1,
    fetch_table W code st = (Ok tbl, st1)
    /\ normalise W code tbl st1 = (Ok (Some out), st').
Proof.
  rewrite get_stock_data_cases. unfold bind at 1.
  destruct (fetch_table W code st) as [[tbl|e] st1]; [|discriminate].
  destruct (normalise W code tbl st1) as [[v|e] st2] eqn:E; [|discriminate].
  intros H. injection H as -> ->. now exists tbl, st1.
Qed.

(** The sort of the cleansed frame: one indexer, a permutation of the rows,
    takes every column; the dates come out most recent first, then NaT. *)
Lemma sort_cleansed n d o h l c ch pc v :
  exists dates indexer,
    date_column d = SDatetime dates
    /\ indexer = nargsort date_leb false dates
    /\ sort_values_desc c_date (cleansed n d o h l c ch pc v) =
       Ok (mkframe (List.length dates)
             (map (fun col => (fst col, series_take indexer (snd col)))
                  (columns (cleansed n d o h l c ch pc v)))).
Proof.
  destruct (date_column_datetime d) as (dates & Hd & _).
  exists dates, (nargsort date_leb false dates). split; [exact Hd|].
  split; [reflexivity|].
  unfold sort_values_desc, cleansed.
  cbn -[series_argsort series_take numeric_column date_column nargsort].
  rewrite Hd.
  cbn -[series_take numeric_column nargsort].
  now rewrite nargsort_length.
Qed.

End ScraperFacts.

(** ** The dates *)

Lemma digit_is_not_slash c : Text.is_digit c = true -> Ascii.eqb c "/" = false.
Proof.
  intros H. destruct (Ascii.eqb_spec c "/") as [->|]; [discriminate H|].
  reflexivity.
Qed.

(** The four-digit year wants a digit in third place. *)
Lemma re_Y_third_digit t :
  re_Y t <> [] ->
  exists a b c r, t = String a (String b (String c r))
                  /\ Text.is_digit c = true.
Proof.
  unfold re_Y, two. intros H.
  destruct t as [|a [|b [|c r]]]; try (now elim H).
  - simpl in H. destruct (Text.is_digit a && Text.is_digit b); now elim H.
  - exists a, b, c, r. split; [reflexivity|].
    destruct (Text.is_digit c) eqn:Hc; [reflexivity|].
    simpl in H. destruct (Text.is_digit a && Text.is_digit b); simpl in H;
      [|now elim H].
    destruct r; simpl in H; rewrite ?Hc in H; simpl in H; now elim H.
Qed.

(** A text that reads as YYYY/MM/DD does not read as YY/MM/DD: its third
    character is a digit where the two-digit format wants the slash. *)
Lemma four_digit_year_is_no_two_digit_year t d :
  strptime fmt_yyyy_mm_dd t = Some d -> strptime fmt_yy_mm_dd t = None.
Proof.
  unfold strptime. intros H.
  destruct (re_Y_third_digit t) as (a & b & c & r & -> & Hc).
  - intros E. unfold fmt_yyyy_mm_dd in H. cbn [match_format re_of] in H.
    rewrite E in H. discriminate H.
  - unfold fmt_yy_mm_dd. cbn [match_format re_of]. unfold re_y, two.
    destruct (Text.is_digit a && Text.is_digit b); [|reflexivity].
    cbn [flat_map match_format re_of].
    rewrite (digit_is_not_slash c Hc). reflexivity.
Qed.

(** ** The claims *)

(** C1 (the code departs from it).  The claim: a date that fails YY/MM/DD
    and is valid as YYYY/MM/DD is parsed by the second stage, from the
    original text.  The code: with [errors='coerce'] the first stage does not
    raise on such a text, it gives NaT; the [except] branch that holds the
    second stage is not entered, and the date of the row stays NaT.  For
    every one-row table whose date reads as the date [dt] under YYYY/MM/DD,
    the series returned holds the single date NaT, not [dt]. *)
Theorem iso_date_is_lost W code (st st1 : State W) t dt o h l c ch pc v :
  strptime fmt_yyyy_mm_dd t = Some dt ->
  fetch_table W code st = (Ok (one_row t o h l c ch pc v), st1) ->
  exists out,
    fst (get_stock_data W code st) = Ok (Some out)
    /\ dates_of out = Some [None]
    /\ dates_of out <> Some [Some dt].
Proof.
  intros Ht Hfetch.
  apply four_digit_year_is_no_two_digit_year in Ht.
  rewrite (after_fetch W code st st1 _ Hfetch).
  unfold one_row, text_table. cbn [combine map].
  match goal with
  | |- context [normalise W code (mkframe ?n [(?l0, ?d); (?l1, ?o');
         (?l2, ?h'); (?l3, ?l'); (?l4, ?c'); (?l5, ?ch'); (?l6, ?pc');
         (?l7, ?v')]) st1] =>
      destruct (normalise_eight W code n l0 l1 l2 l3 l4 l5 l6 l7
                  d o' h' l' c' ch' pc' v' st1)
        as (out & logs & Hrun & Hsort & _); [discriminate|]
  end.
  rewrite Hrun. exists out. split; [reflexivity|].
  unfold sort_values_desc, cleansed in Hsort.
  cbn -[numeric_column strptime fmt_yy_mm_dd] in Hsort.
  rewrite Ht in Hsort. cbn -[numeric_column] in Hsort.
  injection Hsort as <-. split; [reflexivity|discriminate].
Qed.

(** The claim's own example, "2023/01/15". *)
Lemma iso_date_is_lost_witness :
  strptime fmt_yyyy_mm_dd "2023/01/15" = Some (mkdate 2023 1 15)
  /\ exists out,
       fst (get_stock_data (serving [iso_dated]) "0000" (ready [iso_dated]))
       = Ok (Some out)
       /\ dates_of out = Some [None]
       /\ dates_of out <> Some [Some (mkdate 2023 1 15)].
Proof.
  split; [reflexivity|].
  apply (iso_date_is_lost (serving [iso_dated]) "0000" (ready [iso_dated])
           (snd (fetch_table (serving [iso_dated]) "0000" (ready [iso_dated])))
           "2023/01/15" (mkdate 2023 1 15) "1" "1" "1" "1" "0" "0%" "1");
    reflexivity.
Defined.

(** Over eight columns: ValueError at l.109, None at l.173. *)
Lemma many_columns_none W code (st st1 : State W) tbl :
  fetch_table W code st = (Ok tbl, st1) ->
  8 < List.length (columns tbl) ->
  get_stock_data W code st =
  (Ok None, logging st1 [(ERROR, DataConversionError ValueError)]).
Proof.
  intros Hfetch Hmany.
  rewrite (after_fetch W code st st1 tbl Hfetch).
  now rewrite normalise_many.
Qed.

(** Eight columns and a first row: the series comes back, and only INFO
    records are logged. *)
Lemma eight_columns_returned W code (st st1 : State W) tbl :
  fetch_table W code st = (Ok tbl, st1) ->
  frame_ok tbl -> List.length (columns tbl) = 8 -> 0 < nrows tbl ->
  exists out logs,
    get_stock_data W code st
    = (Ok (Some out),
       mkstate (self_driver st1) (logged st1 ++ logs) (Some out))
    /\ info_only logs.
Proof.
  intros Hfetch Hok Heq Hrows.
  destruct tbl as [n cols]. simpl in *.
  destruct cols as [|[l0 d] cols]; [discriminate Heq|].
  destruct cols as [|[l1 o] cols]; [discriminate Heq|].
  destruct cols as [|[l2 h] cols]; [discriminate Heq|].
  destruct cols as [|[l3 l] cols]; [discriminate Heq|].
  destruct cols as [|[l4 c] cols]; [discriminate Heq|].
  destruct cols as [|[l5 ch] cols]; [discriminate Heq|].
  destruct cols as [|[l6 pc] cols]; [discriminate Heq|].
  destruct cols as [|[l7 v] cols]; [discriminate Heq|].
  destruct cols; [|discriminate Heq].
  assert (Hd : series_len d <> 0).
  { inversion Hok; subst. simpl in *. lia. }
  destruct (normalise_eight W code n l0 l1 l2 l3 l4 l5 l6 l7
              d o h l c ch pc v st1 Hd)
    as (out & logs & Hrun & _ & Hinfo).
  exists out, logs. split; [|exact Hinfo].
  rewrite (after_fetch W code st st1 _ Hfetch). now rewrite Hrun.
Qed.

(** C2 (the code departs from it).  The claim: with more than eight
    columns the first eight are named, the others dropped, and a series is
    returned.  The code: the gate of l.108 lets such a table through, and
    the assignment of eight labels to its columns (l.109) raises ValueError,
    which the clause of l.173 turns into None. *)
Theorem extra_columns_yield_none W code (st st1 : State W) tbl :
  fetch_table W code st = (Ok tbl, st1) ->
  8 < List.length (columns tbl) ->
  get_stock_data W code st =
  (Ok None, logging st1 [(ERROR, DataConversionError ValueError)]).
Proof. apply many_columns_none. Qed.

Lemma extra_columns_yield_none_witness :
  8 < List.length (columns nine_columns)
  /\ fst (get_stock_data (serving [nine_columns]) "0000"
                         (ready [nine_columns])) = Ok None.
Proof.
  split; [simpl; lia|].
  rewrite (extra_columns_yield_none (serving [nine_columns]) "0000"
             (ready [nine_columns])
             (snd (fetch_table (serving [nine_columns]) "0000"
                               (ready [nine_columns])))
             nine_columns); [reflexivity|reflexivity|simpl; lia].
Defined.

(** C3 (the code departs from it).  The claim: a table with the eight
    columns and no row gives an empty series.  The code: the log line of
    l.112 reads the first date of the frame, [iloc[0]] raises IndexError on
    the empty column, and the last clause (l.176) turns it into None, logged
    as an unexpected error.  (With more than eight columns the ValueError of
    l.109 comes first.) *)
Theorem empty_table_yields_none W code (st st1 : State W) tbl :
  fetch_table W code st = (Ok tbl, st1) ->
  frame_ok tbl ->
  nrows tbl = 0 ->
  8 <= List.length (columns tbl) ->
  fst (get_stock_data W code st) = Ok None
  /\ (List.length (columns tbl) = 8 ->
      logged (snd (get_stock_data W code st)) =
      logged st1 ++ [(ERROR, UnexpectedError IndexError)]).
Proof.
  intros Hfetch Hok Hrows Hcols.
  destruct (Nat.eq_dec (List.length (columns tbl)) 8) as [Heq|Hne].
  - destruct tbl as [n cols]. simpl in *. subst n.
    destruct cols as [|[l0 d] cols]; [discriminate Heq|].
    destruct cols as [|[l1 o] cols]; [discriminate Heq|].
    destruct cols as [|[l2 h] cols]; [discriminate Heq|].
    destruct cols as [|[l3 l] cols]; [discriminate Heq|].
    destruct cols as [|[l4 c] cols]; [discriminate Heq|].
    destruct cols as [|[l5 ch] cols]; [discriminate Heq|].
    destruct cols as [|[l6 pc] cols]; [discriminate Heq|].
    destruct cols as [|[l7 v] cols]; [discriminate Heq|].
    destruct cols; [|discriminate Heq].
    assert (Hd : series_len d = 0) by (inversion Hok; assumption).
    rewrite (after_fetch W code st st1 _ Hfetch).
    rewrite normalise_no_date by exact Hd.
    split; [reflexivity|]. intros _. reflexivity.
  - rewrite (many_columns_none W code st st1 tbl Hfetch) by lia.
    split; [reflexivity|]. intros Heq. now elim Hne.
Qed.

Lemma empty_table_yields_none_witness :
  frame_ok no_rows /\ nrows no_rows = 0
  /\ 8 <= List.length (columns no_rows)
  /\ fst (get_stock_data (serving [no_rows]) "0000" (ready [no_rows]))
     = Ok None.
Proof.
  split; [repeat constructor|]. split; [reflexivity|].
  split; [simpl; lia|].
  apply (empty_table_yields_none (serving [no_rows]) "0000" (ready [no_rows])
           (snd (fetch_table (serving [no_rows]) "0000" (ready [no_rows])))
           no_rows);
    [reflexivity|repeat constructor|reflexivity|simpl; lia].
Defined.

(** C4 (the code departs from it).  The first half holds: whatever is
    raised inside the [try] block of [get_stock_data] -- a timeout, a missing
    element, a driver error, a conversion error or anything else -- the
    method returns None and logs the record of the clause that caught it, so
    it never raises.  The second half does not: the normalisation of
    l.106-162 raises on well-formed tables that pass the gate of l.108,
    ValueError at l.109 when the table has more than eight columns and
    IndexError at l.112 when it has eight columns and no row; it returns a
    series exactly when the table has eight columns and a first row. *)
Theorem normalisation_raises W code :
  (forall st : State W, exists v, fst (get_stock_data W code st) = Ok v)
  /\ (forall (st st1 : State W) e,
        (df <- fetch_table W code ;; normalise W code df) st = (Raise e, st1)
        -> get_stock_data W code st
           = (Ok None, logging st1 [failure_record e]))
  /\ (forall tbl (st : State W),
        frame_ok tbl -> 8 <= List.length (columns tbl) ->
        (8 < List.length (columns tbl) ->
         normalise W code tbl st = (Raise ValueError, st))
        /\ (List.length (columns tbl) = 8 -> nrows tbl = 0 ->
            exists st', normalise W code tbl st = (Raise IndexError, st'))
        /\ (List.length (columns tbl) = 8 -> 0 < nrows tbl ->
            exists out st',
              normalise W code tbl st = (Ok (Some out), st'))).
Proof.
  split; [|split].
  - intros st. rewrite get_stock_data_cases.
    destruct ((df <- fetch_table W code ;; normalise W code df) st)
      as [[v|e] st']; eexists; reflexivity.
  - intros st st1 e H. rewrite get_stock_data_cases. now rewrite H.
  - intros tbl st Hok Hge. split; [apply normalise_many|].
    assert (Height : List.length (columns tbl) = 8 ->
              exists n l0 l1 l2 l3 l4 l5 l6 l7 d o h l c ch pc v,
                tbl = mkframe n [(l0, d); (l1, o); (l2, h); (l3, l); (l4, c);
                                 (l5, ch); (l6, pc); (l7, v)]
                /\ series_len d = n).
    { intros Heq. destruct tbl as [n cols]. simpl in *.
      destruct cols as [|[l0 d] cols]; [discriminate Heq|].
      destruct cols as [|[l1 o] cols]; [discriminate Heq|].
      destruct cols as [|[l2 h] cols]; [discriminate Heq|].
      destruct cols as [|[l3 l] cols]; [discriminate Heq|].
      destruct cols as [|[l4 c] cols]; [discriminate Heq|].
      destruct cols as [|[l5 ch] cols]; [discriminate Heq|].
      destruct cols as [|[l6 pc] cols]; [discriminate Heq|].
      destruct cols as [|[l7 v] cols]; [discriminate Heq|].
      destruct cols; [|discriminate Heq].
      exists n, l0, l1, l2, l3, l4, l5, l6, l7, d, o, h, l, c, ch, pc, v.
      split; [reflexivity|]. now inversion Hok. }
    split.
    + intros Heq Hrows.
      destruct (Height Heq)
        as (n & l0 & l1 & l2 & l3 & l4 & l5 & l6 & l7 &
            d & o & h & l & c & ch & pc & v & -> & Hd).
      simpl in Hrows. subst n. eexists.
      apply normalise_no_date. exact Hd.
    + intros Heq Hrows.
      destruct (Height Heq)
        as (n & l0 & l1 & l2 & l3 & l4 & l5 & l6 & l7 &
            d & o & h & l & c & ch & pc & v & -> & Hd).
      simpl in Hrows.
      destruct (normalise_eight W code n l0 l1 l2 l3 l4 l5 l6 l7
                  d o h l c ch pc v st ltac:(lia))
        as (out & logs & Hrun & _).
      now exists out, (mkstate (self_driver st) (logged st ++ logs) (Some out)).
Qed.

(** [nine_columns] and [no_rows] are well formed and pass the gate; the
    normalisation raises on both. *)
Lemma normalisation_raises_witness :
  (frame_ok nine_columns /\ 8 < List.length (columns nine_columns)
   /\ normalise (serving [nine_columns]) "0000" nine_columns
                (ready [nine_columns])
      = (Raise ValueError, ready [nine_columns]))
  /\ (frame_ok no_rows /\ List.length (columns no_rows) = 8
      /\ exists st',
           normalise (serving [no_rows]) "0000" no_rows (ready [no_rows])
           = (Raise IndexError, st')).
Proof.
  assert (H9 : frame_ok nine_columns) by repeat constructor.
  assert (H0 : frame_ok no_rows) by repeat constructor.
  split.
  - split; [exact H9|]. split; [simpl; lia|].
    apply (proj1 (proj2 (proj2 (normalisation_raises (serving [nine_columns])
                                  "0000"))
                   nine_columns (ready [nine_columns]) H9
                   ltac:(simpl; lia))).
    simpl; lia.
  - split; [exact H0|]. split; [reflexivity|].
    apply (proj1 (proj2 (proj2 (proj2 (normalisation_raises
                                         (serving [no_rows]) "0000"))
                          no_rows (ready [no_rows]) H0
                          ltac:(simpl; lia)))); reflexivity.
Defined.

(** C5.  A table of fewer than eight columns gives None, with the record
    of the gate (l.161) logged; a table that is not found gives None with
    another record (l.168); the two records differ, whatever the number of
    columns. *)
Theorem too_few_columns W code :
  (forall (st st1 : State W) tbl,
      fetch_table W code st = (Ok tbl, st1) ->
      List.length (columns tbl) < 8 ->
      get_stock_data W code st =
      (Ok None,
       logging st1 [(ERROR, TooFewColumns (List.length (columns tbl)))]))
  /\ (forall (st st1 : State W),
        fetch_table W code st = (Raise NoSuchElementException, st1) ->
        get_stock_data W code st =
        (Ok None, logging st1 [(ERROR, TableNotFound)]))
  /\ (forall n, (ERROR, TooFewColumns n) <> (ERROR, TableNotFound)).
Proof.
  split; [|split].
  - intros st st1 tbl Hfetch Hfew.
    rewrite (after_fetch W code st st1 tbl Hfetch).
    now rewrite normalise_few.
  - intros st st1 Hfetch. now rewrite (fetch_raised W code st st1 _ Hfetch).
  - intros n H. discriminate H.
Qed.

Lemma too_few_columns_witness :
  List.length (columns seven_columns) < 8
  /\ fst (get_stock_data (serving [seven_columns]) "0000"
                         (ready [seven_columns])) = Ok None
  /\ fst (get_stock_data without_table "0000"
                         (@mkstate without_table (Some 0) [] None)) = Ok None.
Proof.
  split; [simpl; lia|]. split.
  - rewrite (proj1 (too_few_columns (serving [seven_columns]) "0000")
               (ready [seven_columns])
               (snd (fetch_table (serving [seven_columns]) "0000"
                                 (ready [seven_columns])))
               seven_columns); [reflexivity|reflexivity|simpl; lia].
  - rewrite (proj1 (proj2 (too_few_columns without_table "0000"))
               (@mkstate without_table (Some 0) [] None)
               (snd (fetch_table without_table "0000"
                       (@mkstate without_table (Some 0) [] None))));
      reflexivity.
Defined.

(** The series returned is the cleansed frame with its rows taken in the
    order of the descending sort of its dates. *)
Lemma returned_series W code (st st' : State W) out :
  get_stock_data W code st = (Ok (Some out), st') ->
  exists tbl st1 n d o h l c ch pc v dates,
    fetch_table W code st = (Ok tbl, st1)
    /\ List.length (columns tbl) = 8
    /\ nrows tbl = n
    /\ map snd (columns tbl) = [d; o; h; l; c; ch; pc; v]
    /\ date_column d = SDatetime dates
    /\ List.length dates = series_len d
    /\ dates <> []
    /\ out = mkframe (List.length dates)
               (map (fun col =>
                       (fst col,
                        series_take (nargsort date_leb false dates) (snd col)))
                    (columns (cleansed n d o h l c ch pc v))).
Proof.
  intros H.
  destruct (get_stock_data_returned W code st st' out H)
    as (tbl & st1 & Hfetch & Hrun).
  destruct (normalise_returned W code tbl st1 st' out Hrun)
    as (l0 & l1 & l2 & l3 & l4 & l5 & l6 & l7 &
        d & o & h & l & c & ch & pc & v & Hcols & Hd & Hsort).
  destruct (sort_cleansed (nrows tbl) d o h l c ch pc v)
    as (dates & indexer & Hdates & -> & Hsorted).
  rewrite Hsorted in Hsort. injection Hsort as <-.
  destruct (date_column_datetime d) as (dates' & Hdates' & Hlen).
  rewrite Hdates in Hdates'. injection Hdates' as <-.
  exists tbl, st1, (nrows tbl), d, o, h, l, c, ch, pc, v, dates.
  repeat split; try assumption; try reflexivity.
  - now rewrite Hcols.
  - now rewrite Hcols.
  - intros ->. simpl in Hlen. congruence.
Qed.

Lemma returned_dates n d o h l c ch pc v dates ix :
  date_column d = SDatetime dates ->
  dates_of (mkframe (List.length dates)
              (map (fun col => (fst col, series_take ix (snd col)))
                   (columns (cleansed n d o h l c ch pc v))))
  = Some (take ix dates).
Proof.
  intros Hd. unfold dates_of, cleansed.
  cbn -[numeric_column date_column take]. now rewrite Hd.
Qed.

Lemma present_then_missing {A} (xs : list A) k i j a :
  nth_error (map Some xs ++ repeat None k) i = Some None ->
  nth_error (map Some xs ++ repeat None k) j = Some (Some a) ->
  j < i.
Proof.
  intros Hi Hj.
  assert (Hlen : List.length (map Some xs) = List.length xs)
    by apply length_map.
  destruct (Nat.lt_ge_cases i (List.length xs)) as [Hlt|Hge].
  - rewrite nth_error_app1 in Hi by lia.
    rewrite nth_error_map in Hi.
    destruct (nth_error xs i); discriminate Hi.
  - destruct (Nat.lt_ge_cases j (List.length xs)) as [Hlt'|Hge']; [lia|].
    rewrite nth_error_app2 in Hj by lia.
    apply nth_error_In, repeat_spec in Hj. discriminate Hj.
Qed.

(** C7.  Every series [get_stock_data] returns is the table it fetched,
    cleansed column by column, with its rows permuted, whole rows at a time,
    so that the dates run from the most recent to the oldest (and then the
    missing ones); the three rows dated 2023-01-01, 2023-01-03, 2023-01-02
    come back as 01-03, 01-02, 01-01, each with its own prices. *)
Theorem rows_sorted_by_date_descending :
  (forall W code (st st' : State W) out,
      get_stock_data W code st = (Ok (Some out), st') ->
      exists tbl st1 d o h l c ch pc v indexer ds k,
        fetch_table W code st = (Ok tbl, st1)
        /\ map snd (columns tbl) = [d; o; h; l; c; ch; pc; v]
        /\ Permutation indexer (seq 0 (series_len d))
        /\ nrows out = series_len d
        /\ columns out
           = map (fun col => (fst col, series_take indexer (snd col)))
                 (columns (cleansed (nrows tbl) d o h l c ch pc v))
        /\ dates_of out = Some (map Some ds ++ repeat None k)
        /\ descending ds)
  /\ fst (get_stock_data (serving [three_days]) "0000" (ready [three_days]))
     = Ok (Some (mkframe 3
         [ (c_date, SDatetime [Some (mkdate 2023 1 3);
                               Some (mkdate 2023 1 2);
                               Some (mkdate 2023 1 1)]);
           (c_open, SNum Int64 [Fin 2 0; Fin 3 0; Fin 1 0]);
           (c_high, SNum Int64 [Fin 2 0; Fin 3 0; Fin 1 0]);
           (c_low, SNum Int64 [Fin 2 0; Fin 3 0; Fin 1 0]);
           (c_close, SNum Int64 [Fin 2 0; Fin 3 0; Fin 1 0]);
           (c_change, SNum Int64 [Fin 0 0; Fin 0 0; Fin 0 0]);
           (c_change_pct, SNum Float64 [Fin 5 1; Fin 5 1; Fin 5 1]);
           (c_volume, SNum Int64 [Fin 200 0; Fin 300 0; Fin 100 0]) ])).
Proof.
  split; [|vm_compute; reflexivity].
  intros W code st st' out H.
  destruct (returned_series W code st st' out H)
    as (tbl & st1 & n & d & o & h & l & c & ch & pc & v & dates &
        Hfetch & _ & Hn & Hcols & Hdates & Hlen & _ & ->).
  exists tbl, st1, d, o, h, l, c, ch, pc, v, (nargsort date_leb false dates).
  exists (map snd (sorted_desc date_leb dates)).
  exists (List.length (nan_idx 0 dates)).
  split; [exact Hfetch|]. split; [exact Hcols|].
  split; [rewrite <- Hlen; apply nargsort_perm|].
  split; [exact Hlen|].
  split; [now rewrite Hn|]. split.
  - rewrite (returned_dates n d o h l c ch pc v dates _ Hdates).
    now rewrite take_nargsort.
  - apply sorted_desc_sorted.
    + exact date_leb_total.
    + exact date_leb_trans.
Qed.

Lemma rows_sorted_by_date_descending_witness :
  exists ds k,
    dates_of (returned_frame
                (fst (get_stock_data (serving [three_days]) "0000"
                                     (ready [three_days]))))
    = Some (map Some ds ++ repeat None k)
    /\ descending ds.
Proof.
  assert (H : get_stock_data (serving [three_days]) "0000" (ready [three_days])
              = (Ok (Some (returned_frame
                             (fst (get_stock_data (serving [three_days])
                                     "0000" (ready [three_days]))))),
                 snd (get_stock_data (serving [three_days]) "0000"
                                     (ready [three_days]))))
    by (vm_compute; reflexivity).
  destruct (proj1 rows_sorted_by_date_descending (serving [three_days])
              "0000" (ready [three_days]) _ _ H)
    as (tbl & st1 & d & o & h & l & c & ch & pc & v & indexer & ds & k &
        _ & _ & _ & _ & _ & Hdates & Hdesc).
  exists ds, k. split; assumption.
Defined.

(** C10.  In every series [get_stock_data] returns, a row without a date
    stands after every row with one. *)
Theorem null_dates_come_last W code (st st' : State W) out :
  get_stock_data W code st = (Ok (Some out), st') ->
  exists dates,
    dates_of out = Some dates
    /\ forall i j a,
         nth_error dates i = Some None ->
         nth_error dates j = Some (Some a) ->
         j < i.
Proof.
  intros H.
  destruct (returned_series W code st st' out H)
    as (tbl & st1 & n & d & o & h & l & c & ch & pc & v & dates &
        _ & _ & _ & _ & Hdates & _ & _ & ->).
  eexists. split.
  - rewrite (returned_dates n d o h l c ch pc v dates _ Hdates).
    rewrite take_nargsort. reflexivity.
  - intros i j a. apply present_then_missing.
Qed.

Lemma null_dates_come_last_witness :
  dates_of (returned_frame
              (fst (get_stock_data (serving [mixed_dates]) "0000"
                                   (ready [mixed_dates]))))
  = Some [Some (mkdate 2023 1 15); None; None]
  /\ exists dates,
       dates_of (returned_frame
                   (fst (get_stock_data (serving [mixed_dates]) "0000"
                                        (ready [mixed_dates]))))
       = Some dates
       /\ forall i j a,
            nth_error dates i = Some None ->
            nth_error dates j = Some (Some a) ->
            j < i.
Proof.
  split; [vm_compute; reflexivity|].
  apply (null_dates_come_last (serving [mixed_dates]) "0000"
           (ready [mixed_dates])
           (snd (get_stock_data (serving [mixed_dates]) "0000"
                                (ready [mixed_dates])))).
  vm_compute; reflexivity.
Defined.




(** C8 (the code departs from it).  [nine_columns] passes the gate of
    l.108 with its two rows, the second of which has a date that no format
    reads; no row of it comes back, for the ValueError of l.109 makes the
    method return None (the defect of C2). *)
Theorem nine_columns_rows_are_lost :
  (8 <=? List.length (columns nine_columns))%nat = true
  /\ nrows nine_columns = 2
  /\ lookup "日付" (columns nine_columns)
     = Some (SObj [Some "23/01/15"; Some "n/a"])
  /\ strptime fmt_yy_mm_dd "n/a" = None
  /\ strptime fmt_yyyy_mm_dd "n/a" = None
  /\ get_stock_data (serving [nine_columns]) "0000" (ready [nine_columns])
     = (Ok None,
        logging (snd (fetch_table (serving [nine_columns]) "0000"
                                  (ready [nine_columns])))
                [(ERROR, DataConversionError ValueError)]).
Proof. repeat split; vm_compute; reflexivity. Qed.

Lemma series_take_length ix s :
  Forall (fun i => i < series_len s) ix ->
  series_len (series_take ix s) = List.length ix.
Proof. destruct s; simpl; apply take_length. Qed.

(** X4.  What the code does keep: on a table of exactly eight columns with at
    least one row, every row comes back, with or without a date. *)
Lemma rows_are_kept W code (st st1 : State W) tbl :
  fetch_table W code st = (Ok tbl, st1) ->
  frame_ok tbl -> List.length (columns tbl) = 8 -> 0 < nrows tbl ->
  exists out,
    fst (get_stock_data W code st) = Ok (Some out)
    /\ nrows out = nrows tbl
    /\ frame_ok out.
Proof.
  intros Hfetch Hok Heq Hrows.
  destruct (eight_columns_returned W code st st1 tbl Hfetch Hok Heq Hrows)
    as (out & logs & Hrun & _).
  exists out. split; [now rewrite Hrun|].
  destruct (returned_series W code st _ out Hrun)
    as (tbl' & st1' & n & d & o & h & l & c & ch & pc & v & dates &
        Hfetch' & _ & Hn & Hcols & Hdates & Hlen & _ & ->).
  rewrite Hfetch in Hfetch'. injection Hfetch' as <- <-.
  assert (Hall : Forall (fun s => series_len s = nrows tbl)
                        [d; o; h; l; c; ch; pc; v]).
  { rewrite <- Hcols. unfold frame_ok in Hok.
    rewrite Forall_map. exact Hok. }
  assert (Hd : List.length dates = nrows tbl).
  { rewrite Hlen. now inversion Hall. }
  split; [exact Hd|].
  assert (Hix : Forall (fun i => i < nrows tbl)
                       (nargsort date_leb false dates)).
  { eapply Permutation_Forall; [symmetry; apply nargsort_perm|].
    rewrite Hd. apply Forall_forall. intros i Hi.
    apply in_seq in Hi. lia. }
  assert (Hnum : forall p s, series_len s = nrows tbl ->
             series_len (series_take (nargsort date_leb false dates)
                                     (numeric_column p s))
             = List.length dates).
  { intros p s Hs. rewrite series_take_length.
    - now rewrite nargsort_length.
    - destruct (numeric_column_cells p s) as (cells & -> & Hc & _).
      simpl. rewrite Hc, Hs. exact Hix. }
  inversion Hall as [|? ? H0 Hall0]; subst.
  inversion Hall0 as [|? ? H1 Hall1]; subst.
  inversion Hall1 as [|? ? H2 Hall2]; subst.
  inversion Hall2 as [|? ? H3 Hall3]; subst.
  inversion Hall3 as [|? ? H4 Hall4]; subst.
  inversion Hall4 as [|? ? H5 Hall5]; subst.
  inversion Hall5 as [|? ? H6 Hall6]; subst.
  inversion Hall6 as [|? ? H7 Hall7]; subst.
  unfold frame_ok, cleansed.
  cbn -[numeric_column date_column nargsort series_take].
  repeat constructor; cbn -[numeric_column date_column nargsort series_take];
    try (apply Hnum; assumption).
  rewrite Hdates. rewrite series_take_length.
  - now rewrite nargsort_length.
  - simpl. rewrite Hd. exact Hix.
Qed.

(** C9 as the spec states it does not hold: [close_driver] is not
    idempotent.  It never clears the [driver] attribute, so a second call
    finds it, calls [quit] on the same browser again (the session counts the
    calls) and logs a second success: neither a no-op nor a logged
    failure. *)
Lemma second_close_quits_again :
  let st1 := snd (close_driver (serving []) (ready [])) in
  let st2 := snd (close_driver (serving []) st1) in
  fst (close_driver (serving []) st1) = Ok tt
  /\ self_driver st1 = Some 1
  /\ self_driver st2 = Some 2
  /\ logged st1 = [(INFO, DriverQuit)]
  /\ logged st2 = [(INFO, DriverQuit); (INFO, DriverQuit)]
  /\ st2 <> st1.
Proof.
  cbv zeta. repeat split; try (vm_compute; reflexivity).
  vm_compute. discriminate.
Qed.

(** C9, amended.  [close_driver] never raises, on any scraper and whatever
    [quit] does.  Without a [driver] attribute it changes nothing, and a
    scraper whose [__init__] failed before the browser was created has none.
    With the attribute it calls [quit] once on the browser it holds, logs
    the success or the failure, and leaves the attribute in place: so two
    calls in a row call [quit] twice and log two records. *)
Theorem close_driver_never_raises W (st : State W) :
  (exists st', close_driver W st = (Ok tt, st'))
  /\ (self_driver st = None -> close_driver W st = (Ok tt, st))
  /\ (forall d,
        self_driver st = Some d ->
        close_driver W st =
        (Ok tt,
         mkstate (Some (snd (quit W d)))
                 (logged st ++
                  [match fst (quit W d) with
                   | Ok _ => (INFO, DriverQuit)
                   | Raise e => (ERROR, DriverQuitFailed e)
                   end])
                 (local_df st)))
  /\ (forall d,
        self_driver st = Some d ->
        exists r1 r2,
          (close_driver W ;; close_driver W) st =
          (Ok tt,
           mkstate (Some (snd (quit W (snd (quit W d)))))
                   (logged st ++ [r1; r2]) (local_df st)))
  /\ (forall path headless e,
        self_driver st = None -> launch W path headless = Raise e ->
        exists st',
          init W path headless st = (Raise e, st')
          /\ self_driver st' = None
          /\ close_driver W st' = (Ok tt, st')).
Proof.
  assert (Hsome : forall (s : State W) d,
            self_driver s = Some d ->
            close_driver W s =
            (Ok tt,
             mkstate (Some (snd (quit W d)))
                     (logged s ++
                      [match fst (quit W d) with
                       | Ok _ => (INFO, DriverQuit)
                       | Raise e => (ERROR, DriverQuitFailed e)
                       end])
                     (local_df s))).
  { intros s d Hd. unfold close_driver. rewrite Hd.
    unfold try_except, bind, on_driver. rewrite Hd.
    destruct (quit W d) as [[[]|e] d']; reflexivity. }
  assert (Hnone : forall s : State W,
            self_driver s = None -> close_driver W s = (Ok tt, s)).
  { intros s Hd. unfold close_driver. now rewrite Hd. }
  split; [|split; [|split; [|split]]].
  - destruct (self_driver st) as [d|] eqn:Hd.
    + rewrite (Hsome st d Hd). eexists; reflexivity.
    + rewrite (Hnone st Hd). eexists; reflexivity.
  - apply Hnone.
  - apply Hsome.
  - intros d Hd. unfold bind at 1. rewrite (Hsome st d Hd).
    match goal with
    | |- context [close_driver W ?s] =>
        rewrite (Hsome s (snd (quit W d)) eq_refl)
    end.
    cbn [logged local_df].
    rewrite <- app_assoc. eexists; eexists; reflexivity.
  - intros path headless e Hd Hl.
    unfold init, try_except, bind, lift. rewrite Hl.
    eexists. split; [reflexivity|]. split; [exact Hd|].
    apply Hnone. exact Hd.
Qed.

(** A browser that refuses to quit: the failure is logged, nothing is
    raised, and the attribute stays. *)
Lemma close_driver_never_raises_witness :
  close_driver not_quitting (@mkstate not_quitting (Some 0) [] None)
  = (Ok tt,
     @mkstate not_quitting (Some 1)
       [(ERROR, DriverQuitFailed WebDriverException)] None).
Proof.
  apply (proj1 (proj2 (proj2
           (close_driver_never_raises not_quitting
              (@mkstate not_quitting (Some 0) [] None))))
           0 eq_refl).
Defined.

(** ** More of [data_loader.py] *)

Import StockScraper Frame.

Section MoreScraperFacts.

Variable W : World.

(** X1.  [__init__] (l.28-63) either returns with the [driver] attribute set and
    the success logged, or logs the failure and raises what was raised; when
    the browser could not be created the attribute stays as it was, and when
    it was created but could not be configured the attribute is set all the
    same, although the constructor raises. *)
Theorem init_outcomes path headless (st : State W) :
  match init W path headless st with
  | (Ok _, st') =>
      (exists d, self_driver st' = Some d)
      /\ logged st' = logged st ++ [(INFO, DriverInitialised)]
  | (Raise e, st') =>
      logged st' = logged st ++ [(ERROR, DriverInitFailed e)]
      /\ (launch W path headless = Raise e ->
          self_driver st' = self_driver st)
      /\ (forall d, launch W path headless = Ok d ->
          exists d', self_driver st' = Some d')
  end.
Proof.
  unfold init, try_except, bind, lift, set_driver, on_driver, modify, log.
  destruct (launch W path headless) as [d|e]; simpl.
  - destruct (implicitly_wait W 10 d) as [[[]|e] d1]; simpl.
    + destruct (set_page_load_timeout W 30 d1) as [[[]|e] d2]; simpl.
      * split; [now exists d2|reflexivity].
      * split; [reflexivity|]. split; [discriminate|].
        intros d0 _. now exists d2.
    + split; [reflexivity|]. split; [discriminate|].
      intros d0 _. now exists d1.
  - split; [reflexivity|]. split; [reflexivity|]. discriminate.
Qed.

(** X2.  Without the [driver] attribute [get_stock_data] fetches nothing: the
    AttributeError of [self.driver] is caught by the last clause, logged as
    an unexpected error, and None is returned. *)
Theorem get_stock_data_without_driver code (st : State W) :
  self_driver st = None ->
  get_stock_data W code st =
  (Ok None,
   logging st
     [ (INFO, AccessingUrl ("https://kabutan.jp/stock/kabuka?code=" ++ code));
       (ERROR, UnexpectedError AttributeError) ]).
Proof.
  intros Hd.
  unfold get_stock_data, try_clauses, try_except, bind at 1, fetch_table.
  unfold bind at 1. unfold bind at 1. unfold on_driver at 1, log at 1, modify.
  cbn [self_driver]. rewrite Hd. cbn.
  unfold logging, ret. cbn. now rewrite <- app_assoc, Hd.
Qed.

End MoreScraperFacts.

Lemma get_stock_data_without_driver_witness :
  fst (get_stock_data not_starting "0000"
         (@mkstate not_starting None [] None)) = Ok None.
Proof.
  rewrite (get_stock_data_without_driver not_starting "0000"
             (@mkstate not_starting None [] None)); reflexivity.
Defined.

(** ** The log only grows, the driver attribute stays *)

Section Monotone.

Variable W : World.

Lemma extends_refl (st : State W) : extends st st.
Proof. split; [exists []; now rewrite app_nil_r|auto]. Qed.

Lemma extends_trans (a b c : State W) :
  extends a b -> extends b c -> extends a c.
Proof.
  intros [[r1 H1] D1] [[r2 H2] D2]. split; [|auto].
  exists (r1 ++ r2). now rewrite H2, H1, app_assoc.
Qed.

Lemma monotone_ret {A} (a : A) : monotone (ret a : Method W A).
Proof. intros st. apply extends_refl. Qed.

Lemma monotone_raise {A} e : monotone (raise e : Method W A).
Proof. intros st. apply extends_refl. Qed.

Lemma monotone_lift {A} (r : result A) : monotone (lift r : Method W A).
Proof. intros st. apply extends_refl. Qed.

Lemma monotone_log l m : monotone (log W l m).
Proof. intros st. split; [now exists [(l, m)]|auto]. Qed.

Lemma monotone_on_driver {A} (call : session W -> result A * session W) :
  monotone (on_driver W call).
Proof.
  intros st. unfold on_driver.
  destruct (self_driver st) as [d|] eqn:Hd; [|apply extends_refl].
  destruct (call d) as [r d']. split; simpl.
  - exists []. now rewrite app_nil_r.
  - discriminate.
Qed.

Lemma monotone_set_driver d : monotone (set_driver W d).
Proof.
  intros st. split; simpl; [exists []; now rewrite app_nil_r|discriminate].
Qed.

Lemma monotone_bind_df v : monotone (bind_df W v).
Proof.
  intros st. split; simpl; [exists []; now rewrite app_nil_r|auto].
Qed.

Lemma monotone_the_df : monotone (the_df W).
Proof.
  intros st. unfold the_df. destruct (local_df st); apply extends_refl.
Qed.

Lemma monotone_bind {A B} (c : Method W A) (k : A -> Method W B) :
  monotone c -> (forall a, monotone (k a)) -> monotone (bind c k).
Proof.
  intros Hc Hk st. unfold bind. specialize (Hc st).
  destruct (c st) as [[a|e] st1]; simpl in *; [|exact Hc].
  eapply extends_trans; [exact Hc|apply Hk].
Qed.

Lemma monotone_try {A} (body : Method W A) (h : exn -> Method W A) :
  monotone body -> (forall e, monotone (h e)) -> monotone (try_except body h).
Proof.
  intros Hb Hh st. unfold try_except. specialize (Hb st).
  destruct (body st) as [[a|e] st1]; simpl in *; [exact Hb|].
  eapply extends_trans; [exact Hb|apply Hh].
Qed.

Lemma monotone_for_each {A} (xs : list A) (body : A -> Method W unit) :
  (forall x, monotone (body x)) -> monotone (for_each xs body).
Proof.
  intros Hb. induction xs as [|x r IH]; simpl; [apply monotone_ret|].
  apply monotone_bind; auto.
Qed.

Lemma monotone_if {A} (b : bool) (c1 c2 : Method W A) :
  monotone c1 -> monotone c2 -> monotone (if b then c1 else c2).
Proof. now destruct b. Qed.

Ltac monotone_step :=
  lazymatch goal with
  | |- monotone (ret _) => apply monotone_ret
  | |- monotone (raise _) => apply monotone_raise
  | |- monotone (lift _) => apply monotone_lift
  | |- monotone (log _ _ _) => apply monotone_log
  | |- monotone (on_driver _ _) => apply monotone_on_driver
  | |- monotone (set_driver _ _) => apply monotone_set_driver
  | |- monotone (bind_df _ _) => apply monotone_bind_df
  | |- monotone (the_df _) => apply monotone_the_df
  | |- monotone (for_each _ _) => apply monotone_for_each; intros ?
  | |- monotone (if _ then _ else _) => apply monotone_if
  | |- monotone (try_except _ _) => apply monotone_try; [|intros ?]
  | |- monotone (bind _ _) => apply monotone_bind; [|intros ?]
  end.

Lemma monotone_column label : monotone (column W label).
Proof. unfold column. repeat monotone_step. Qed.

Lemma monotone_assign_column label s : monotone (assign_column W label s).
Proof. unfold assign_column. repeat monotone_step. Qed.

Lemma monotone_clean_price col : monotone (clean_price W col).
Proof.
  unfold clean_price.
  repeat first [monotone_step | apply monotone_column
               | apply monotone_assign_column].
Qed.

Lemma monotone_fetch_table code : monotone (fetch_table W code).
Proof. unfold fetch_table. repeat monotone_step. Qed.

Lemma monotone_normalise code df : monotone (normalise W code df).
Proof.
  unfold normalise.
  repeat first [monotone_step | apply monotone_column
               | apply monotone_assign_column | apply monotone_clean_price].
Qed.

Lemma monotone_dispatch e : monotone (dispatch (handlers W) e).
Proof. destruct e; simpl; repeat monotone_step. Qed.

(** X3.  No method of the scraper drops a log record or removes the [driver]
    attribute of [self]: [get_stock_data] leaves a scraper it can be called
    on again, and [close_driver] leaves the attribute in place after the
    browser has quit. *)
Theorem methods_only_add :
  (forall code, monotone (get_stock_data W code))
  /\ monotone (close_driver W)
  /\ (forall path headless, monotone (init W path headless)).
Proof.
  split; [|split].
  - intros code. unfold get_stock_data, try_clauses.
    apply monotone_try.
    + apply monotone_bind; [apply monotone_fetch_table|].
      intros df. apply monotone_normalise.
    + apply monotone_dispatch.
  - intros st. unfold close_driver.
    destruct (self_driver st); [|apply extends_refl].
    revert st. change (monotone (try_except
      (on_driver W (quit W) ;; log W INFO DriverQuit)
      (fun e => log W ERROR (DriverQuitFailed e)))).
    repeat monotone_step.
  - intros path headless. unfold init. repeat monotone_step.
Qed.

End Monotone.

(** After [close_driver] the scraper still has its [driver] attribute: a
    browser that refuses to quit is asked again by the next call. *)
Lemma methods_only_add_witness :
  self_driver (snd (close_driver not_quitting
                      (@mkstate not_quitting (Some 0) [] None))) <> None.
Proof.
  apply (proj1 (proj2 (methods_only_add not_quitting))
           (@mkstate not_quitting (Some 0) [] None)).
  discriminate.
Defined.

(** ** The ascending sort of the chart *)

Section AscendingSort.

Context {K : Type} (leb : K -> K -> bool).
Hypothesis leb_total : forall a b, leb a b = false -> leb b a = true.
Hypothesis leb_trans :
  forall a b c, leb a b = true -> leb b c = true -> leb a c = true.

Lemma nargsort_asc l :
  nargsort leb true l
  = map fst (sort_pairs leb (non_nans 0 l)) ++ nan_idx 0 l.
Proof. reflexivity. Qed.

Lemma nargsort_asc_perm l :
  Permutation (nargsort leb true l) (seq 0 (List.length l)).
Proof.
  rewrite nargsort_asc, <- positions_perm.
  apply Permutation_app_tail, Permutation_map, sort_pairs_perm.
Qed.

Lemma take_nargsort_asc l :
  take (nargsort leb true l) l =
  map Some (map snd (sort_pairs leb (non_nans 0 l))) ++
  repeat None (List.length (nan_idx 0 l)).
Proof.
  rewrite nargsort_asc, take_app. f_equal.
  - rewrite map_map. apply take_present.
    eapply Permutation_Forall; [symmetry; apply sort_pairs_perm|].
    eapply Forall_impl; [|apply non_nans_at].
    intros p [_ Hp]. now rewrite Nat.sub_0_r in Hp.
  - apply take_missing.
    eapply Forall_impl; [|apply nan_idx_at].
    intros j [_ Hj]. now rewrite Nat.sub_0_r in Hj.
Qed.

Lemma sort_pairs_ascending l :
  StronglySorted (fun a b => leb a b = true)
                 (map snd (sort_pairs leb (non_nans 0 l))).
Proof.
  apply sorted_map. now apply sort_pairs_sorted.
Qed.

End AscendingSort.

Lemma lookup_taken label ix cols :
  lookup label (map (fun c => (fst c, series_take ix (snd c))) cols)
  = option_map (series_take ix) (lookup label cols).
Proof.
  induction cols as [|[l s] r IH]; simpl; [reflexivity|].
  destruct (l =? label)%string; [reflexivity|exact IH].
Qed.

(** ** app.py *)

Import App.

Section AppFacts.

Variable W : World.

Lemma close_driver_returns (st : State W) :
  exists st', close_driver W st = (Ok tt, st').
Proof.
  unfold close_driver.
  destruct (self_driver st) as [d|] eqn:Hd; [|eexists; reflexivity].
  unfold try_except, bind, on_driver. rewrite Hd.
  destruct (quit W d) as [[[]|e] d']; eexists; reflexivity.
Qed.

(** X7.  [cleanup], run against a session: it never raises and touches
    neither the cached data nor the page.  Where the session holds no
    scraper -- the key missing or None, as on an empty session state -- it
    does nothing at all.  Where it holds one it calls [close_driver] on it
    once, sets the key to None and logs the clean-up; a second [cleanup]
    then does nothing. *)
Theorem cleanup_outcomes (s : AppState W) :
  exists s',
    cleanup W s = (Ok tt, s')
    /\ (forall obj, scraper s' <> Value obj)
    /\ data s' = data s /\ page s' = page s /\ at_exit s' = at_exit s
    /\ ((forall obj, scraper s <> Value obj) -> s' = s)
    /\ (forall obj,
          scraper s = Value obj ->
          exists st',
            close_driver W (mkstate obj (loader_log s) None) = (Ok tt, st')
            /\ scraper s' = Null
            /\ loader_log s' = logged st'
            /\ app_log s' = app_log s ++ [(INFO, CleanedUp)])
    /\ cleanup W s' = (Ok tt, s').
Proof.
  assert (Hidle : forall t : AppState W,
            (forall obj, scraper t <> Value obj) -> cleanup W t = (Ok tt, t)).
  { intros t Ht. unfold cleanup.
    destruct (scraper t) as [| |obj] eqn:E; try reflexivity.
    now elim (Ht obj). }
  destruct (scraper s) as [| |obj] eqn:Hs.
  - exists s. rewrite Hidle by (intros obj; rewrite Hs; discriminate).
    split; [reflexivity|].
    split; [intros obj; rewrite Hs; discriminate|].
    split; [reflexivity|]. split; [reflexivity|]. split; [reflexivity|].
    split; [intros _; reflexivity|].
    split; [intros obj E; discriminate E|].
    reflexivity.
  - exists s. rewrite Hidle by (intros obj; rewrite Hs; discriminate).
    split; [reflexivity|].
    split; [intros obj; rewrite Hs; discriminate|].
    split; [reflexivity|]. split; [reflexivity|]. split; [reflexivity|].
    split; [intros _; reflexivity|].
    split; [intros obj E; discriminate E|].
    reflexivity.
  - destruct (close_driver_returns (mkstate obj (loader_log s) None))
      as (st' & Hclose).
    exists (mkapp Null (data s) (logged st') (app_log s ++ [(INFO, CleanedUp)])
                  (page s) (at_exit s)).
    assert (Hrun : cleanup W s
                   = (Ok tt,
                      mkapp Null (data s) (logged st')
                            (app_log s ++ [(INFO, CleanedUp)])
                            (page s) (at_exit s))).
    { unfold cleanup. rewrite Hs.
      unfold try_except, bind, on_scraper. rewrite Hs, Hclose. reflexivity. }
    split; [exact Hrun|]. split; [intros; discriminate|].
    split; [reflexivity|]. split; [reflexivity|]. split; [reflexivity|].
    split; [intros H; now elim (H obj)|]. split.
    + intros obj' E. injection E as <-.
      exists st'. repeat split; try reflexivity. exact Hclose.
    + apply Hidle. intros; discriminate.
Qed.

(** The widgets [show_data] renders, and nothing else, are added to the
    state. *)
Lemma show_data_page_only df (s : AppState W) :
  exists r ws,
    show_data W df s
    = (r, mkapp (scraper s) (data s) (loader_log s) (app_log s)
                (page s ++ ws) (at_exit s)).
Proof.
  unfold show_data, bind, show, modify, lift. cbn.
  repeat match goal with
         | |- context [match ?r with Ok _ => _ | Raise _ => _ end] =>
             destruct r
         end;
    cbn; rewrite <- ?app_assoc; eexists; eexists; reflexivity.
Qed.

(** A frame with the five columns is rendered whole: the table, then the
    chart drawn from the columns taken in the order of an ascending sort of
    the dates. *)
Lemma show_data_chartable df (s : AppState W) :
  chartable df ->
  exists key so sh sl sc,
    lookup c_date (columns df) = Some key
    /\ lookup c_open (columns df) = Some so
    /\ lookup c_high (columns df) = Some sh
    /\ lookup c_low (columns df) = Some sl
    /\ lookup c_close (columns df) = Some sc
    /\ show_data W df s
       = (Ok tt,
          mkapp (scraper s) (data s) (loader_log s) (app_log s)
            (page s ++
             [ Subheader TableHeading; Dataframe df; Subheader ChartHeading;
               PlotlyChart
                 (series_take (series_argsort true key) key)
                 (series_take (series_argsort true key) so)
                 (series_take (series_argsort true key) sh)
                 (series_take (series_argsort true key) sl)
                 (series_take (series_argsort true key) sc) ])
            (at_exit s)).
Proof.
  intros Hc. unfold chartable in Hc.
  inversion Hc as [|? ? Hd Hc1]; subst.
  inversion Hc1 as [|? ? Ho Hc2]; subst.
  inversion Hc2 as [|? ? Hh Hc3]; subst.
  inversion Hc3 as [|? ? Hl Hc4]; subst.
  inversion Hc4 as [|? ? Hcl _]; subst.
  destruct (lookup c_date (columns df)) as [key|] eqn:Ed; [|now elim Hd].
  destruct (lookup c_open (columns df)) as [so|] eqn:Eo; [|now elim Ho].
  destruct (lookup c_high (columns df)) as [sh|] eqn:Eh; [|now elim Hh].
  destruct (lookup c_low (columns df)) as [sl|] eqn:El; [|now elim Hl].
  destruct (lookup c_close (columns df)) as [sc|] eqn:Ec; [|now elim Hcl].
  exists key, so, sh, sl, sc. repeat split.
  unfold show_data, bind, show, modify, lift, sort_values, getitem.
  cbn -[series_argsort series_take lookup]. rewrite Ed.
  cbn -[series_argsort series_take lookup].
  rewrite !lookup_taken, Ed, Eo, Eh, El, Ec.
  cbn -[series_argsort series_take]. now rewrite <- !app_assoc.
Qed.

(** What [get_stock_data] returns can be charted and is not empty. *)
Lemma returned_frame_shape code (st st' : State W) out :
  get_stock_data W code st = (Ok (Some out), st') ->
  chartable out /\ empty out = false
  /\ exists dates, lookup c_date (columns out) = Some (SDatetime dates)
                   /\ List.length dates = nrows out.
Proof.
  intros H.
  destruct (returned_series W code st st' out H)
    as (tbl & st1 & n & d & o & h & l & c & ch & pc & v & dates &
        _ & _ & _ & _ & Hdates & _ & Hne & ->).
  split; [|split].
  - unfold chartable, cleansed.
    cbn -[numeric_column date_column series_take nargsort].
    repeat constructor; discriminate.
  - unfold empty. cbn -[numeric_column date_column series_take nargsort].
    destruct dates; [now elim Hne|reflexivity].
  - exists (take (nargsort date_leb false dates) dates).
    unfold cleansed. cbn -[numeric_column date_column take nargsort].
    rewrite Hdates. split; [reflexivity|].
    cbn -[take nargsort]. rewrite take_length.
    + apply nargsort_length.
    + eapply Permutation_Forall; [symmetry; apply nargsort_perm|].
      apply Forall_forall. intros i Hi. apply in_seq in Hi. lia.
Qed.

End AppFacts.

Section ScriptFacts.

Variable W : World.

Lemma script_cases clicked (s : AppState W) :
  script W clicked s =
  match (if clicked then on_click W else on_idle W) (opened W s) with
  | (Ok Finished, s') =>
      (Ok Finished,
       mkapp (scraper s') (data s') (loader_log s') (app_log s')
             (page s' ++ [Rule; Disclaimer]) (at_exit s'))
  | (Ok Stopped, s') => (Ok Stopped, s')
  | (Raise e, s') => (Raise e, s')
  end.
Proof.
  unfold script, bind, show, modify. cbn.
  rewrite <- app_assoc. cbn [app].
  change (mkapp (default (scraper s)) (default (data s)) (loader_log s)
                (app_log s) (page s ++ [Title; Intro]) (S (at_exit s)))
    with (opened W s).
  destruct clicked.
  - destruct (on_click W (opened W s)) as [[[]|e] s'];
      cbn; rewrite <- ?app_assoc; reflexivity.
  - destruct (on_idle W (opened W s)) as [[[]|e] s'];
      cbn; rewrite <- ?app_assoc; reflexivity.
Qed.

Lemma ensure_scraper_kept obj (s : AppState W) :
  scraper s = Value obj -> ensure_scraper W s = (Ok Finished, s).
Proof.
  intros H. unfold ensure_scraper, bind, gets. now rewrite H.
Qed.

Lemma ensure_scraper_started (s : AppState W) :
  scraper s = Null ->
  ensure_scraper W s =
  match init W None true (mkstate None (loader_log s) None) with
  | (Ok _, st) =>
      (Ok Finished,
       mkapp (Value (self_driver st)) (data s) (logged st) (app_log s)
             (page s ++ [Spinner StartingDriver]) (at_exit s))
  | (Raise e, st) =>
      (Ok Stopped,
       mkapp Null (data s) (logged st) (app_log s)
             (page s ++ [Spinner StartingDriver;
                         Error (DriverStartFailed e)]) (at_exit s))
  end.
Proof.
  intros H.
  unfold ensure_scraper, bind at 1, gets. rewrite H.
  unfold try_except, bind, show, modify, new_scraper, set_scraper. cbn.
  destruct (init W None true (mkstate None (loader_log s) None))
    as [[[]|e] st]; cbn; rewrite ?H, <- ?app_assoc; reflexivity.
Qed.

Lemma fetch_and_show_none obj (s : AppState W) st :
  scraper s = Value obj ->
  get_stock_data W "0000" (mkstate obj (loader_log s) None) = (Ok None, st) ->
  fetch_and_show W s =
  (Ok Stopped,
   mkapp (Value (self_driver st)) (data s) (logged st) (app_log s)
         (page s ++ [Spinner FetchingData; Error FetchFailed]) (at_exit s)).
Proof.
  intros Hs Hget.
  unfold fetch_and_show, try_except, bind, show, modify, on_scraper. cbn.
  rewrite Hs, Hget. cbn. now rewrite <- app_assoc.
Qed.

Lemma fetch_and_show_some obj (s : AppState W) st df :
  scraper s = Value obj ->
  get_stock_data W "0000" (mkstate obj (loader_log s) None)
  = (Ok (Some df), st) ->
  exists dates so sh sl sc,
    lookup c_date (columns df) = Some (SDatetime dates)
    /\ List.length dates = nrows df
    /\ lookup c_open (columns df) = Some so
    /\ lookup c_high (columns df) = Some sh
    /\ lookup c_low (columns df) = Some sl
    /\ lookup c_close (columns df) = Some sc
    /\ fetch_and_show W s =
       (Ok Finished,
        mkapp (Value (self_driver st)) (Value df) (logged st) (app_log s)
          (page s ++
           [ Spinner FetchingData;
             Subheader TableHeading; Dataframe df; Subheader ChartHeading;
             PlotlyChart
               (SDatetime (take (nargsort date_leb true dates) dates))
               (series_take (nargsort date_leb true dates) so)
               (series_take (nargsort date_leb true dates) sh)
               (series_take (nargsort date_leb true dates) sl)
               (series_take (nargsort date_leb true dates) sc) ])
          (at_exit s)).
Proof.
  intros Hs Hget.
  destruct (returned_frame_shape W "0000" _ st df Hget)
    as (Hchart & Hempty & dates & Hdates & Hlen).
  set (s1 := mkapp (Value (self_driver st)) (Value df) (logged st)
                   (app_log s) (page s ++ [Spinner FetchingData])
                   (at_exit s)).
  destruct (show_data_chartable W df s1 Hchart)
    as (key & so & sh & sl & sc & Hk & Ho & Hh & Hl & Hc & Hshow).
  rewrite Hdates in Hk. injection Hk as <-.
  exists dates, so, sh, sl, sc. repeat split; try assumption.
  unfold fetch_and_show, try_except, bind, show, modify, on_scraper.
  cbn -[show_data series_take nargsort take get_stock_data].
  rewrite Hs, Hget.
  cbn -[show_data series_take nargsort take]. rewrite Hempty.
  cbn -[show_data series_take nargsort take].
  fold s1.
  rewrite Hshow. unfold s1.
  cbn -[series_take nargsort take]. now rewrite <- app_assoc.
Qed.

End ScriptFacts.

Section ScriptTheorems.

Variable W : World.

Lemma get_stock_data_returns code (st : State W) :
  exists v st', get_stock_data W code st = (Ok v, st').
Proof.
  rewrite get_stock_data_cases.
  destruct ((df <- fetch_table W code ;; normalise W code df) st)
    as [[v|e] st']; eexists; eexists; reflexivity.
Qed.

(** X8.  A press of the button on a session that has a scraper, when
    [get_stock_data] returns a series: the series replaces the cached data,
    the run shows it as a table and draws the chart from its columns taken
    by one permutation of the rows, the dates from the oldest to the most
    recent with the missing ones last, and the run reaches its last line. *)
Theorem click_caches_and_charts obj (s : AppState W) st df :
  scraper s = Value obj ->
  get_stock_data W "0000" (mkstate obj (loader_log s) None)
  = (Ok (Some df), st) ->
  exists dates indexer ds k so sh sl sc,
    lookup c_date (columns df) = Some (SDatetime dates)
    /\ lookup c_open (columns df) = Some so
    /\ lookup c_high (columns df) = Some sh
    /\ lookup c_low (columns df) = Some sl
    /\ lookup c_close (columns df) = Some sc
    /\ Permutation indexer (seq 0 (nrows df))
    /\ take indexer dates = map Some ds ++ repeat None k
    /\ ascending ds
    /\ script W true s =
       (Ok Finished,
        mkapp (Value (self_driver st)) (Value df) (logged st) (app_log s)
          (page s ++
           [ Title; Intro; Spinner FetchingData;
             Subheader TableHeading; Dataframe df; Subheader ChartHeading;
             PlotlyChart (SDatetime (take indexer dates))
                         (series_take indexer so) (series_take indexer sh)
                         (series_take indexer sl) (series_take indexer sc);
             Rule; Disclaimer ])
          (S (at_exit s))).
Proof.
  intros Hs Hget.
  assert (Ho : scraper (opened W s) = Value obj) by (cbn; now rewrite Hs).
  destruct (fetch_and_show_some W obj (opened W s) st df Ho Hget)
    as (dates & so & sh & sl & sc & Hd & Hlen & Hso & Hsh & Hsl & Hsc & Hrun).
  exists dates, (nargsort date_leb true dates).
  exists (map snd (sort_pairs date_leb (non_nans 0 dates))).
  exists (List.length (nan_idx 0 dates)), so, sh, sl, sc.
  repeat split; try assumption.
  - rewrite <- Hlen. apply nargsort_asc_perm.
  - apply take_nargsort_asc.
  - apply sort_pairs_ascending; [exact date_leb_total|exact date_leb_trans].
  - rewrite script_cases. unfold on_click, bind.
    rewrite (ensure_scraper_kept W obj _ Ho), Hrun.
    cbn -[series_take nargsort take]. now rewrite <- !app_assoc.
Qed.

(** X9.  A press of the button on a session that has a scraper, when
    [get_stock_data] returns None: the cached data stays what it was, the
    page shows the failure and nothing of the data, and the run stops there,
    before the footer. *)
Theorem failed_fetch_keeps_cache obj (s : AppState W) st :
  scraper s = Value obj ->
  get_stock_data W "0000" (mkstate obj (loader_log s) None) = (Ok None, st) ->
  script W true s =
  (Ok Stopped,
   mkapp (Value (self_driver st)) (default (data s)) (logged st) (app_log s)
         (page s ++ [Title; Intro; Spinner FetchingData; Error FetchFailed])
         (S (at_exit s))).
Proof.
  intros Hs Hget.
  assert (Ho : scraper (opened W s) = Value obj) by (cbn; now rewrite Hs).
  rewrite script_cases. unfold on_click, bind.
  rewrite (ensure_scraper_kept W obj _ Ho).
  rewrite (fetch_and_show_none W obj (opened W s) st Ho Hget).
  cbn. now rewrite <- !app_assoc.
Qed.

(** X10.  A press of the button on a session without a scraper, when the
    browser cannot be created: the failure is shown, the run stops, the
    session still has no scraper, and nothing is fetched. *)
Theorem failed_start_stops_run (s : AppState W) e :
  (forall obj, scraper s <> Value obj) ->
  launch W None true = Raise e ->
  script W true s =
  (Ok Stopped,
   mkapp Null (default (data s))
         (loader_log s ++ [(ERROR, DriverInitFailed e)]) (app_log s)
         (page s ++ [Title; Intro; Spinner StartingDriver;
                     Error (DriverStartFailed e)])
         (S (at_exit s))).
Proof.
  intros Hs Hl.
  assert (Ho : scraper (opened W s) = Null).
  { cbn. destruct (scraper s) as [| |obj]; try reflexivity. now elim (Hs obj). }
  rewrite script_cases. unfold on_click, bind.
  rewrite (ensure_scraper_started W _ Ho).
  unfold init, try_except, bind, lift. rewrite Hl.
  cbn. now rewrite <- !app_assoc.
Qed.


Lemma on_click_outcome (s : AppState W) :
  scraper s <> Absent ->
  exists f s' ws,
    on_click W s = (Ok f, s')
    /\ scraper s' <> Absent
    /\ (data s' = data s \/ exists df, data s' = Value df /\ chartable df)
    /\ page s' = page s ++ ws
    /\ ~ In (Error NoData) ws
    /\ at_exit s' = at_exit s.
Proof.
  intros Hs. unfold on_click, bind at 1.
  assert (Hpage : forall ws : list widget,
            Forall (fun w => w <> Error NoData) ws -> ~ In (Error NoData) ws).
  { intros ws H Hin. rewrite Forall_forall in H. now apply (H _ Hin). }
  assert (Hfetch : forall (t : AppState W) obj,
            scraper t = Value obj ->
            exists f t' ws,
              fetch_and_show W t = (Ok f, t')
              /\ scraper t' <> Absent
              /\ (data t' = data t
                  \/ exists df, data t' = Value df /\ chartable df)
              /\ page t' = page t ++ ws
              /\ ~ In (Error NoData) ws
              /\ at_exit t' = at_exit t).
  { intros t obj Ht.
    destruct (get_stock_data_returns "0000" (mkstate obj (loader_log t) None))
      as ([df|] & st & Hget).
    - destruct (fetch_and_show_some W obj t st df Ht Hget)
        as (dates & so & sh & sl & sc & _ & _ & _ & _ & _ & _ & Hrun).
      destruct (returned_frame_shape W "0000" _ st df Hget) as (Hc & _).
      rewrite Hrun. do 3 eexists. split; [reflexivity|]. cbn.
      split; [discriminate|]. split; [right; now exists df|].
      split; [reflexivity|]. split; [|reflexivity].
      apply Hpage. repeat constructor; discriminate.
    - rewrite (fetch_and_show_none W obj t st Ht Hget).
      do 3 eexists. split; [reflexivity|]. cbn.
      split; [discriminate|]. split; [now left|].
      split; [reflexivity|]. split; [|reflexivity].
      apply Hpage. repeat constructor; discriminate. }
  destruct (scraper s) as [| |obj] eqn:E; [now elim Hs| |].
  - rewrite (ensure_scraper_started W s E).
    destruct (init W None true (mkstate None (loader_log s) None))
      as [[[]|e] st].
    + match goal with
      | |- context [fetch_and_show W ?t] =>
          destruct (Hfetch t (self_driver st) eq_refl)
            as (f & t' & ws & Hrun & H1 & H2 & H3 & H4 & H5)
      end.
      rewrite Hrun. exists f, t', (Spinner StartingDriver :: ws).
      cbn in *. repeat split; try assumption.
      * now rewrite H3, <- app_assoc.
      * intros [H|H]; [discriminate H|now apply H4].
    + do 3 eexists. split; [reflexivity|]. cbn.
      split; [discriminate|]. split; [now left|].
      split; [reflexivity|]. split; [|reflexivity].
      apply Hpage. repeat constructor; discriminate.
  - rewrite (ensure_scraper_kept W obj s E).
    destruct (Hfetch s obj E) as (f & t' & ws & Hrun & H).
    rewrite Hrun. now exists f, t', ws.
Qed.

Lemma on_idle_outcome (s : AppState W) :
  data s <> Absent ->
  (forall df, data s = Value df -> chartable df) ->
  exists ws,
    on_idle W s
    = (Ok Finished,
       mkapp (scraper s) (data s) (loader_log s) (app_log s) (page s ++ ws)
             (at_exit s))
    /\ ~ In (Error NoData) ws.
Proof.
  intros Hd Hinv. unfold on_idle, bind, gets.
  destruct (data s) as [| |df] eqn:E; [now elim Hd| |].
  - exists []. split; [|intros []].
    destruct s; cbn in *. now rewrite app_nil_r, E.
  - destruct (show_data_chartable W df s (Hinv df eq_refl))
      as (key & so & sh & sl & sc & _ & _ & _ & _ & _ & ->).
    eexists. split.
    + cbn -[series_take series_argsort]. rewrite E. reflexivity.
    + intros [H|[H|[H|[H|[]]]]]; discriminate H.
Qed.

(** X12.  Whatever the session holds and whether the button is pressed or
    not, a run of the script never raises, registers [cleanup] once more,
    leaves both keys of the session bound and a cached frame that can be
    charted, and never shows the "no data" message of l.86. *)
Theorem script_never_raises clicked (s : AppState W) :
  (forall df, data s = Value df -> chartable df) ->
  exists f s' ws,
    script W clicked s = (Ok f, s')
    /\ session_ok W s'
    /\ page s' = page s ++ ws
    /\ ~ In (Error NoData) ws
    /\ at_exit s' = S (at_exit s).
Proof.
  intros Hinv.
  assert (Hdef : forall df, default (data s) = Value df -> chartable df).
  { intros df H. apply Hinv. destruct (data s); try discriminate H.
    exact H. }
  assert (Hhead : ~ In (Error NoData) [Title; Intro]).
  { intros [H|[H|[]]]; discriminate H. }
  assert (Hfoot : ~ In (Error NoData) [Rule; Disclaimer]).
  { intros [H|[H|[]]]; discriminate H. }
  assert (Happ : forall l m : list widget,
            ~ In (Error NoData) l -> ~ In (Error NoData) m
            -> ~ In (Error NoData) (l ++ m)).
  { intros l m Hl Hm Hin. apply in_app_or in Hin. tauto. }
  destruct clicked.
  - rewrite script_cases.
    destruct (on_click_outcome (opened W s))
      as (f & s' & ws & Hrun & Hsc & Hdata & Hpage & Hno & Hexit).
    { cbn. destruct (scraper s); discriminate. }
    rewrite Hrun.
    assert (Hok : data s' <> Absent /\
                  forall df, data s' = Value df -> chartable df).
    { destruct Hdata as [Hsame|(df & Hdf & Hc)].
      - rewrite Hsame. cbn. split.
        + destruct (data s); discriminate.
        + exact Hdef.
      - rewrite Hdf. split; [discriminate|].
        intros df' H. now injection H as <-. }
    destruct f.
    + exists Finished. eexists.
      exists ([Title; Intro] ++ ws ++ [Rule; Disclaimer]).
      split; [reflexivity|].
      split; [split; [exact Hsc|exact Hok]|].
      split; [cbn [page]; rewrite Hpage; cbn [page opened];
              now rewrite <- !app_assoc|].
      split; [|exact Hexit].
      apply Happ; [exact Hhead|]. apply Happ; [exact Hno|exact Hfoot].
    + exists Stopped, s', ([Title; Intro] ++ ws).
      split; [reflexivity|].
      split; [split; [exact Hsc|exact Hok]|].
      split; [rewrite Hpage; cbn [page opened]; now rewrite <- !app_assoc|].
      split; [|exact Hexit].
      apply Happ; [exact Hhead|exact Hno].
  - rewrite script_cases.
    destruct (on_idle_outcome (opened W s)) as (ws & Hrun & Hno).
    { cbn. destruct (data s); discriminate. }
    { exact Hdef. }
    rewrite Hrun. exists Finished. eexists.
    exists ([Title; Intro] ++ ws ++ [Rule; Disclaimer]).
    split; [reflexivity|]. cbn [page at_exit scraper data opened].
    split; [|split; [now rewrite <- !app_assoc|split; [|reflexivity]]].
    + split; [destruct (scraper s); discriminate|].
      split; [destruct (data s); discriminate|exact Hdef].
    + apply Happ; [exact Hhead|]. apply Happ; [exact Hno|exact Hfoot].
Qed.

End ScriptTheorems.

(** ** A datetime column written as YY/MM/DD and read back *)

Import Calendar.

(** The check, over every ending of a year, every month and every day
    number. *)
Lemma all_read_back :
  forallb (fun yy =>
    forallb (fun m =>
      forallb (fun d => reads_back yy m d) (zrange 1 31))
      (zrange 1 12))
    (zrange 0 100) = true.
Proof. vm_compute. reflexivity. Qed.

Lemma reads_back_holds yy m d :
  In yy (zrange 0 100) -> In m (zrange 1 12) -> In d (zrange 1 31) ->
  reads_back yy m d = true.
Proof.
  intros Hy Hm Hd.
  pose proof all_read_back as H.
  apply (proj1 (forallb_forall
                  (fun yy => forallb (fun m =>
                     forallb (fun d => reads_back yy m d) (zrange 1 31))
                     (zrange 1 12))
                  (zrange 0 100))) with (x := yy) in H; [|exact Hy].
  apply (proj1 (forallb_forall
                  (fun m => forallb (fun d => reads_back yy m d)
                                    (zrange 1 31))
                  (zrange 1 12))) with (x := m) in H; [|exact Hm].
  apply (proj1 (forallb_forall (fun d => reads_back yy m d) (zrange 1 31)))
    with (x := d) in H; [exact H|exact Hd].
Qed.

Lemma in_zrange lo n z :
  (lo <= z < lo + Z.of_nat n)%Z -> In z (zrange lo n).
Proof.
  intros H. unfold zrange. apply in_map_iff.
  exists (Z.to_nat (z - lo)). split; [lia|].
  apply in_seq. lia.
Qed.

Lemma same_timestamp_eq a b : same_timestamp a b = true -> a = b.
Proof.
  destruct a as [[y1 m1 d1]|], b as [[y2 m2 d2]|]; simpl;
    try discriminate; try reflexivity.
  unfold date_eqb; simpl. rewrite !andb_true_iff, !Z.eqb_eq.
  intros [[-> ->] ->]. reflexivity.
Qed.

Lemma strftime_year_ending t :
  strftime_yy_mm_dd t
  = strftime_yy_mm_dd (mkdate (year t mod 100) (month t) (day t)).
Proof.
  unfold strftime_yy_mm_dd. simpl. now rewrite Z.mod_mod by lia.
Qed.

Lemma two_digit_year_ending y :
  two_digit_year y = two_digit_year (y mod 100).
Proof. unfold two_digit_year. now rewrite Z.mod_mod by lia. Qed.

Lemma two_digit_year_window y :
  (1969 <= y <= 2068)%Z -> two_digit_year y = y.
Proof.
  intros H. unfold two_digit_year.
  pose proof (Z.div_mod y 100 ltac:(lia)) as Hdm.
  pose proof (Z.mod_pos_bound y 100 ltac:(lia)) as Hb.
  destruct (Z.leb_spec (y mod 100) 68); lia.
Qed.

Lemma make_timestamp_real t :
  real_date t -> (1678 <= year t <= 2261)%Z ->
  make_timestamp (year t) (month t) (day t) = Some t.
Proof.
  intros [[Hm1 Hm2] [Hd1 Hd2]] Hy. destruct t as [y m d]; simpl in *.
  unfold make_timestamp.
  replace ((1 <=? m) && (m <=? 12) && (1 <=? d)
           && (d <=? days_in_month y m))%Z with true.
  2:{ symmetry. rewrite !andb_true_iff, !Z.leb_le. lia. }
  replace (date_leb timestamp_min (mkdate y m d)) with true.
  2:{ symmetry. unfold date_leb, date_ltb, timestamp_min; cbn [year month day].
      destruct (Z.ltb_spec y 1677); [lia|].
      destruct (Z.eqb_spec y 1677); [lia|reflexivity]. }
  replace (date_leb (mkdate y m d) timestamp_max) with true.
  2:{ symmetry. unfold date_leb, date_ltb, timestamp_max; cbn [year month day].
      destruct (Z.ltb_spec 2262 y); [lia|].
      destruct (Z.eqb_spec 2262 y); [lia|reflexivity]. }
  reflexivity.
Qed.

(** X5.  A datetime column goes through [strftime('%y/%m/%d')] and back
    through [to_datetime] (l.132-137).  A date comes back with its month
    and its day in the year that the two-digit rule gives the last two
    digits of its year; so every date of the calendar from 1969 to 2068
    comes back as it was, NaT stays NaT, and a column of such dates is
    left unchanged. *)
Theorem datetime_column_round_trip :
  (forall t,
      (1 <= month t <= 12)%Z -> (1 <= day t <= 31)%Z ->
      strptime fmt_yy_mm_dd (strftime_yy_mm_dd t)
      = make_timestamp (two_digit_year (year t)) (month t) (day t))
  /\ (forall t,
        real_date t -> (1969 <= year t <= 2068)%Z ->
        strptime fmt_yy_mm_dd (strftime_yy_mm_dd t) = Some t)
  /\ (forall l,
        Forall (fun c => forall t, c = Some t ->
                  real_date t /\ (1969 <= year t <= 2068)%Z) l ->
        date_column (SDatetime l) = SDatetime l).
Proof.
  assert (Hgen : forall t,
             (1 <= month t <= 12)%Z -> (1 <= day t <= 31)%Z ->
             strptime fmt_yy_mm_dd (strftime_yy_mm_dd t)
             = make_timestamp (two_digit_year (year t)) (month t) (day t)).
  { intros t Hm Hd.
    rewrite strftime_year_ending, two_digit_year_ending.
    apply same_timestamp_eq.
    pose proof (Z.mod_pos_bound (year t) 100 ltac:(lia)) as Hb.
    apply (reads_back_holds (year t mod 100) (month t) (day t));
      apply in_zrange; lia. }
  assert (Hwin : forall t,
             real_date t -> (1969 <= year t <= 2068)%Z ->
             strptime fmt_yy_mm_dd (strftime_yy_mm_dd t) = Some t).
  { intros t Hreal Hy. pose proof Hreal as [Hm [Hd1 Hd2]].
    rewrite Hgen; [|lia|].
    - rewrite two_digit_year_window by exact Hy.
      apply make_timestamp_real; [exact Hreal|lia].
    - split; [lia|]. unfold days_in_month in Hd2.
      destruct (month t =? 2)%Z; [destruct (is_leap (year t)); lia|].
      destruct ((month t =? 4) || (month t =? 6) || (month t =? 9)
                || (month t =? 11))%Z; lia. }
  split; [exact Hgen|]. split; [exact Hwin|].
  intros l Hl. unfold date_column, date_texts, to_datetime_coerce.
  f_equal. rewrite map_map.
  induction Hl as [|c r Hc Hr IH]; simpl; [reflexivity|].
  rewrite IH. f_equal.
  destruct c as [t|]; simpl; [|reflexivity].
  destruct (Hc t eq_refl) as [Hreal Hy]. now apply Hwin.
Qed.

(** 1950-03-01 comes back as 2050-03-01; 2023-01-15 as itself. *)
Lemma datetime_column_round_trip_witness :
  date_column (SDatetime [Some (mkdate 1950 3 1); Some (mkdate 2023 1 15);
                          None])
  = SDatetime [Some (mkdate 2050 3 1); Some (mkdate 2023 1 15); None]
  /\ strptime fmt_yy_mm_dd (strftime_yy_mm_dd (mkdate 2023 1 15))
     = Some (mkdate 2023 1 15).
Proof.
  split; [reflexivity|].
  apply (proj1 (proj2 datetime_column_round_trip) (mkdate 2023 1 15)).
  - repeat split; vm_compute; discriminate.
  - split; vm_compute; discriminate.
Defined.

(** ** A separator that is not taken out *)

(** X6.  The percentages lose their sign "%" but not a thousands separator
    (l.120 has no [replace(',', '')], unlike l.116 and l.124): a cell of the
    column with a comma in it (and no NUL byte, at which C stops reading) is
    read as NaN, and makes the column a float64 one. *)
Theorem percentage_with_separator_is_null :
  (forall t, nul_free t -> In ","%char (list_ascii_of_string t) ->
             numeric_cell (percent_text t) = (NaN, None))
  /\ (forall s i t,
        nth_error (texts s) i = Some t ->
        nul_free t -> In ","%char (list_ascii_of_string t) ->
        exists cells,
          numeric_column percent_text s = SNum Float64 cells
          /\ nth_error cells i = Some NaN).
Proof.
  assert (Hkept : forall t, In ","%char (list_ascii_of_string t) ->
                    In ","%char (list_ascii_of_string (percent_text t))).
  { intros t Hin. unfold percent_text. apply replace_keeps.
    - simpl. intros [H|[H|[H|[]]]]; discriminate H.
    - apply replace_keeps; [|exact Hin].
      simpl. intros [H|[]]; discriminate H. }
  assert (Hnul : forall t, nul_free t -> nul_free (percent_text t)).
  { intros t Ht. unfold percent_text.
    apply replace_nul_free;
      [intros [H|[H|[H|[]]]]; discriminate H|].
    apply replace_nul_free; [intros []|exact Ht]. }
  assert (Hcell : forall t, nul_free t ->
                            In ","%char (list_ascii_of_string t) ->
                            numeric_cell (percent_text t) = (NaN, None)).
  { intros t Ht Hin.
    apply (numeric_cell_rejects ","%char);
      [reflexivity|now apply Hnul|now apply Hkept]. }
  split; [exact Hcell|].
  intros s i t Ht Hn Hin.
  destruct (numeric_column_cells percent_text s) as (cells & Hcol & _ & Hnth).
  assert (Hd : column_dtype
                 (map (fun t => numeric_cell (percent_text t)) (texts s))
               = Float64).
  { apply (column_dtype_float _ i (numeric_cell (percent_text t))).
    - now rewrite nth_error_map, Ht.
    - now rewrite (Hcell t Hn Hin). }
  exists cells. split.
  - now rewrite Hcol, Hd.
  - rewrite (Hnth i t Ht), Hd, (Hcell t Hn Hin). reflexivity.
Qed.

(** "1,234.5%" is lost, where the price "1,234.5" is read. *)
Lemma percentage_with_separator_is_null_witness :
  numeric_cell (percent_text "1,234.5%") = (NaN, None)
  /\ numeric_cell (price_text "1,234.5") = (Fin 12345 1, None).
Proof.
  split; [|vm_compute; reflexivity].
  apply (proj1 percentage_with_separator_is_null "1,234.5%").
  - vm_compute. intros H.
    repeat (destruct H as [H|H]; [discriminate H|]). exact H.
  - simpl. tauto.
Defined.

(** ** Binary64: results that stay in range *)

Section Binary64Facts.

Open Scope Z_scope.

Lemma digits2_size p : digits2_pos p = Pos.size p.
Proof. induction p; simpl; congruence. Qed.

Lemma digits2_log2 p : Z.pos (digits2_pos p) = Z.log2 (Z.pos p) + 1.
Proof.
  rewrite digits2_size. destruct p; simpl; rewrite ?Pos2Z.inj_succ; lia.
Qed.

Lemma Zdigits2_nonneg m : 0 <= Zdigits2 m.
Proof. destruct m; simpl; lia. Qed.

(** A number below [2^k] has [k] digits at most. *)
Lemma Zdigits2_le m k : 0 <= m -> 0 <= k -> m < 2 ^ k -> Zdigits2 m <= k.
Proof.
  intros Hm Hk Hlt. destruct m as [|p|p]; cbn [Zdigits2]; [lia| |lia].
  rewrite digits2_log2.
  assert (Z.log2 (Z.pos p) < k) by (apply Z.log2_lt_pow2; lia). lia.
Qed.

Lemma Zdigits2_above m : 0 <= m -> m < 2 ^ Zdigits2 m.
Proof.
  intros Hm. destruct m as [|p|p]; cbn [Zdigits2]; [lia| |lia].
  rewrite digits2_log2.
  pose proof (Z.log2_spec (Z.pos p) ltac:(lia)) as [_ H].
  replace (Z.log2 (Z.pos p) + 1) with (Z.succ (Z.log2 (Z.pos p))) by lia.
  exact H.
Qed.

Lemma Zdigits2_below p : 2 ^ (Z.pos (digits2_pos p) - 1) <= Z.pos p.
Proof.
  rewrite digits2_log2.
  pose proof (Z.log2_spec (Z.pos p) ltac:(lia)) as [H _].
  replace (Z.log2 (Z.pos p) + 1 - 1) with (Z.log2 (Z.pos p)) by lia.
  exact H.
Qed.

Lemma shr_1_half mrs : 0 <= shr_m mrs -> shr_m (shr_1 mrs) = shr_m mrs / 2.
Proof.
  destruct mrs as [m r s]. simpl. intros Hm.
  rewrite <- Z.div2_div.
  destruct m as [|[p|p|]|p]; try reflexivity; lia.
Qed.

Lemma shr_1_nonneg mrs : 0 <= shr_m mrs -> 0 <= shr_m (shr_1 mrs).
Proof.
  intros H. rewrite shr_1_half by exact H. apply Z.div_pos; lia.
Qed.

Lemma iter_shr_1 p mrs :
  0 <= shr_m mrs ->
  shr_m (iter_pos shr_1 p mrs) = shr_m mrs / 2 ^ Z.pos p.
Proof.
  revert mrs. induction p as [p IH|p IH|]; intros mrs Hm; simpl iter_pos.
  - assert (H1 : 0 <= shr_m (shr_1 mrs)) by now apply shr_1_nonneg.
    assert (H2 : 0 <= shr_m (iter_pos shr_1 p (shr_1 mrs))).
    { rewrite IH by exact H1. apply Z.div_pos; lia. }
    rewrite IH by exact H2. rewrite IH by exact H1.
    rewrite shr_1_half by exact Hm.
    rewrite !Z.div_div by lia. f_equal.
    replace (Z.pos p~1) with (Z.pos p + Z.pos p + 1) by lia.
    rewrite !Z.pow_add_r by lia. change (2 ^ 1) with 2. ring.
  - assert (H2 : 0 <= shr_m (iter_pos shr_1 p mrs)).
    { rewrite IH by exact Hm. apply Z.div_pos; lia. }
    rewrite IH by exact H2. rewrite IH by exact Hm.
    rewrite !Z.div_div by lia. f_equal.
    replace (Z.pos p~0) with (Z.pos p + Z.pos p) by lia.
    rewrite !Z.pow_add_r by lia. ring.
  - rewrite shr_1_half by exact Hm. reflexivity.
Qed.

Lemma shr_record_m m l : shr_m (shr_record_of_loc m l) = m.
Proof. destruct l as [|[]]; reflexivity. Qed.

(** A shift to the exponent the format asks for keeps a bounded number
    bounded. *)
Lemma shr_fexp_bound m e l k :
  0 <= m -> Zdigits2 m + e <= k -> e <= k -> -1074 <= k ->
  let '(mrs, e') := shr_fexp 53 1024 m e l in
  0 <= shr_m mrs /\ Zdigits2 (shr_m mrs) + e' <= k /\ e' <= k.
Proof.
  intros Hm Hd He Hk. unfold shr_fexp, shr, fexp, emin.
  set (n := Z.max (Zdigits2 m + e - 53) (3 - 1024 - 53) - e).
  destruct n as [|p|p] eqn:Hn; rewrite ?shr_record_m; try (repeat split; lia).
  rewrite iter_shr_1 by (rewrite shr_record_m; exact Hm).
  rewrite shr_record_m.
  assert (Hq : 0 <= m / 2 ^ Z.pos p) by (apply Z.div_pos; lia).
  split; [exact Hq|]. split; [|lia].
  pose proof (Zdigits2_nonneg m) as Hd0.
  destruct (Z_lt_le_dec (Zdigits2 m) (Z.pos p)) as [Hlt|Hge].
  - assert (m / 2 ^ Z.pos p = 0) as ->.
    { apply Z.div_small. split; [exact Hm|].
      apply Z.lt_le_trans with (2 ^ Zdigits2 m);
        [apply Zdigits2_above; exact Hm|].
      apply Z.pow_le_mono_r; lia. }
    simpl. lia.
  - assert (Zdigits2 (m / 2 ^ Z.pos p) <= Zdigits2 m - Z.pos p); [|lia].
    apply Zdigits2_le; [exact Hq|lia|].
    apply Z.div_lt_upper_bound; [lia|].
    rewrite <- Z.pow_add_r by lia.
    replace (Z.pos p + (Zdigits2 m - Z.pos p)) with (Zdigits2 m) by lia.
    now apply Zdigits2_above.
Qed.

Lemma round_nearest_even_bound m l :
  0 <= m -> m <= round_nearest_even m l <= m + 1.
Proof.
  intros Hm. destruct l as [|[]]; simpl; try lia.
  destruct (Z.even m); lia.
Qed.

(** Rounding a number below [2^k] gives zero or a finite double below
    [2^(k+1)]: never an infinity. *)
Lemma binary_round_aux_tame sx mx ex lx k :
  0 <= mx -> Zdigits2 mx + ex <= k -> ex <= k -> -1074 <= k -> k <= 970 ->
  tame (k + 1) (binary_round_aux 53 1024 sx mx ex lx).
Proof.
  intros Hm Hd He Hlo Hhi. unfold binary_round_aux.
  pose proof (shr_fexp_bound mx ex lx k Hm Hd He Hlo) as H1.
  destruct (shr_fexp 53 1024 mx ex lx) as [mrs' e'].
  destruct H1 as (Hm1 & Hd1 & He1).
  pose proof (round_nearest_even_bound (shr_m mrs')
                (loc_of_shr_record mrs') Hm1) as Hr.
  set (m2 := round_nearest_even (shr_m mrs') (loc_of_shr_record mrs')) in *.
  assert (Hd2 : Zdigits2 m2 + e' <= k + 1).
  { assert (Zdigits2 m2 <= Zdigits2 (shr_m mrs') + 1); [|lia].
    pose proof (Zdigits2_nonneg (shr_m mrs')).
    apply Zdigits2_le; [lia|lia|].
    pose proof (Zdigits2_above (shr_m mrs') Hm1).
    rewrite Z.pow_add_r by lia. lia. }
  pose proof (shr_fexp_bound m2 e' loc_Exact (k + 1) ltac:(lia) Hd2 ltac:(lia)
                ltac:(lia)) as H2.
  destruct (shr_fexp 53 1024 m2 e' loc_Exact) as [mrs'' e''].
  destruct H2 as (Hm3 & Hd3 & He3).
  destruct (shr_m mrs'') as [|p|p] eqn:E; [exact I| |lia].
  cbn [Zdigits2] in Hd3. pose proof (Pos2Z.is_pos (digits2_pos p)).
  destruct (Z.leb_spec e'' (1024 - 53)) as [_|Hbad]; [|lia].
  cbn [tame]. lia.
Qed.

Lemma tame_mono k k' x : k <= k' -> tame k x -> tame k' x.
Proof. destruct x; simpl; try tauto; lia. Qed.

Lemma mul_tame k1 k2 x y :
  tame k1 x -> tame k2 y -> -1074 <= k1 + k2 -> k1 + k2 <= 970 ->
  tame (k1 + k2 + 1) (Binary64.mul x y).
Proof.
  destruct x as [sx|sx| |sx mx ex], y as [sy|sy| |sy my ey];
    cbn [tame]; try tauto; intros Hx Hy Hlo Hhi.
  unfold Binary64.mul, SFmul.
  pose proof (Zdigits2_above (Z.pos mx) ltac:(lia)) as Hmx.
  pose proof (Zdigits2_above (Z.pos my) ltac:(lia)) as Hmy.
  cbn [Zdigits2] in Hmx, Hmy.
  pose proof (Pos2Z.is_pos (digits2_pos mx)).
  pose proof (Pos2Z.is_pos (digits2_pos my)).
  apply binary_round_aux_tame; try lia.
  assert (Zdigits2 (Z.pos (mx * my))
          <= Z.pos (digits2_pos mx) + Z.pos (digits2_pos my)); [|lia].
  apply Zdigits2_le; [lia|lia|].
  rewrite Z.pow_add_r by lia. rewrite Pos2Z.inj_mul. nia.
Qed.

Lemma iter_xO m d : Z.pos (Pos.iter xO m d) = Z.pos m * 2 ^ Z.pos d.
Proof.
  induction d as [|d IH] using Pos.peano_ind.
  - simpl. lia.
  - rewrite Pos.iter_succ, Pos2Z.inj_xO, IH, Pos2Z.inj_succ.
    rewrite Z.pow_succ_r by lia. ring.
Qed.

(** Aligning a mantissa on an exponent keeps the number. *)
Lemma shl_align_value m e t :
  let '(m', e') := shl_align m e t in
  e' <= e /\ Z.pos m' = Z.pos m * 2 ^ (e - e').
Proof.
  unfold shl_align. destruct (t - e) as [|p|p] eqn:E.
  - rewrite Z.sub_diag. simpl. lia.
  - rewrite Z.sub_diag. simpl. lia.
  - split; [lia|]. rewrite iter_xO. f_equal. f_equal. lia.
Qed.

Lemma Zdigits2_shift m s :
  0 <= s -> Zdigits2 (Z.pos m * 2 ^ s) = Zdigits2 (Z.pos m) + s.
Proof.
  intros Hs.
  assert (Hp : 0 < Z.pos m * 2 ^ s) by (apply Z.mul_pos_pos; lia).
  destruct (Z.pos m * 2 ^ s) as [|p|p] eqn:E; try lia.
  cbn [Zdigits2]. rewrite !digits2_log2, <- E.
  rewrite Z.log2_mul_pow2 by lia. lia.
Qed.

Lemma binary_round_tame s m e k :
  Z.pos (digits2_pos m) + e <= k -> -1074 <= k -> k <= 970 ->
  tame (k + 1) (binary_round 53 1024 s m e).
Proof.
  intros Hd Hlo Hhi. unfold binary_round.
  pose proof (shl_align_value m e
                (fexp 53 1024 (Z.pos (digits2_pos m) + e))) as H.
  destruct (shl_align m e (fexp 53 1024 (Z.pos (digits2_pos m) + e)))
    as [mz ez].
  destruct H as [He Hm].
  pose proof (Pos2Z.is_pos (digits2_pos m)).
  apply binary_round_aux_tame; try lia.
  rewrite Hm, Zdigits2_shift by lia. cbn [Zdigits2]. lia.
Qed.

Lemma binary_normalize_tame z e k :
  Zdigits2 z + e <= k -> -1074 <= k -> k <= 970 ->
  tame (k + 1) (binary_normalize 53 1024 z e false).
Proof.
  intros Hd Hlo Hhi. destruct z as [|p|p]; cbn [binary_normalize Zdigits2] in *;
    [exact I| |]; now apply binary_round_tame.
Qed.

Lemma Zdigits2_abs z : Zdigits2 z = Zdigits2 (Z.abs z).
Proof. destruct z; reflexivity. Qed.

Lemma add_tame k x y :
  tame k x -> tame k y -> -1074 <= k -> k <= 968 ->
  tame (k + 2) (Binary64.add x y).
Proof.
  destruct x as [sx|sx| |sx mx ex], y as [sy|sy| |sy my ey];
    cbn [tame]; try tauto; intros Hx Hy Hlo Hhi.
  - unfold Binary64.add, SFadd. destruct sx, sy; exact I.
  - unfold Binary64.add, SFadd. cbn [tame]. lia.
  - unfold Binary64.add, SFadd. cbn [tame]. lia.
  - unfold Binary64.add, SFadd.
    set (ez := Z.min ex ey).
    pose proof (shl_align_value mx ex ez) as H1.
    pose proof (shl_align_value my ey ez) as H2.
    assert (E1 : snd (shl_align mx ex ez) = ez).
    { unfold shl_align.
      destruct (ez - ex) as [|p|p] eqn:E; simpl; unfold ez in *; lia. }
    assert (E2 : snd (shl_align my ey ez) = ez).
    { unfold shl_align.
      destruct (ez - ey) as [|p|p] eqn:E; simpl; unfold ez in *; lia. }
    destruct (shl_align mx ex ez) as [mx' ex'].
    destruct (shl_align my ey ez) as [my' ey'].
    cbn [fst snd] in *. subst ex' ey'.
    destruct H1 as [_ H1]. destruct H2 as [_ H2].
    pose proof (Zdigits2_above (Z.pos mx) ltac:(lia)) as Hmx.
    pose proof (Zdigits2_above (Z.pos my) ltac:(lia)) as Hmy.
    cbn [Zdigits2] in Hmx, Hmy.
    pose proof (Pos2Z.is_pos (digits2_pos mx)).
    pose proof (Pos2Z.is_pos (digits2_pos my)).
    assert (Hez1 : ez <= ex) by (unfold ez; lia).
    assert (Hez2 : ez <= ey) by (unfold ez; lia).
    assert (Hb1 : Z.pos mx' < 2 ^ (k - ez)).
    { rewrite H1.
      apply Z.lt_le_trans
        with (2 ^ Z.pos (digits2_pos mx) * 2 ^ (ex - ez)).
      - apply Z.mul_lt_mono_pos_r; [apply Z.pow_pos_nonneg; lia|exact Hmx].
      - rewrite <- Z.pow_add_r by lia. apply Z.pow_le_mono_r; lia. }
    assert (Hb2 : Z.pos my' < 2 ^ (k - ez)).
    { rewrite H2.
      apply Z.lt_le_trans
        with (2 ^ Z.pos (digits2_pos my) * 2 ^ (ey - ez)).
      - apply Z.mul_lt_mono_pos_r; [apply Z.pow_pos_nonneg; lia|exact Hmy].
      - rewrite <- Z.pow_add_r by lia. apply Z.pow_le_mono_r; lia. }
    replace (k + 2) with (k + 1 + 1) by lia.
    apply binary_normalize_tame; try lia.
    assert (Zdigits2 (cond_Zopp sx (Z.pos mx') + cond_Zopp sy (Z.pos my'))
            <= k - ez + 1); [|lia].
    rewrite Zdigits2_abs.
    apply Zdigits2_le; [lia|lia|].
    rewrite Z.pow_add_r by lia. change (2 ^ 1) with 2.
    unfold cond_Zopp. destruct sx, sy; lia.
Qed.

Lemma opp_tame k x : tame k x -> tame k (Binary64.opp x).
Proof. destruct x; simpl; tauto. Qed.

(** Division by a finite double of magnitude [2^l]. *)
Lemma div_tame k x sy my ey :
  tame k x ->
  -1074 <= k - (Z.pos (digits2_pos my) + ey) + 1 ->
  k - (Z.pos (digits2_pos my) + ey) + 1 <= 970 ->
  tame (k - (Z.pos (digits2_pos my) + ey) + 2)
       (Binary64.div x (S754_finite sy my ey)).
Proof.
  destruct x as [sx|sx| |sx mx ex]; cbn [tame]; try tauto;
    intros Hx Hlo Hhi.
  unfold Binary64.div, SFdiv, SFdiv_core_binary.
  cbn [Zdigits2].
  set (d1 := Z.pos (digits2_pos mx)) in *.
  set (d2 := Z.pos (digits2_pos my)) in *.
  set (e' := Z.min (fexp 53 1024 (d1 + ex - (d2 + ey))) (ex - ey)).
  set (s := ex - ey - e').
  set (m' := match s with
             | 0 => Z.pos mx
             | Z.pos _ => Z.shiftl (Z.pos mx) s
             | Z.neg _ => 0
             end).
  assert (Hs : 0 <= s) by (unfold s, e'; lia).
  assert (Hm' : m' = Z.pos mx * 2 ^ s).
  { unfold m'. destruct s as [|p|p] eqn:E; [simpl; lia| |lia].
    rewrite Z.shiftl_mul_pow2 by lia. reflexivity. }
  clearbody m'.
  pose proof (Z.div_eucl_eq m' (Z.pos my) ltac:(lia)) as Heq.
  pose proof (Z.mod_pos_bound m' (Z.pos my) ltac:(lia)) as Hmod.
  unfold Z.modulo in Hmod.
  assert (Hq : fst (Z.div_eucl m' (Z.pos my)) = m' / Z.pos my) by reflexivity.
  destruct (Z.div_eucl m' (Z.pos my)) as [q r]. cbn [fst snd] in *.
  pose proof (Zdigits2_above (Z.pos mx) ltac:(lia)) as Hmx.
  pose proof (Zdigits2_below my) as Hmy.
  cbn [Zdigits2] in Hmx. fold d1 in Hmx. fold d2 in Hmy.
  assert (Hd1 : 0 < d1) by (unfold d1; lia).
  assert (Hd2 : 0 < d2) by (unfold d2; lia).
  assert (Hfexp : e' <= k - (d2 + ey) + 1).
  { unfold e', fexp, emin. lia. }
  assert (Hq0 : 0 <= q).
  { rewrite Hq. apply Z.div_pos; [|lia]. rewrite Hm'.
    apply Z.mul_nonneg_nonneg; [lia|apply Z.pow_nonneg; lia]. }
  assert (Hmlt : m' < 2 ^ (d1 + s)).
  { rewrite Hm', Z.pow_add_r by lia.
    apply Z.mul_lt_mono_pos_r; [apply Z.pow_pos_nonneg; lia|exact Hmx]. }
  replace (k - (d2 + ey) + 2) with (k - (d2 + ey) + 1 + 1) by lia.
  apply binary_round_aux_tame; try lia.
  destruct (Z_lt_le_dec (d1 + s - d2 + 1) 0) as [Hneg|Hpos].
  - assert (q = 0) as ->.
    { rewrite Hq. apply Z.div_small. split.
      - rewrite Hm'. apply Z.mul_nonneg_nonneg; [lia|apply Z.pow_nonneg; lia].
      - apply Z.lt_le_trans with (2 ^ (d1 + s)); [exact Hmlt|].
        apply Z.le_trans with (2 ^ (d2 - 1)); [|exact Hmy].
        apply Z.pow_le_mono_r; lia. }
    cbn [Zdigits2]. lia.
  - assert (Zdigits2 q <= d1 + s - d2 + 1); [|unfold s in *; lia].
    apply Zdigits2_le; [exact Hq0|exact Hpos|].
    rewrite Hq. apply Z.div_lt_upper_bound; [lia|].
    apply Z.lt_le_trans with (2 ^ (d1 + s)); [exact Hmlt|].
    apply Z.le_trans with (2 ^ (d2 - 1) * 2 ^ (d1 + s - d2 + 1)).
    + rewrite <- Z.pow_add_r by lia. apply Z.pow_le_mono_r; lia.
    + apply Z.mul_le_mono_nonneg_r; [apply Z.pow_nonneg; lia|exact Hmy].
Qed.

End Binary64Facts.

(** ** Whole numbers written and read back *)

Lemma scan_written_digits d acc n :
  Text.scan_digits acc n (NilEmpty.string_of_uint d)
  = (digits_value acc d, n + Decimal.nb_digits d, EmptyString).
Proof.
  revert acc n.
  induction d; intros acc n; simpl;
    rewrite ?IHd, ?Nat.add_0_r, ?Nat.add_succ_r; reflexivity.
Qed.

Lemma digits_value_acc d acc :
  Z.pos (Pos.of_uint_acc d acc) = digits_value (Z.pos acc) d.
Proof.
  revert acc.
  induction d; intros acc; cbn [Pos.of_uint_acc digits_value];
    [reflexivity|..]; rewrite IHd; f_equal; lia.
Qed.

Lemma digits_value_of_uint d : Z.of_N (Pos.of_uint d) = digits_value 0 d.
Proof.
  induction d; cbn [Pos.of_uint digits_value Z.of_N];
    try reflexivity; try exact IHd; apply digits_value_acc.
Qed.

Lemma digits_value_written p : digits_value 0 (Pos.to_uint p) = Z.pos p.
Proof.
  rewrite <- digits_value_of_uint, DecimalPos.Unsigned.of_to. reflexivity.
Qed.

Lemma written_digits_all_digits d : all_digits (NilEmpty.string_of_uint d).
Proof. induction d; simpl; auto. Qed.

Lemma written_length d :
  String.length (NilEmpty.string_of_uint d) = Decimal.nb_digits d.
Proof. induction d; simpl; congruence. Qed.

Lemma nb_digits_positive p : Decimal.nb_digits (Pos.to_uint p) <> 0.
Proof.
  pose proof (DecimalPos.Unsigned.to_uint_nonnil p) as H.
  destruct (Pos.to_uint p); simpl; congruence.
Qed.

(** The digits of a number weigh at least what stands before them. *)
Lemma digits_value_lower d acc :
  (0 <= acc ->
   acc * 10 ^ Z.of_nat (Decimal.nb_digits d) <= digits_value acc d)%Z.
Proof.
  revert acc.
  induction d; intros acc Hacc; cbn [Decimal.nb_digits digits_value];
    [simpl; lia|..];
    (eapply Z.le_trans; [|apply IHd; lia]);
    rewrite Nat2Z.inj_succ, Z.pow_succ_r by lia;
    pose proof (Z.pow_nonneg 10 (Z.of_nat (Decimal.nb_digits d))
                  ltac:(lia));
    nia.
Qed.

(** A positive number is written without a leading zero. *)
Lemma to_uint_head p :
  match Pos.to_uint p with
  | Decimal.Nil | Decimal.D0 _ => False
  | _ => True
  end.
Proof.
  pose proof (DecimalPos.Unsigned.to_of (Pos.to_uint p)) as H.
  rewrite DecimalPos.Unsigned.of_to in H. simpl in H.
  pose proof (DecimalPos.Unsigned.to_uint_nonzero p) as Hz.
  pose proof (DecimalPos.Unsigned.to_uint_nonnil p) as Hn.
  destruct (Pos.to_uint p) as [|u| | | | | | | | |]; try exact I.
  - now elim Hn.
  - rewrite DecimalFacts.unorm_D0 in H.
    assert (Hu : u <> Decimal.Nil) by (intros ->; now elim Hz).
    pose proof (DecimalFacts.nb_digits_unorm u Hu) as Hle.
    rewrite <- H in Hle. simpl in Hle. lia.
Qed.

Lemma nb_digits_bound p n :
  (Z.pos p < 10 ^ Z.of_nat n)%Z -> Decimal.nb_digits (Pos.to_uint p) <= n.
Proof.
  intros Hlt. pose proof (to_uint_head p) as Hh.
  pose proof (digits_value_written p) as Hv.
  assert (Hstep : forall k u,
             (1 <= k)%Z ->
             (digits_value k u = Z.pos p)%Z -> Decimal.nb_digits u < n).
  { intros k u Hk Hu.
    pose proof (digits_value_lower u k ltac:(lia)) as Hlow.
    rewrite Hu in Hlow.
    pose proof (Z.pow_pos_nonneg 10 (Z.of_nat (Decimal.nb_digits u))
                  ltac:(lia) ltac:(lia)).
    assert (10 ^ Z.of_nat (Decimal.nb_digits u) < 10 ^ Z.of_nat n)%Z by nia.
    apply Z.pow_lt_mono_r_iff in H0; lia. }
  destruct (Pos.to_uint p) as [|u|u|u|u|u|u|u|u|u|u];
    [now elim Hh|now elim Hh|..];
    cbn [digits_value Decimal.nb_digits] in *;
    (eapply Hstep; [|exact Hv]); lia.
Qed.

(** The text of a positive number: its digits, the first of them there. *)
Lemma written_positive p :
  exists c r,
    Text.string_of_Z (Z.pos p) = String c r
    /\ Text.is_digit c = true /\ all_digits r
    /\ String.length (String c r) = Decimal.nb_digits (Pos.to_uint p)
    /\ Text.scan_digits 0 0 (String c r)
       = (Z.pos p, Decimal.nb_digits (Pos.to_uint p), EmptyString).
Proof.
  unfold Text.string_of_Z. simpl.
  pose proof (DecimalPos.Unsigned.to_uint_nonnil p) as Hnil.
  pose proof (written_digits_all_digits (Pos.to_uint p)) as Hall.
  pose proof (written_length (Pos.to_uint p)) as Hlen.
  pose proof (scan_written_digits (Pos.to_uint p) 0 0) as Hscan.
  rewrite digits_value_written in Hscan. simpl in Hscan.
  unfold NilZero.string_of_uint.
  destruct (Pos.to_uint p) eqn:E; [now elim Hnil|..];
    simpl in Hall; destruct Hall as [Hc Hr];
    eexists; eexists; (split; [reflexivity|]);
    (split; [exact Hc|]); (split; [exact Hr|]);
    (split; [exact Hlen|]); exact Hscan.
Qed.

Lemma digit_is_no_space c : Text.is_digit c = true -> Text.is_space c = false.
Proof.
  unfold Text.is_digit, Text.is_space. intros H.
  apply andb_true_iff in H. destruct H as [H1 H2].
  apply Nat.leb_le in H1. apply Nat.leb_le in H2.
  destruct (Nat.eqb_spec (nat_of_ascii c) 32); [lia|].
  destruct (Nat.leb_spec 9 (nat_of_ascii c)); [|reflexivity].
  destruct (Nat.leb_spec (nat_of_ascii c) 13); [lia|reflexivity].
Qed.

Lemma digit_is_no_sign c r :
  Text.is_digit c = true -> Text.scan_sign (String c r) = (false, String c r).
Proof.
  intros H. unfold Text.scan_sign.
  destruct (Ascii.eqb_spec c "-") as [->|]; [discriminate H|].
  destruct (Ascii.eqb_spec c "+") as [->|]; [discriminate H|].
  destruct c as [[] [] [] [] [] [] [] []]; try reflexivity; congruence.
Qed.

Lemma sign_then_digits c r neg :
  Text.is_digit c = true ->
  Text.scan_sign
    (Text.skip_spaces (if neg : bool then String "-" (String c r)
                       else String c r))
  = (neg, String c r).
Proof.
  intros Hc. destruct neg.
  - reflexivity.
  - cbn [Text.skip_spaces]. rewrite (digit_is_no_space c Hc).
    apply digit_is_no_sign. exact Hc.
Qed.

Section ReadingDigits.

Open Scope Z_scope.

Lemma tame_finite k x : tame k x -> Binary64.is_infinite x = false.
Proof. destruct x; simpl; tauto. Qed.

Lemma digit_tame c :
  Text.is_digit c = true -> tame 4 (Binary64.of_Z (Text.digit_val c)).
Proof.
  destruct c as [[] [] [] [] [] [] [] []]; intros H; try discriminate H;
    vm_compute; try exact I; discriminate.
Qed.

(** One more digit taken in. *)
Lemma push_tame k number c :
  Text.is_digit c = true -> tame k number -> 0 <= k -> k <= 900 ->
  tame (k + 7) (push number c).
Proof.
  intros Hc Hn Hlo Hhi. unfold push.
  replace (k + 7) with (k + 4 + 1 + 2) by lia.
  apply add_tame; try lia.
  - apply mul_tame; try lia; [exact Hn|].
    vm_compute. discriminate.
  - apply tame_mono with 4; [lia|]. now apply digit_tame.
Qed.

(** The integer part of a text of digits: all of it is read, the first 17
    digits into the double, which stays in range. *)
Lemma scan_whole_digits s :
  all_digits s ->
  forall number nd ex,
    (nd <= 17)%nat -> tame (7 * Z.of_nat nd) number ->
    exists number',
      scan_whole number nd ex s
      = (number', Nat.min (nd + String.length s) 17,
         ex + Z.of_nat (nd + String.length s
                        - Nat.min (nd + String.length s) 17),
         EmptyString)
      /\ tame (7 * Z.of_nat (Nat.min (nd + String.length s) 17)) number'.
Proof.
  induction s as [|c r IH]; intros Hall number nd ex Hnd Ht.
  - exists number. cbn [scan_whole String.length].
    rewrite Nat.add_0_r, Nat.min_l by exact Hnd.
    rewrite Nat.sub_diag, Z.add_0_r. split; [reflexivity|exact Ht].
  - destruct Hall as [Hc Hr]. cbn [scan_whole String.length].
    rewrite Hc. unfold max_digits.
    destruct (Nat.ltb_spec nd 17) as [Hlt|Hge].
    + destruct (IH Hr (push number c) (S nd) ex ltac:(lia)) as (n' & E & Ht').
      { replace (7 * Z.of_nat (S nd)) with (7 * Z.of_nat nd + 7) by lia.
        apply push_tame; try assumption; lia. }
      exists n'. rewrite E.
      replace (S nd + String.length r)%nat
        with (nd + S (String.length r))%nat in * by lia.
      split; [reflexivity|exact Ht'].
    + assert (nd = 17%nat) by lia. subst nd.
      destruct (IH Hr number 17%nat (ex + 1) ltac:(lia) Ht) as (n' & E & Ht').
      exists n'. rewrite E.
      rewrite !Nat.min_r in * by lia.
      split; [|exact Ht']. f_equal. f_equal. lia.
Qed.

(** With three digits at most beyond the 17th, the scaled double is still
    in range. *)
Lemma scale_finite k number ex :
  tame k number -> 0 <= k -> k <= 900 -> 0 <= ex <= 3 ->
  Binary64.is_infinite (scale number ex) = false.
Proof.
  intros Ht Hlo Hhi Hex. unfold scale.
  assert (Hcases : ex = 0 \/ ex = 1 \/ ex = 2 \/ ex = 3) by lia.
  destruct Hcases as [-> | [-> | [-> | ->]]]; cbn [Z.ltb Z.compare Z.opp].
  - change (power_of_ten 0)
      with (S754_finite false 4503599627370496 (-52)).
    eapply tame_finite.
    apply (div_tame k number false 4503599627370496 (-52) Ht);
      cbn [digits2_pos Pos.succ]; lia.
  - eapply tame_finite. apply (mul_tame k 4); try lia; [exact Ht|].
    vm_compute. discriminate.
  - eapply tame_finite. apply (mul_tame k 7); try lia; [exact Ht|].
    vm_compute. discriminate.
  - eapply tame_finite. apply (mul_tame k 10); try lia; [exact Ht|].
    vm_compute. discriminate.
Qed.

End ReadingDigits.

(** A text of 20 digits at most, with or without a sign, is a number for
    [to_double], and a whole one. *)
Lemma to_double_whole c r neg :
  Text.is_digit c = true -> all_digits r ->
  String.length (String c r) <= 20 ->
  exists x,
    to_double (if neg : bool then String "-" (String c r) else String c r)
    = Some (x, true).
Proof.
  intros Hc Hr Hlen. unfold to_double.
  rewrite (sign_then_digits c r neg Hc).
  destruct (scan_whole_digits (String c r) (conj Hc Hr) Binary64.zero 0 0%Z
              ltac:(lia) I) as (number & -> & Ht).
  cbn [Nat.add] in *.
  set (nd := Nat.min (String.length (String c r)) 17) in *.
  assert (Hnd : 1 <= nd <= 17) by (unfold nd; simpl in *; lia).
  destruct (Nat.eqb_spec nd 0) as [E|_]; [lia|].
  set (ex := (0 + Z.of_nat (String.length (String c r) - nd))%Z).
  assert (Hex : (0 <= ex <= 3)%Z) by (unfold ex, nd; simpl in *; lia).
  destruct (Z.ltb_spec 308 ex) as [Hbad|_]; [lia|].
  assert (Ht' : tame (7 * Z.of_nat nd)
                     (if neg then Binary64.opp number else number)).
  { destruct neg; [apply opp_tame|]; exact Ht. }
  rewrite (scale_finite _ _ ex Ht') by lia.
  cbn [Text.skip_spaces negb andb]. eexists. reflexivity.
Qed.

Lemma py_int_written c r v n neg :
  Text.is_digit c = true ->
  Text.scan_digits 0 0 (String c r) = (v, n, EmptyString) -> n <> 0 ->
  py_int (if neg : bool then String "-" (String c r) else String c r)
  = Some (if neg then - v else v)%Z.
Proof.
  intros Hc Hscan Hn. unfold py_int.
  rewrite (sign_then_digits c r neg Hc), Hscan.
  destruct (Nat.eqb_spec n 0) as [E|_]; [now elim Hn|reflexivity].
Qed.

Lemma digits_nul_free s : all_digits s -> nul_free s.
Proof.
  unfold nul_free. induction s as [|a r IH]; intros H Hin; [exact Hin|].
  destruct H as [Ha Hr]. destruct Hin as [->|Hin]; [discriminate Ha|].
  now apply IH.
Qed.

Lemma signed_digits_nul_free c r neg :
  Text.is_digit c = true -> all_digits r ->
  nul_free (if neg : bool then String "-" (String c r) else String c r).
Proof.
  intros Hc Hr.
  pose proof (digits_nul_free (String c r) (conj Hc Hr)) as H.
  destruct neg; [|exact H].
  intros [E|Hin]; [discriminate E|now apply H].
Qed.

(** What [pd.to_numeric] reads in the text of a whole number of 64 bits:
    the whole number. *)
Lemma numeric_cell_written m :
  (int64_min <= m <= uint64_max)%Z ->
  exists x, numeric_cell (Text.string_of_Z m) = (x, Some m).
Proof.
  intros Hm. unfold numeric_cell. destruct m as [|p|p].
  - eexists. vm_compute. reflexivity.
  - destruct (written_positive p) as (c & r & -> & Hc & Hr & Hlen & Hscan).
    assert (Hb : Decimal.nb_digits (Pos.to_uint p) <= 20).
    { apply nb_digits_bound. unfold uint64_max in Hm. simpl. lia. }
    rewrite (c_string_nul_free _ (signed_digits_nul_free c r false Hc Hr)).
    destruct (to_double_whole c r false Hc Hr ltac:(lia)) as (x & ->).
    rewrite (py_int_written c r _ _ false Hc Hscan (nb_digits_positive p)).
    now exists (decimal_of x).
  - destruct (written_positive p) as (c & r & E & Hc & Hr & Hlen & Hscan).
    assert (Hneg : Text.string_of_Z (Z.neg p) = String "-" (String c r)).
    { unfold Text.string_of_Z in *. simpl in *. now rewrite E. }
    rewrite Hneg.
    assert (Hb : Decimal.nb_digits (Pos.to_uint p) <= 20).
    { apply nb_digits_bound. unfold int64_min in Hm. simpl. lia. }
    rewrite (c_string_nul_free _ (signed_digits_nul_free c r true Hc Hr)).
    destruct (to_double_whole c r true Hc Hr ltac:(lia)) as (x & ->).
    rewrite (py_int_written c r _ _ true Hc Hscan (nb_digits_positive p)).
    now exists (decimal_of x).
Qed.

Lemma replace_from_free pat repl s :
  free_of pat s -> Text.replace_from 0 pat repl s = s.
Proof.
  induction s as [|a r IH]; cbn [free_of Text.replace_from];
    [reflexivity|].
  intros [Hp Hr]. rewrite Hp. now rewrite IH.
Qed.

Lemma replace_free pat repl s :
  free_of pat s -> Text.replace pat repl s = s.
Proof.
  intros H. unfold Text.replace. destruct pat; [reflexivity|].
  now apply replace_from_free.
Qed.

(** A pattern that does not begin with a digit occurs in no run of
    digits. *)
Lemma digits_free_of a pat s :
  Text.is_digit a = false -> all_digits s -> free_of (String a pat) s.
Proof.
  intros Ha. induction s as [|c r IH]; cbn [all_digits free_of prefix];
    [trivial|].
  intros [Hc Hr]. split; [|now apply IH].
  destruct (ascii_dec a c) as [->|]; [congruence|reflexivity].
Qed.

Lemma written_free_of m pat :
  pat = "," \/ pat = "%" \/ pat = "株" \/ pat = "---" ->
  free_of pat (Text.string_of_Z m).
Proof.
  intros Hpat.
  assert (Hdig : forall s, all_digits s -> free_of pat s).
  { intros s Hs.
    destruct Hpat as [-> | [-> | [-> | ->]]]; now apply digits_free_of. }
  destruct m as [|p|p].
  - apply Hdig. simpl. auto.
  - destruct (written_positive p) as (c & r & -> & Hc & Hr & _).
    apply Hdig. simpl. auto.
  - destruct (written_positive p) as (c & r & E & Hc & Hr & _).
    assert (Hneg : Text.string_of_Z (Z.neg p) = String "-" (String c r)).
    { unfold Text.string_of_Z in *. simpl in *. now rewrite E. }
    rewrite Hneg. split; [|apply Hdig; simpl; auto].
    destruct Hpat as [-> | [-> | [-> | ->]]]; try reflexivity.
    cbn [prefix]. destruct (ascii_dec "-" "-"); [|reflexivity].
    destruct (ascii_dec "-" c) as [<-|]; [discriminate Hc|reflexivity].
Qed.

(** Cells that are all whole numbers of the int64 range make an int64
    column of these numbers. *)
Lemma int64_cells (cells : list (num * option Z)) l :
  Forall2 (fun c x => exists m, snd c = Some m /\ x = Fin m 0
                                /\ (int64_min <= m <= int64_max)%Z)
          cells l ->
  column_dtype cells = Int64 /\ map (stored Int64) cells = l.
Proof.
  intros H.
  assert (Hall : forallb (whole_in int64_min uint64_max) cells = true
                 /\ existsb (whole_in (int64_max + 1) uint64_max) cells
                    = false
                 /\ map (stored Int64) cells = l).
  { induction H as [|c x cells l (m & Hc & -> & Hlo & Hhi) _ IH];
      [repeat split|].
    destruct IH as (IH1 & IH2 & IH3). cbn [forallb existsb map].
    rewrite IH1, IH2, IH3. unfold whole_in, stored. rewrite Hc.
    unfold int64_min, int64_max, uint64_max in *.
    repeat split.
    - apply andb_true_iff. split; [|reflexivity].
      apply andb_true_iff. split; apply Z.leb_le; lia.
    - rewrite orb_false_r. apply andb_false_iff. left.
      apply Z.leb_gt. lia. }
  destruct Hall as (H1 & H2 & H3). split; [|exact H3].
  unfold column_dtype. now rewrite H1, H2.
Qed.

(** X13.  A column that [read_html] has already parsed as whole numbers
    comes out of the cleansing as it went in: written by [astype(str)], no
    replacement of l.116, l.120 or l.124 touches the text of a whole number,
    [to_numeric] reads the same whole number back when it has 64 bits at
    most, and a column of int64 numbers comes back as the same int64
    column. *)
Theorem whole_numbers_round_trip :
  (forall m,
      price_text (Text.string_of_Z m) = Text.string_of_Z m
      /\ percent_text (Text.string_of_Z m) = Text.string_of_Z m
      /\ volume_text (Text.string_of_Z m) = Text.string_of_Z m)
  /\ (forall m,
        (int64_min <= m <= uint64_max)%Z ->
        snd (numeric_cell (Text.string_of_Z m)) = Some m)
  /\ (forall l,
        Forall int64_cell l ->
        numeric_column price_text (SNum Int64 l) = SNum Int64 l
        /\ numeric_column percent_text (SNum Int64 l) = SNum Int64 l
        /\ numeric_column volume_text (SNum Int64 l) = SNum Int64 l).
Proof.
  assert (Htext : forall m,
            price_text (Text.string_of_Z m) = Text.string_of_Z m
            /\ percent_text (Text.string_of_Z m) = Text.string_of_Z m
            /\ volume_text (Text.string_of_Z m) = Text.string_of_Z m).
  { intros m. unfold price_text, percent_text, volume_text.
    rewrite !(replace_free "," "") by (apply written_free_of; auto).
    rewrite !(replace_free "%" "") by (apply written_free_of; auto).
    rewrite !(replace_free "株" "") by (apply written_free_of; auto 6).
    rewrite !(replace_free "---" "NaN") by (apply written_free_of; auto 6).
    auto. }
  split; [exact Htext|]. split.
  - intros m Hm. destruct (numeric_cell_written m Hm) as (x & ->).
    reflexivity.
  - intros l Hl.
    assert (Hcol : forall prepare,
              (forall m, prepare (Text.string_of_Z m) = Text.string_of_Z m) ->
              numeric_column prepare (SNum Int64 l) = SNum Int64 l).
    { intros prepare Hp. unfold numeric_column. cbn [texts].
      rewrite (map_map (num_repr Int64) (fun t => numeric_cell (prepare t))).
      destruct (int64_cells
                  (map (fun x => numeric_cell (prepare (num_repr Int64 x))) l)
                  l) as [Hd Hv]; [|now rewrite Hd, Hv].
      induction Hl as [|x r (m & -> & Hlo & Hhi) _ IH]; cbn [map];
        constructor; [|exact IH].
      cbn [num_repr]. rewrite Hp.
      destruct (numeric_cell_written m) as (f & ->).
      { unfold int64_max, uint64_max in *. lia. }
      exists m. repeat split; assumption. }
    repeat split; apply Hcol; intros m; apply (Htext m).
Qed.

Lemma whole_numbers_round_trip_witness :
  Forall int64_cell [Fin 1000000 0; Fin (-42) 0; Fin 0 0]
  /\ numeric_column volume_text (SNum Int64 [Fin 1000000 0; Fin (-42) 0;
                                             Fin 0 0])
     = SNum Int64 [Fin 1000000 0; Fin (-42) 0; Fin 0 0].
Proof.
  assert (H : Forall int64_cell [Fin 1000000 0; Fin (-42) 0; Fin 0 0]).
  { repeat constructor; eexists; (split; [reflexivity|]);
      split; vm_compute; discriminate. }
  split; [exact H|].
  apply (proj2 (proj2 whole_numbers_round_trip) _ H).
Defined.

(** ** The theorems at work *)

(** The three rows of [three_days] all come back. *)
Lemma rows_are_kept_witness :
  frame_ok three_days /\ 0 < nrows three_days
  /\ exists out,
       fst (get_stock_data (serving [three_days]) "0000" (ready [three_days]))
       = Ok (Some out)
       /\ nrows out = 3.
Proof.
  assert (Hok : frame_ok three_days) by repeat constructor.
  assert (Hrows : 0 < nrows three_days) by (simpl; lia).
  split; [exact Hok|]. split; [exact Hrows|].
  destruct (rows_are_kept (serving [three_days]) "0000" (ready [three_days])
              (snd (fetch_table (serving [three_days]) "0000"
                      (ready [three_days])))
              three_days eq_refl Hok eq_refl Hrows)
    as (out & Hout & Hn & _).
  exists out. split; assumption.
Defined.

(** A session whose scraper is up, on a page that serves [three_days]. *)
Lemma click_caches_and_charts_witness :
  exists s',
    script (serving [three_days]) true
           (@mkapp (serving [three_days]) (Value (Some 0)) Null [] [] [] 0)
    = (Ok Finished, s')
    /\ data s'
       = Value (returned_frame
                  (fst (get_stock_data (serving [three_days]) "0000"
                          (ready [three_days])))).
Proof.
  assert (H : get_stock_data (serving [three_days]) "0000"
                (@mkstate (serving [three_days]) (Some 0)
                   (loader_log (@mkapp (serving [three_days])
                                  (Value (Some 0)) Null [] [] [] 0)) None)
              = (Ok (Some (returned_frame
                             (fst (get_stock_data (serving [three_days])
                                     "0000" (ready [three_days]))))),
                 snd (get_stock_data (serving [three_days]) "0000"
                                     (ready [three_days]))))
    by (vm_compute; reflexivity).
  destruct (click_caches_and_charts (serving [three_days]) (Some 0)
              (@mkapp (serving [three_days]) (Value (Some 0)) Null [] [] [] 0)
              _ _ eq_refl H)
    as (dates & indexer & ds & k & so & sh & sl & sc &
        _ & _ & _ & _ & _ & _ & _ & _ & Hrun).
  eexists. split; [exact Hrun|reflexivity].
Defined.

(** The page serves a table without rows: the frame of an earlier run stays
    cached. *)
Lemma failed_fetch_keeps_cache_witness :
  exists s',
    script (serving [no_rows]) true
           (@mkapp (serving [no_rows]) (Value (Some 0)) (Value three_days)
                   [] [] [] 0)
    = (Ok Stopped, s')
    /\ data s' = Value three_days.
Proof.
  assert (H : get_stock_data (serving [no_rows]) "0000"
                (@mkstate (serving [no_rows]) (Some 0)
                   (loader_log (@mkapp (serving [no_rows])
                                  (Value (Some 0)) (Value three_days)
                                  [] [] [] 0)) None)
              = (Ok None,
                 snd (get_stock_data (serving [no_rows]) "0000"
                                     (ready [no_rows]))))
    by (vm_compute; reflexivity).
  eexists. split.
  - exact (failed_fetch_keeps_cache (serving [no_rows]) (Some 0)
             (@mkapp (serving [no_rows]) (Value (Some 0)) (Value three_days)
                     [] [] [] 0) _ eq_refl H).
  - reflexivity.
Defined.

(** The first run of a session whose browser does not start. *)
Lemma failed_start_stops_run_witness :
  script not_starting true (fresh not_starting)
  = (Ok Stopped,
     @mkapp not_starting Null Null
       [(ERROR, DriverInitFailed WebDriverException)] []
           [Title; Intro; Spinner StartingDriver;
            Error (DriverStartFailed WebDriverException)] 1).
Proof.
  apply (failed_start_stops_run not_starting (fresh not_starting)
           WebDriverException).
  - intros obj. discriminate.
  - reflexivity.
Defined.



(** The first run of a session, the button pressed. *)
Lemma script_never_raises_witness :
  exists f s',
    script (serving [three_days]) true (fresh (serving [three_days]))
    = (Ok f, s')
    /\ at_exit s' = 1.
Proof.
  destruct (script_never_raises (serving [three_days]) true
              (fresh (serving [three_days])))
    as (f & s' & ws & Hrun & _ & _ & _ & Hexit).
  - intros df E. discriminate E.
  - exists f, s'. split; assumption.
Defined.

(** On an empty session state the handler finds no scraper and does
    nothing. *)
Lemma cleanup_outcomes_witness :
  cleanup (serving []) (fresh (serving []))
  = (Ok tt, fresh (serving [])).
Proof.
  destruct (cleanup_outcomes (serving []) (fresh (serving [])))
    as (s' & Hrun & _ & _ & _ & _ & Hsame & _).
  rewrite Hrun. f_equal. apply Hsame. intros obj. discriminate.
Defined.
